(** * Royal-estate: rent ledger, tenancy registry and landlord statements

    A shallow embedding of the payment, renewal, assignment and statement
    routes of [app.py] (and of the statement route repeated in [appp.py]),
    with the properties of the repository's specification stated over it.

    Conventions of the embedding.
    - SQL tables are lists of rows in rowid order; [INTEGER PRIMARY KEY]
      columns are [Z]; nullable columns are [option].
    - SQLite [REAL] columns and Python [float] values are binary64 numbers
      ([PrimFloat.float]): sums, differences and products round as the
      source's do, and comparisons are the IEEE ones (every comparison with a
      NaN fails).
    - SQLite stores a NaN as [NULL].  A [REAL NOT NULL] column ([payments.amount])
      therefore refuses a NaN with an [IntegrityError]; in a nullable [REAL]
      column that the routes write a number into ([balance_due], [credit],
      [debit], the ledger [amount]) the NaN stands for [NULL]: it fails every
      comparison as [NULL] does, [SUM] skips it, and Python reads it as
      [None].  Prices, which the routes only read, are [option] values.
    - [SUM] adds the selected values in rowid order, from 0.0.
    - A request handler runs in a small monad over a connection that holds
      the committed database, the working copy of the open transaction and
      the trace of statements issued, with early [return] and Python
      exceptions as distinct outcomes.
    - Request fields are taken after parsing: ids are integers, amounts are
      the values [float(...)] returned (which can be infinite or NaN), the
      other fields are the form strings.
    - Primary keys are unique, so a lookup by id followed by [fetchone()] is
      the first match in the table.
    - Text produced by f-strings is kept as constructors carrying the
      interpolated values. *)

From Stdlib Require Import ZArith String List Bool Lia Floats Zpower.
From Stdlib Require Import Permutation Sorted.
Import ListNotations.

Local Open Scope string_scope.
Local Open Scope list_scope.
Local Open Scope Z_scope.

Set Warnings "-inexact-float".

(** ** Python and SQL scalars *)

Module Py.

(** [a > b], [a >= b], [a == b] on floats. *)
Definition gt (a b : float) : bool := PrimFloat.ltb b a.
Definition ge (a b : float) : bool := PrimFloat.leb b a.
Definition eq (a b : float) : bool := PrimFloat.eqb a b.

Inductive exn : Type :=
| TypeError (what : string)
| ValueError (what : string)
| IntegrityError (what : string).

(** Truthiness of an optional integer ([None] and [0] are falsy). *)
Definition truthy_int (o : option Z) : bool :=
  match o with
  | Some z => negb (z =? 0)
  | None => false
  end.

(** Truthiness of a string (the empty string is falsy). *)
Definition truthy_str (s : string) : bool :=
  match s with
  | EmptyString => false
  | _ => true
  end.

(** [float(x or 0)]: [None] and both zeros are falsy and give [0.0]; every
    other number, and NaN, is kept. *)
Definition or0 (o : option float) : float :=
  match o with
  | Some x => if PrimFloat.eqb x 0 then 0%float else x
  | None => 0%float
  end.

(** [str.lower()] on ASCII letters. *)
Definition lower_ascii (c : Ascii.ascii) : Ascii.ascii :=
  let n := Ascii.nat_of_ascii c in
  if andb (Nat.leb 65 n) (Nat.leb n 90) then Ascii.ascii_of_nat (n + 32) else c.

Fixpoint lower (s : string) : string :=
  match s with
  | EmptyString => EmptyString
  | String c s' => String (lower_ascii c) (lower s')
  end.

End Py.

Arguments Py.gt : simpl never.
Arguments Py.ge : simpl never.
Arguments Py.eq : simpl never.
Arguments Py.or0 : simpl never.

(** Order and equality of amounts as propositions. *)
Module Num.

Definition lt (a b : float) : Prop := PrimFloat.ltb a b = true.
Definition le (a b : float) : Prop := PrimFloat.leb a b = true.
Definition eq (a b : float) : Prop := PrimFloat.eqb a b = true.

End Num.

Declare Scope num_scope.
Delimit Scope num_scope with num.
Notation "a < b" := (Num.lt a b) : num_scope.
Notation "a <= b" := (Num.le a b) : num_scope.
Notation "a == b" := (Num.eq a b) (at level 70, no associativity) : num_scope.

(** ** Tables *)

(** Text stored in description / narration columns and shown in messages. *)
Inductive text : Type :=
| Literal (s : string)
| Lease_renewal_payment (new_start_date new_end_date : string)
| Rent_renewal_of (full_name : string)
| Rent_first_payment_of (full_name : string)
| Management_fee_of (amount : float)
| Payment_from (tenant_name : string).

Record landlord : Type := {
  l_id : Z;
  l_full_name : string
}.

Record property : Type := {
  p_id : Z;
  p_title : string;
  p_landlord_id : Z;
  p_price : option float;
  p_status : string
}.

Record property_unit : Type := {
  u_id : Z;
  u_property_id : Z;
  u_price : option float;
  u_status : string;
  u_tenant_id : option Z
}.

Record tenant : Type := {
  t_id : Z;
  t_full_name : string;
  t_lease_start_date : option string;
  t_lease_end_date : option string;
  t_property_id : option Z;
  t_unit_id : option Z
}.

(** Modelled from the spec: the [credit] and [debit] columns of a payment
    (the "optional per-payment credit/debit split"), which [add_payment]
    writes but the [CREATE TABLE payments] of [init_db] does not declare.  The
    other columns are those of [init_db]. *)
Record payment : Type := {
  pay_id : Z;
  pay_tenant_id : Z;
  pay_property_id : Z;
  pay_unit_id : option Z;
  pay_amount : float;
  pay_payment_type : string;
  pay_payment_method : string;
  pay_payment_date : option string;
  pay_balance_due : float;
  pay_status : string;
  pay_description : option text;
  pay_credit : option float;
  pay_debit : option float
}.

(** Modelled from the spec: the [landlord_transactions] table (the "Landlord
    Ledger Entry"), which the routes insert into and select from but [init_db]
    does not create; its columns are those the [INSERT] statements name. *)
Record landlord_transaction : Type := {
  lt_id : Z;
  lt_landlord_id : Z;
  lt_date : option string;
  lt_narration : text;
  lt_transaction_type : string;
  lt_amount : float;
  lt_payment_method : string
}.

Record db : Type := {
  landlords : list landlord;
  properties : list property;
  property_units : list property_unit;
  tenants : list tenant;
  payments : list payment;
  landlord_transactions : list landlord_transaction
}.

Definition with_payments (d : db) (ps : list payment) : db :=
  {| landlords := landlords d; properties := properties d;
     property_units := property_units d; tenants := tenants d;
     payments := ps; landlord_transactions := landlord_transactions d |}.

Definition with_landlord_transactions (d : db) (ls : list landlord_transaction) : db :=
  {| landlords := landlords d; properties := properties d;
     property_units := property_units d; tenants := tenants d;
     payments := payments d; landlord_transactions := ls |}.

Definition with_tenants (d : db) (ts : list tenant) : db :=
  {| landlords := landlords d; properties := properties d;
     property_units := property_units d; tenants := ts;
     payments := payments d; landlord_transactions := landlord_transactions d |}.

Definition with_property_units (d : db) (us : list property_unit) : db :=
  {| landlords := landlords d; properties := properties d;
     property_units := us; tenants := tenants d;
     payments := payments d; landlord_transactions := landlord_transactions d |}.

Definition with_properties (d : db) (ps : list property) : db :=
  {| landlords := landlords d; properties := ps;
     property_units := property_units d; tenants := tenants d;
     payments := payments d; landlord_transactions := landlord_transactions d |}.

(** What Python reads from a nullable [REAL] column. *)
Definition sql_value (x : float) : option float :=
  if PrimFloat.is_nan x then None else Some x.

(** The values of a column that are not [NULL]. *)
Definition numbers (l : list float) : list float :=
  filter (fun x => negb (PrimFloat.is_nan x)) l.

(** [SUM(...)] over the selected rows: the values that are not [NULL], added
    in order; [NULL] when there is none. *)
Definition sql_sum (l : list float) : option float :=
  match numbers l with
  | [] => None
  | x :: xs => Some (fold_left PrimFloat.add (x :: xs) 0%float)
  end.

(** [COUNT( * )]. *)
Definition sql_count {A : Type} (l : list A) : Z := Z.of_nat (length l).

(** The rowid an [AUTOINCREMENT] key gives to the next inserted row. *)
Definition next_id {A : Type} (key : A -> Z) (rows : list A) : Z :=
  1 + fold_right (fun r m => Z.max (key r) m) 0 rows.

(** ** Connections, transactions and handler outcomes *)

Inductive sql_event : Type :=
| BEGIN
| WRITE (table : string)
| COMMIT
| ROLLBACK
| CLOSE.

Record conn : Type := {
  committed : db;
  working : db;
  trace : list sql_event
}.

(** [get_db_connection()] on a stored database. *)
Definition get_db_connection (d : db) : conn :=
  {| committed := d; working := d; trace := [] |}.

Inductive message : Type :=
| Tenant_not_found
| Exceeds_outstanding (amount total_outstanding : float)
| Exceeds_rent (amount rent_amount : float)
| Renewal_payment (credit_amount debit_amount : float)
| Payment_completed (amount : float)
| Partial_payment (amount balance_due : float)
| Error_of (e : Py.exn)
| Plain (s : string)
| Renewal_partial (amount net deduction balance_due : float)
| Renewal_full (amount net deduction : float)
| First_partial (amount balance_due : float)
| First_full (amount : float).

Inductive response : Type :=
| Json (success : bool) (msg : message) (status : Z)
| Flash_redirect (msg : message) (category : string)
| Unhandled (e : Py.exn).

Inductive outcome (A : Type) : Type :=
| Ok (a : A)
| Return (r : response)
| Raise (e : Py.exn).
Arguments Ok {A} a.
Arguments Return {A} r.
Arguments Raise {A} e.

Definition M (A : Type) : Type := conn -> outcome A * conn.

Definition ret {A} (a : A) : M A := fun c => (Ok a, c).

Definition bind {A B} (m : M A) (k : A -> M B) : M B :=
  fun c =>
    match m c with
    | (Ok a, c') => k a c'
    | (Return r, c') => (Return r, c')
    | (Raise e, c') => (Raise e, c')
    end.

Notation "x <- m ;; k" := (bind m (fun x => k))
  (at level 61, m at next level, right associativity).
Notation "m ;; k" := (bind m (fun _ => k))
  (at level 61, right associativity).

(** [return r] from the handler. *)
Definition return_ {A} (r : response) : M A := fun c => (Return r, c).

Definition raise {A} (e : Py.exn) : M A := fun c => (Raise e, c).

(** [try: body except Exception as e: handler e]. *)
Definition try_except {A} (body : M A) (handler : Py.exn -> M A) : M A :=
  fun c =>
    match body c with
    | (Raise e, c') => handler e c'
    | r => r
    end.

(** [try: body finally: cleanup]. *)
Definition try_finally {A} (body : M A) (cleanup : M unit) : M A :=
  fun c =>
    match body c with
    | (o, c') =>
        match cleanup c' with
        | (Ok _, c'') => (o, c'')
        | (Return r, c'') => (Return r, c'')
        | (Raise e, c'') => (Raise e, c'')
        end
    end.

Definition log (e : sql_event) (c : conn) : list sql_event := trace c ++ [e].

Definition execute_begin : M unit :=
  fun c => (Ok tt, {| committed := committed c; working := working c;
                      trace := log BEGIN c |}).

(** A [SELECT] reads the working copy. *)
Definition query {A} (q : db -> A) : M A :=
  fun c => (Ok (q (working c)), c).

(** An [INSERT] or [UPDATE] changes the working copy only. *)
Definition execute_write (table : string) (f : db -> db) : M unit :=
  fun c => (Ok tt, {| committed := committed c; working := f (working c);
                      trace := log (WRITE table) c |}).

Definition commit : M unit :=
  fun c => (Ok tt, {| committed := working c; working := working c;
                      trace := log COMMIT c |}).

Definition rollback : M unit :=
  fun c => (Ok tt, {| committed := committed c; working := committed c;
                      trace := log ROLLBACK c |}).

(** Closing discards whatever was not committed. *)
Definition close : M unit :=
  fun c => (Ok tt, {| committed := committed c; working := committed c;
                      trace := log CLOSE c |}).

(** [float(x)] of a nullable column: [float(None)] raises [TypeError]. *)
Definition py_float (o : option float) : M float :=
  match o with
  | Some x => ret x
  | None => raise (Py.TypeError "float() argument must be a string or a real number, not 'NoneType'")
  end.

(** Run a handler on a stored database: the response and the final
    connection (its [committed] field is what is stored afterwards). *)
Definition run (h : M response) (d : db) : response * conn :=
  match h (get_db_connection d) with
  | (Ok r, c) => (r, c)
  | (Return r, c) => (r, c)
  | (Raise e, c) => (Unhandled e, c)
  end.

(** The events a transaction issued that changed a table. *)
Definition writes (tr : list sql_event) : list sql_event :=
  filter (fun e => match e with WRITE _ => true | _ => false end) tr.

(** ** Queries shared by the payment and renewal routes *)

(** A tenant row joined with its property ([JOIN properties p ON
    t.property_id = p.id]) and its unit ([LEFT JOIN property_units u ON
    t.unit_id = u.id]).  Keys are primary keys, so [fetchone()] is the first
    match. *)
Record tenant_join : Type := {
  j_tenant : tenant;
  j_property : property;
  j_unit : option property_unit
}.

Definition find_tenant (tenant_id : Z) (d : db) : option tenant :=
  find (fun t => t_id t =? tenant_id) (tenants d).

Definition find_property (property_id : Z) (d : db) : option property :=
  find (fun p => p_id p =? property_id) (properties d).

Definition find_unit (unit_id : Z) (d : db) : option property_unit :=
  find (fun u => u_id u =? unit_id) (property_units d).

Definition find_landlord (landlord_id : Z) (d : db) : option landlord :=
  find (fun l => l_id l =? landlord_id) (landlords d).

Definition select_tenant_join (tenant_id : Z) (d : db) : option tenant_join :=
  match find_tenant tenant_id d with
  | None => None
  | Some t =>
      match t_property_id t with
      | None => None
      | Some pid =>
          match find_property pid d with
          | None => None
          | Some p =>
              Some {| j_tenant := t; j_property := p;
                      j_unit := match t_unit_id t with
                                | Some uid => find_unit uid d
                                | None => None
                                end |}
          end
      end
  end.

(** [tenant['unit_id']]: the row has two columns of that name ([t.*] and
    [u.id as unit_id]); [sqlite3.Row] answers with the first one, the
    tenant's. *)
Definition row_unit_id (r : tenant_join) : option Z := t_unit_id (j_tenant r).

(** [tenant['property_id']], equal to [p.id] by the join condition. *)
Definition row_property_id (r : tenant_join) : Z := p_id (j_property r).

Definition row_unit_price (r : tenant_join) : option float :=
  match j_unit r with
  | Some u => u_price u
  | None => None
  end.

(** [CASE WHEN t.unit_id IS NOT NULL THEN u.price ELSE p.price END]. *)
Definition row_rent_amount (r : tenant_join) : option float :=
  match t_unit_id (j_tenant r) with
  | Some _ => row_unit_price r
  | None => p_price (j_property r)
  end.

(** [WHERE tenant_id = ? AND balance_due > 0]. *)
Definition is_open_for (tenant_id : Z) (p : payment) : bool :=
  (pay_tenant_id p =? tenant_id) && Py.gt (pay_balance_due p) 0.

(** [WHERE tenant_id = ? AND payment_type = 'Full' AND balance_due = 0]. *)
Definition is_completed_for (tenant_id : Z) (p : payment) : bool :=
  (pay_tenant_id p =? tenant_id) && String.eqb (pay_payment_type p) "Full"
  && Py.eq (pay_balance_due p) 0.

Definition select_total_outstanding (tenant_id : Z) (d : db) : option float :=
  sql_sum (map pay_balance_due (filter (is_open_for tenant_id) (payments d))).

Definition count_completed (tenant_id : Z) (d : db) : Z :=
  sql_count (filter (is_completed_for tenant_id) (payments d)).

(** [INSERT INTO payments ...]; the result is [cursor.lastrowid].  The
    [amount] column is [REAL NOT NULL]: a NaN, which SQLite binds as [NULL],
    makes the statement fail. *)
Definition insert_payment (row : Z -> payment) : M Z :=
  fun c =>
    let i := next_id pay_id (payments (working c)) in
    if PrimFloat.is_nan (pay_amount (row i)) then
      (Raise (Py.IntegrityError "NOT NULL constraint failed: payments.amount"), c)
    else
      match execute_write "payments"
              (fun d => with_payments d (payments d ++ [row i])) c with
      | (_, c') => (Ok i, c')
      end.

Definition insert_landlord_transaction (row : Z -> landlord_transaction) : M unit :=
  execute_write "landlord_transactions"
    (fun d => with_landlord_transactions d
                (landlord_transactions d
                 ++ [row (next_id lt_id (landlord_transactions d))])).

(** ** Rent ledger engine: [add_payment] (record_payment) *)

(** [UPDATE payments SET balance_due = 0, payment_type = 'Full'
     WHERE tenant_id = ? AND balance_due > 0 AND id != ?]. *)
Definition clear_row (tenant_id lastrowid : Z) (p : payment) : payment :=
  if is_open_for tenant_id p && negb (pay_id p =? lastrowid) then
    {| pay_id := pay_id p; pay_tenant_id := pay_tenant_id p;
       pay_property_id := pay_property_id p; pay_unit_id := pay_unit_id p;
       pay_amount := pay_amount p; pay_payment_type := "Full";
       pay_payment_method := pay_payment_method p;
       pay_payment_date := pay_payment_date p; pay_balance_due := 0%float;
       pay_status := pay_status p; pay_description := pay_description p;
       pay_credit := pay_credit p; pay_debit := pay_debit p |}
  else p.

Definition clear_old_partials (tenant_id lastrowid : Z) (d : db) : db :=
  with_payments d (map (clear_row tenant_id lastrowid) (payments d)).

(** Lines 1257-1282: payment type and balance against a target (the
    outstanding balance, or the rent of a new cycle). *)
Definition classify (amount target : float) : string * float :=
  (if Py.ge amount target then "Full" else "Partial",
   if Py.ge amount target then 0%float else (target - amount)%float).

(** Lines 1284-1303: the credit/debit stored with the payment. *)
Definition split_fee (is_renewal : bool) (amount total_outstanding balance_due : float)
  : float * float * message :=
  if Py.eq balance_due 0 then
    if is_renewal && Py.eq total_outstanding 0 then
      let deduction := (amount * 0.10)%float in
      let credit_amount := (amount - deduction)%float in
      let debit_amount := deduction in
      (credit_amount, debit_amount, Renewal_payment credit_amount debit_amount)
    else
      (amount, 0%float, Payment_completed amount)
  else
    (0%float, 0%float, Partial_payment amount balance_due).

Definition add_payment (tenant_id : Z) (amount : float) (payment_method : string)
    (payment_date : string) (description : option string) : M response :=
  execute_begin ;;
  try_except
    (tenant <- query (select_tenant_join tenant_id) ;;
     match tenant with
     | None =>
         rollback ;; close ;;
         return_ (Json false Tenant_not_found 404)
     | Some tenant =>
         let property_id := row_property_id tenant in
         let unit_id := row_unit_id tenant in
         rent_amount <- py_float (row_rent_amount tenant) ;;
         outstanding <- query (select_total_outstanding tenant_id) ;;
         let total_outstanding := Py.or0 outstanding in
         completed_cycles <- query (count_completed tenant_id) ;;
         let is_renewal := completed_cycles >=? 1 in
         classified <-
           (if Py.gt total_outstanding 0 then
              if Py.gt amount total_outstanding then
                rollback ;; close ;;
                return_ (Json false (Exceeds_outstanding amount total_outstanding) 400)
              else ret (classify amount total_outstanding)
            else
              if Py.gt amount rent_amount then
                rollback ;; close ;;
                return_ (Json false (Exceeds_rent amount rent_amount) 400)
              else ret (classify amount rent_amount)) ;;
         let '(payment_type, balance_due) := classified in
         let '(credit_amount, debit_amount, success_message) :=
           split_fee is_renewal amount total_outstanding balance_due in
         lastrowid <- insert_payment (fun i =>
           {| pay_id := i; pay_tenant_id := tenant_id;
              pay_property_id := property_id; pay_unit_id := unit_id;
              pay_amount := amount; pay_payment_type := payment_type;
              pay_payment_method := payment_method;
              pay_payment_date := Some payment_date;
              pay_balance_due := balance_due; pay_status := "Paid";
              pay_description := option_map Literal description;
              pay_credit := Some credit_amount;
              pay_debit := Some debit_amount |}) ;;
         (if Py.gt total_outstanding 0 && Py.eq balance_due 0 then
            execute_write "payments" (clear_old_partials tenant_id lastrowid)
          else ret tt) ;;
         commit ;; close ;;
         return_ (Json true success_message 200)
     end)
    (fun e =>
       rollback ;; close ;;
       return_ (Json false (Error_of e) 500)).

(** ** The quantities of the specification *)

(** A payment row of the tenant that is open: its [balance_due] is positive. *)
Definition owes (tenant_id : Z) (p : payment) : bool :=
  (pay_tenant_id p =? tenant_id) && PrimFloat.ltb 0 (pay_balance_due p).

(** The sum of a list of amounts, added in order from 0.0. *)
Definition sum_of (l : list float) : float := fold_left PrimFloat.add l 0%float.

(** [total_outstanding]: the sum of [balance_due] over the tenant's payments
    with [balance_due > 0]. *)
Definition total_outstanding (tenant_id : Z) (d : db) : float :=
  sum_of (map pay_balance_due (filter (owes tenant_id) (payments d))).

(** The tenant exists and is assigned: its row refers to a stored property. *)
Definition is_assigned (tenant_id : Z) (d : db) : bool :=
  match find_tenant tenant_id d with
  | Some t =>
      match t_property_id t with
      | Some pid =>
          match find_property pid d with
          | Some _ => true
          | None => false
          end
      | None => false
      end
  | None => false
  end.

(** [rent_due]: the unit's price when the tenant has a unit, the property's
    price otherwise; [None] when there is no such tenant, property or unit, or
    when the price is [NULL]. *)
Definition rent_due (tenant_id : Z) (d : db) : option float :=
  match find_tenant tenant_id d with
  | Some t =>
      match t_property_id t with
      | Some pid =>
          match find_property pid d with
          | Some p =>
              match t_unit_id t with
              | Some uid =>
                  match find_unit uid d with
                  | Some u => u_price u
                  | None => None
                  end
              | None => p_price p
              end
          | None => None
          end
      | None => None
      end
  | None => None
  end.

(** [max(0, x)]. *)
Definition max0 (x : float) : float :=
  if PrimFloat.ltb 0 x then x else 0%float.

(** What the route computes on entry for the fee. *)
Definition is_renewal (tenant_id : Z) (d : db) : bool :=
  count_completed tenant_id d >=? 1.

(** The target a payment is measured against. *)
Definition target_of (total rent : float) : float :=
  if Py.gt total 0 then total else rent.

(** The row [add_payment] inserts once the amount is accepted. *)
Definition payment_row (d : db) (r : tenant_join) (tenant_id : Z) (amount rent : float)
    (payment_method payment_date : string) (description : option string) : payment :=
  let total := total_outstanding tenant_id d in
  let target := target_of total rent in
  let balance_due := snd (classify amount target) in
  let fee := split_fee (is_renewal tenant_id d) amount total balance_due in
  {| pay_id := next_id pay_id (payments d); pay_tenant_id := tenant_id;
     pay_property_id := row_property_id r; pay_unit_id := row_unit_id r;
     pay_amount := amount; pay_payment_type := fst (classify amount target);
     pay_payment_method := payment_method;
     pay_payment_date := Some payment_date;
     pay_balance_due := balance_due; pay_status := "Paid";
     pay_description := option_map Literal description;
     pay_credit := Some (fst (fst fee)); pay_debit := Some (snd (fst fee)) |}.

(** Whether the cleanup [UPDATE] runs. *)
Definition completes_outstanding (total balance_due : float) : bool :=
  Py.gt total 0 && Py.eq balance_due 0.

Definition stored_after_payment (d : db) (tenant_id : Z) (row : payment) (total : float) : db :=
  let d1 := with_payments d (payments d ++ [row]) in
  if completes_outstanding total (pay_balance_due row)
  then clear_old_partials tenant_id (pay_id row) d1
  else d1.

Definition aborted (d : db) : conn :=
  {| committed := d; working := d; trace := [BEGIN; ROLLBACK; CLOSE] |}.

(** ** Rent ledger engine: [renew_rent] (renew_lease_with_payment) *)

(** The renewal query also has [JOIN landlords l ON p.landlord_id = l.id]. *)
Definition select_tenant_join_landlord (tenant_id : Z) (d : db)
  : option (tenant_join * landlord) :=
  match select_tenant_join tenant_id d with
  | None => None
  | Some r =>
      match find_landlord (p_landlord_id (j_property r)) d with
      | Some l => Some (r, l)
      | None => None
      end
  end.

(** [UPDATE tenants SET lease_start_date = ?, lease_end_date = ? WHERE id = ?]. *)
Definition update_lease_dates (tenant_id : Z) (new_start_date new_end_date : string)
    (d : db) : db :=
  with_tenants d
    (map (fun t =>
            if t_id t =? tenant_id then
              {| t_id := t_id t; t_full_name := t_full_name t;
                 t_lease_start_date := Some new_start_date;
                 t_lease_end_date := Some new_end_date;
                 t_property_id := t_property_id t; t_unit_id := t_unit_id t |}
            else t)
         (tenants d)).

(** [description or default]. *)
Definition description_or (description : string) (default : text) : text :=
  if Py.truthy_str description then Literal description else default.

(** Line 1867: [tenant['unit_price'] if unit_id else tenant['property_price']]. *)
Definition renewal_rent_column (r : tenant_join) : option float :=
  if Py.truthy_int (row_unit_id r) then row_unit_price r else p_price (j_property r).

(** Lines 1880-1883. *)
Definition renewal_balance_due (payment_type : string) (rent_amount amount : float) : float :=
  if String.eqb payment_type "Partial" then (rent_amount - amount)%float else 0%float.

(** The request fields after parsing: [tenant_id] and [amount] are the values
    the form strings denote ([float(amount)] succeeded); the other fields are
    the form strings, the empty string standing for a missing one. *)
Definition renew_rent (tenant_id : Z) (new_start_date new_end_date : string)
    (amount : float) (payment_method payment_type payment_date description : string)
  : M response :=
  if negb (Py.truthy_str new_start_date && Py.truthy_str new_end_date
           && Py.truthy_str payment_method) then
    close ;;
    return_ (Flash_redirect (Plain "All required fields must be filled.") "danger")
  else
    execute_begin ;;
    flashed <-
      try_except
        (tenant <- query (select_tenant_join_landlord tenant_id) ;;
         match tenant with
         | None =>
             rollback ;; close ;;
             return_ (Flash_redirect (Plain "Tenant not found.") "danger")
         | Some (tenant, _) =>
             let property_id := row_property_id tenant in
             let landlord_id := p_landlord_id (j_property tenant) in
             let unit_id := row_unit_id tenant in
             let full_name := t_full_name (j_tenant tenant) in
             rent_amount <- py_float (renewal_rent_column tenant) ;;
             prev_payments <- query (count_completed tenant_id) ;;
             let is_renewal := prev_payments >=? 1 in
             let balance_due := renewal_balance_due payment_type rent_amount amount in
             execute_write "tenants"
               (update_lease_dates tenant_id new_start_date new_end_date) ;;
             payment_id <- insert_payment (fun i =>
               {| pay_id := i; pay_tenant_id := tenant_id;
                  pay_property_id := property_id; pay_unit_id := unit_id;
                  pay_amount := amount; pay_payment_type := payment_type;
                  pay_payment_method := payment_method;
                  pay_payment_date := Some payment_date;
                  pay_balance_due := balance_due; pay_status := "Paid";
                  pay_description :=
                    Some (description_or description
                            (Lease_renewal_payment new_start_date new_end_date));
                  pay_credit := None; pay_debit := None |}) ;;
             msg <-
               (if is_renewal then
                  insert_landlord_transaction (fun i =>
                    {| lt_id := i; lt_landlord_id := landlord_id;
                       lt_date := Some payment_date;
                       lt_narration := description_or description (Rent_renewal_of full_name);
                       lt_transaction_type := "credit"; lt_amount := amount;
                       lt_payment_method := payment_method |}) ;;
                  let deduction_amount := (amount * 0.10)%float in
                  insert_landlord_transaction (fun i =>
                    {| lt_id := i; lt_landlord_id := landlord_id;
                       lt_date := Some payment_date;
                       lt_narration := Management_fee_of amount;
                       lt_transaction_type := "debit"; lt_amount := deduction_amount;
                       lt_payment_method := "Automatic Deduction" |}) ;;
                  let landlord_net_amount := (amount - deduction_amount)%float in
                  ret (if String.eqb payment_type "Partial"
                       then Renewal_partial amount landlord_net_amount deduction_amount balance_due
                       else Renewal_full amount landlord_net_amount deduction_amount)
                else
                  insert_landlord_transaction (fun i =>
                    {| lt_id := i; lt_landlord_id := landlord_id;
                       lt_date := Some payment_date;
                       lt_narration :=
                         description_or description (Rent_first_payment_of full_name);
                       lt_transaction_type := "credit"; lt_amount := amount;
                       lt_payment_method := payment_method |}) ;;
                  ret (if String.eqb payment_type "Partial"
                       then First_partial amount balance_due
                       else First_full amount)) ;;
             commit ;;
             ret (msg, "success")
         end)
        (fun e =>
           rollback ;;
           ret (Error_of e, "danger")) ;;
    close ;;
    return_ (Flash_redirect (fst flashed) (snd flashed)).

(** ** Tenancy registry: [assign_tenant] *)

(** [UPDATE tenants SET property_id = ?, unit_id = ? WHERE id = ?]. *)
Definition update_tenant_links (tenant_id : Z) (property_id unit_id : option Z)
    (d : db) : db :=
  with_tenants d
    (map (fun t =>
            if t_id t =? tenant_id then
              {| t_id := t_id t; t_full_name := t_full_name t;
                 t_lease_start_date := t_lease_start_date t;
                 t_lease_end_date := t_lease_end_date t;
                 t_property_id := property_id; t_unit_id := unit_id |}
            else t)
         (tenants d)).

(** [UPDATE property_units SET status = ?, tenant_id = ? WHERE id = ?]. *)
Definition update_unit_occupied (unit_id tenant_id : Z) (d : db) : db :=
  with_property_units d
    (map (fun u =>
            if u_id u =? unit_id then
              {| u_id := u_id u; u_property_id := u_property_id u;
                 u_price := u_price u; u_status := "Occupied";
                 u_tenant_id := Some tenant_id |}
            else u)
         (property_units d)).

(** [UPDATE properties SET status = ? WHERE id = ?]. *)
Definition update_property_status (property_id : Z) (status : string) (d : db) : db :=
  with_properties d
    (map (fun p =>
            if p_id p =? property_id then
              {| p_id := p_id p; p_title := p_title p;
                 p_landlord_id := p_landlord_id p; p_price := p_price p;
                 p_status := status |}
            else p)
         (properties d)).

Definition units_of (property_id : Z) (d : db) : list property_unit :=
  filter (fun u => u_property_id u =? property_id) (property_units d).

Definition occupied_units_of (property_id : Z) (d : db) : list property_unit :=
  filter (fun u => (u_property_id u =? property_id) && String.eqb (u_status u) "Occupied")
    (property_units d).

(** The JSON body [{tenant_id, property_id, unit_id}] with integer ids. *)
Definition assign_tenant (tenant_id property_id unit_id : option Z) : M response :=
  let unit_id := if Py.truthy_int unit_id then unit_id else None in
  match Py.truthy_int tenant_id, tenant_id, Py.truthy_int property_id, property_id with
  | true, Some tenant_id, true, Some property_id =>
      try_finally
        (try_except
           (execute_begin ;;
            tenant <- query (find_tenant tenant_id) ;;
            match tenant with
            | None =>
                rollback ;;
                return_ (Json false (Plain "Tenant not found") 404)
            | Some tenant =>
                if Py.truthy_int (t_property_id tenant) || Py.truthy_int (t_unit_id tenant) then
                  rollback ;;
                  return_ (Json false (Plain "Tenant already assigned to a property or unit") 400)
                else
                  match unit_id with
                  | Some unit_id =>
                      unit <- query (find_unit unit_id) ;;
                      match unit with
                      | None =>
                          rollback ;;
                          return_ (Json false (Plain "Unit not found") 404)
                      | Some unit =>
                          if negb (u_property_id unit =? property_id) then
                            rollback ;;
                            return_ (Json false
                                       (Plain "Unit does not belong to the selected property") 400)
                          else if negb (String.eqb (u_status unit) "Vacant") then
                            rollback ;;
                            return_ (Json false (Plain "Unit is not available") 409)
                          else
                            execute_write "tenants"
                              (update_tenant_links tenant_id (Some property_id) (Some unit_id)) ;;
                            execute_write "property_units"
                              (update_unit_occupied unit_id tenant_id) ;;
                            total_units <- query (fun d => sql_count (units_of property_id d)) ;;
                            occupied_units <-
                              query (fun d => sql_count (occupied_units_of property_id d)) ;;
                            if negb (total_units =? 0) && (total_units =? occupied_units) then
                              execute_write "properties"
                                (update_property_status property_id "Occupied")
                            else ret tt
                      end
                  | None =>
                      prop <- query (find_property property_id) ;;
                      match prop with
                      | None =>
                          rollback ;;
                          return_ (Json false (Plain "Property not found") 404)
                      | Some prop =>
                          if negb (String.eqb (p_status prop) "Vacant") then
                            rollback ;;
                            return_ (Json false (Plain "Property is not available") 409)
                          else
                            execute_write "tenants"
                              (update_tenant_links tenant_id (Some property_id) None) ;;
                            execute_write "properties"
                              (update_property_status property_id "Occupied")
                      end
                  end ;;
                  commit ;;
                  return_ (Json true (Plain "Tenant assigned successfully") 200)
            end)
           (fun e =>
              rollback ;;
              return_ (Json false (Error_of e) 500)))
        close
  | _, _, _, _ =>
      return_ (Json false (Plain "Missing tenant_id or property_id") 400)
  end.

(** ** Landlord statement builder: [landlord_account_detail] (build_statement) *)

(** A line of [merged]. *)
Record statement_line : Type := {
  tx_date : option string;
  tx_narration : text;
  tx_mode_of_payment : string;
  tx_credit : float;
  tx_debit : float;
  tx_source : string;
  tx_meta_id : Z
}.

(** A line of [detailed]. *)
Record detailed_line : Type := {
  sn : Z;
  tx : statement_line;
  balance : float
}.

Inductive statement_view : Type :=
| Landlord_not_found
| Statement (transactions : list detailed_line) (final_balance : float).

(** [FROM payments p LEFT JOIN tenants t ON p.tenant_id = t.id
     LEFT JOIN properties prop ON p.property_id = prop.id
     WHERE prop.landlord_id = ?]: one joined row per matching property. *)
Definition payments_join_properties (landlord_id : Z) (d : db) : list (payment * property) :=
  flat_map
    (fun p =>
       map (fun prop => (p, prop))
         (filter (fun prop => (p_id prop =? pay_property_id p)
                              && (p_landlord_id prop =? landlord_id))
            (properties d)))
    (payments d).

Definition tenant_name_of (p : payment) (d : db) : option string :=
  option_map t_full_name (find_tenant (pay_tenant_id p) d).

Definition payment_line (d : db) (p : payment) : statement_line :=
  {| tx_date := pay_payment_date p;
     tx_narration :=
       match pay_description p with
       | Some (Literal "") | None =>
           Payment_from (match tenant_name_of p d with
                         | Some "" | None => "Unknown tenant"
                         | Some n => n
                         end)
       | Some n => n
       end;
     tx_mode_of_payment := pay_payment_method p;
     tx_credit := Py.or0 (sql_value (pay_amount p));
     tx_debit := 0%float;
     tx_source := "payment";
     tx_meta_id := pay_id p |}.

(** [WHERE lt.landlord_id = ?]. *)
Definition manual_rows (landlord_id : Z) (d : db) : list landlord_transaction :=
  filter (fun m => lt_landlord_id m =? landlord_id) (landlord_transactions d).

Definition manual_line (m : landlord_transaction) : statement_line :=
  let is_credit := String.eqb (Py.lower (lt_transaction_type m)) "credit" in
  {| tx_date := lt_date m;
     tx_narration := lt_narration m;
     tx_mode_of_payment := lt_payment_method m;
     tx_credit := if is_credit then Py.or0 (sql_value (lt_amount m)) else 0%float;
     tx_debit := if is_credit then 0%float else Py.or0 (sql_value (lt_amount m));
     tx_source := "manual";
     tx_meta_id := lt_id m |}.

(** [x['date'] or '']. *)
Definition sort_key (x : statement_line) : string :=
  match tx_date x with
  | Some s => s
  | None => ""
  end.

(** [merged.sort(key=...)] is a stable sort; the stable arrangement of a list
    is unique, and insertion from the right, placing an element before the
    later elements of equal key, computes it. *)
Fixpoint insert_line (x : statement_line) (l : list statement_line) : list statement_line :=
  match l with
  | [] => [x]
  | y :: l' =>
      if String.leb (sort_key x) (sort_key y) then x :: l
      else y :: insert_line x l'
  end.

Fixpoint sort_by_date (l : list statement_line) : list statement_line :=
  match l with
  | [] => []
  | x :: l' => insert_line x (sort_by_date l')
  end.

(** Lines 2323-2338: the loop over [enumerate(merged, start=i)] from a
    balance. *)
Fixpoint running_balance (i : Z) (balance : float) (merged : list statement_line)
  : list detailed_line * float :=
  match merged with
  | [] => ([], balance)
  | x :: rest =>
      let balance' :=
        (balance + (Py.or0 (Some (tx_credit x)) - Py.or0 (Some (tx_debit x))))%float in
      let '(detailed, final) := running_balance (i + 1) balance' rest in
      ({| sn := i; tx := x; balance := balance' |} :: detailed, final)
  end.

Definition merged_lines (landlord_id : Z) (d : db) : list statement_line :=
  sort_by_date
    (map (fun pp => payment_line d (fst pp)) (payments_join_properties landlord_id d)
     ++ map manual_line (manual_rows landlord_id d)).

Definition landlord_account_detail (landlord_id : Z) (d : db) : statement_view :=
  match find_landlord landlord_id d with
  | None => Landlord_not_found
  | Some _ =>
      let '(detailed, final) := running_balance 1 0%float (merged_lines landlord_id d) in
      Statement detailed final
  end.

(** ** Dashboard: the general account (general_balance_all_landlords) *)











(** Primary keys of [properties] are unique. *)
Definition property_ids_unique (d : db) : Prop := NoDup (map p_id (properties d)).

(** ** What an accepted renewal stores *)

Definition renewal_payment_row (d : db) (r : tenant_join) (tenant_id : Z)
    (new_start_date new_end_date : string) (amount rent : float)
    (payment_method payment_type payment_date description : string) : payment :=
  {| pay_id := next_id pay_id (payments d); pay_tenant_id := tenant_id;
     pay_property_id := row_property_id r; pay_unit_id := row_unit_id r;
     pay_amount := amount; pay_payment_type := payment_type;
     pay_payment_method := payment_method;
     pay_payment_date := Some payment_date;
     pay_balance_due := renewal_balance_due payment_type rent amount;
     pay_status := "Paid";
     pay_description :=
       Some (description_or description (Lease_renewal_payment new_start_date new_end_date));
     pay_credit := None; pay_debit := None |}.

Definition ledger_entry (i landlord_id : Z) (payment_date : string) (narration : text)
    (transaction_type : string) (amount : float) (payment_method : string)
  : landlord_transaction :=
  {| lt_id := i; lt_landlord_id := landlord_id; lt_date := Some payment_date;
     lt_narration := narration; lt_transaction_type := transaction_type;
     lt_amount := amount; lt_payment_method := payment_method |}.

Definition renewal_entries (d : db) (r : tenant_join) (tenant_id : Z) (amount : float)
    (payment_method payment_date description : string) : list landlord_transaction :=
  let landlord_id := p_landlord_id (j_property r) in
  let full_name := t_full_name (j_tenant r) in
  let i := next_id lt_id (landlord_transactions d) in
  if is_renewal tenant_id d then
    let credit := ledger_entry i landlord_id payment_date
                    (description_or description (Rent_renewal_of full_name))
                    "credit" amount payment_method in
    [ credit;
      ledger_entry (next_id lt_id (landlord_transactions d ++ [credit])) landlord_id
        payment_date (Management_fee_of amount) "debit" (amount * 0.10)%float
        "Automatic Deduction" ]
  else
    [ ledger_entry i landlord_id payment_date
        (description_or description (Rent_first_payment_of full_name))
        "credit" amount payment_method ].

Definition renewal_message (d : db) (tenant_id : Z) (amount rent : float)
    (payment_type : string) : message :=
  let balance_due := renewal_balance_due payment_type rent amount in
  let deduction_amount := (amount * 0.10)%float in
  if is_renewal tenant_id d then
    if String.eqb payment_type "Partial"
    then Renewal_partial amount (amount - deduction_amount) deduction_amount balance_due
    else Renewal_full amount (amount - deduction_amount) deduction_amount
  else
    if String.eqb payment_type "Partial"
    then First_partial amount balance_due
    else First_full amount.

Definition stored_after_renewal (d : db) (tenant_id : Z)
    (new_start_date new_end_date : string) (row : payment)
    (entries : list landlord_transaction) : db :=
  let d1 := update_lease_dates tenant_id new_start_date new_end_date d in
  let d2 := with_payments d1 (payments d1 ++ [row]) in
  with_landlord_transactions d2 (landlord_transactions d2 ++ entries).

Definition required_fields (new_start_date new_end_date payment_method : string) : bool :=
  Py.truthy_str new_start_date && Py.truthy_str new_end_date && Py.truthy_str payment_method.

(** ** What [assign_tenant] decides and stores *)

(** A reference column holds a row id: rowids start at 1, [NULL] and 0 both
    read as no reference in the Python tests. *)
Definition assigned (t : tenant) : bool :=
  Py.truthy_int (t_property_id t) || Py.truthy_int (t_unit_id t).

(** Line 822: [total_units and total_units == occupied_units]. *)
Definition all_units_counted_occupied (property_id : Z) (d : db) : bool :=
  negb (sql_count (units_of property_id d) =? 0)
  && (sql_count (units_of property_id d) =? sql_count (occupied_units_of property_id d)).


Definition stored_after_unit_assignment (d : db) (tenant_id property_id unit_id : Z) : db :=
  let d1 := update_tenant_links tenant_id (Some property_id) (Some unit_id) d in
  let d2 := update_unit_occupied unit_id tenant_id d1 in
  if all_units_counted_occupied property_id d2
  then update_property_status property_id "Occupied" d2
  else d2.

Definition stored_after_property_assignment (d : db) (tenant_id property_id : Z) : db :=
  update_property_status property_id "Occupied"
    (update_tenant_links tenant_id (Some property_id) None d).

(** The unit the request names, after [data.get('unit_id') or None]. *)
Definition requested_unit (unit_id : option Z) : option Z :=
  if Py.truthy_int unit_id then unit_id else None.

Definition settled (d : db) (tr : list sql_event) : conn :=
  {| committed := d; working := d; trace := tr |}.

(** One multi-unit property with two vacant units, one standard vacant
    property, and an unassigned tenant. *)
Definition sample_registry : db :=
  {| landlords := [ {| l_id := 1; l_full_name := "Obi" |} ];
     properties :=
       [ {| p_id := 1; p_title := "Block A"; p_landlord_id := 1;
            p_price := None; p_status := "Vacant" |};
         {| p_id := 2; p_title := "Bungalow"; p_landlord_id := 1;
            p_price := Some 1500%float; p_status := "Vacant" |} ];
     property_units :=
       [ {| u_id := 1; u_property_id := 1; u_price := Some 800%float;
            u_status := "Vacant"; u_tenant_id := None |};
         {| u_id := 2; u_property_id := 1; u_price := Some 750%float;
            u_status := "Occupied"; u_tenant_id := Some 9 |} ];
     tenants :=
       [ {| t_id := 7; t_full_name := "Ada"; t_lease_start_date := None;
            t_lease_end_date := None; t_property_id := None; t_unit_id := None |};
         {| t_id := 9; t_full_name := "Bayo"; t_lease_start_date := None;
            t_lease_end_date := None; t_property_id := Some 1; t_unit_id := Some 2 |} ];
     payments := [];
     landlord_transactions := [] |}.

(** ** Vocabulary of the statements *)

(** The tenant has a fully closed cycle: a payment with
    [payment_type = 'Full'] and [balance_due = 0]. *)
Definition has_completed_cycle (tenant_id : Z) (d : db) : Prop :=
  exists p, In p (payments d) /\ pay_tenant_id p = tenant_id
            /\ pay_payment_type p = "Full" /\ (pay_balance_due p == 0)%num.

(** A call was refused with [msg] and left the stored database as it was. *)
Definition rejected_with (call : response * conn) (msg : message) (d : db) : Prop :=
  fst call = Json false msg 400 /\ committed (snd call) = d.

(** After the call the payments table is the former rows, in place, followed
    by one new row. *)
Definition appended_payment (d : db) (c : conn) (olds : list payment) (new : payment) : Prop :=
  payments (committed c) = olds ++ [new] /\ length olds = length (payments d).

Definition classified_against (target amount : float) (new : payment) : Prop :=
  ((target <= amount)%num -> pay_payment_type new = "Full")
  /\ ((amount < target)%num -> pay_payment_type new = "Partial")
  /\ pay_balance_due new = max0 (target - amount).

Definition accepted_against (call : response * conn) (d : db) (tenant_id : Z)
    (amount target : float) : Prop :=
  exists msg olds new,
    fst call = Json true msg 200
    /\ appended_payment d (snd call) olds new
    /\ pay_tenant_id new = tenant_id
    /\ pay_amount new = amount
    /\ classified_against target amount new.

(** A former row and what the cleanup leaves of it. *)
Definition normalised (tenant_id : Z) (p p' : payment) : Prop :=
  if owes tenant_id p then
    pay_balance_due p' = 0%float /\ pay_payment_type p' = "Full"
    /\ pay_id p' = pay_id p /\ pay_tenant_id p' = pay_tenant_id p
    /\ pay_amount p' = pay_amount p
  else p' = p.

(** What is stored when a payment is kept as Partial against [target]. *)
Definition stored_as_partial (call : response * conn) (d : db) (tenant_id : Z)
    (amount target : float) : Prop :=
  exists msg olds new credit debit,
    fst call = Json true msg 200
    /\ appended_payment d (snd call) olds new
    /\ pay_tenant_id new = tenant_id
    /\ pay_amount new = amount
    /\ pay_payment_type new = "Partial"
    /\ pay_balance_due new = (target - amount)%float
    /\ pay_credit new = Some credit /\ pay_debit new = Some debit
    /\ credit = 0%float /\ debit = 0%float.

(** The classification of the payments of the tenants [tenancy] selects: with
    a positive outstanding balance a payment above it is refused and any other
    is stored against it; with none, the same against the rent due. *)
Definition payments_classified (tenancy : Z -> db -> Prop) : Prop :=
  forall (d : db) (tenant_id : Z) (amount : float) (payment_method payment_date : string)
         (description : option string),
    tenancy tenant_id d ->
    let total := total_outstanding tenant_id d in
    let call := run (add_payment tenant_id amount payment_method payment_date description) d in
    ((0 < total)%num ->
       ((total < amount)%num -> rejected_with call (Exceeds_outstanding amount total) d)
       /\ ((amount <= total)%num -> accepted_against call d tenant_id amount total))
    /\ ((total == 0)%num ->
        forall rent, rent_due tenant_id d = Some rent ->
        ((rent < amount)%num -> rejected_with call (Exceeds_rent amount rent) d)
        /\ ((amount <= rent)%num -> accepted_against call d tenant_id amount rent)).

(** A call answered with status 500 that left the stored database as it was. *)
Definition failed_with_error (call : response * conn) (d : db) : Prop :=
  exists e, call = (Json false (Error_of e) 500,
                    {| committed := d; working := d; trace := [BEGIN; ROLLBACK; CLOSE] |}).

(** The credit and debit stored with an accepted payment, [fee amount credit
    debit] being what is stored when the payment closes a cycle of a tenant
    with a completed cycle and nothing outstanding on entry. *)
Definition fee_split (fee : float -> float -> float -> Prop) : Prop :=
  forall (d : db) (tenant_id : Z) (amount : float) (payment_method payment_date : string)
         (description : option string) (msg : message),
    let call := run (add_payment tenant_id amount payment_method payment_date description) d in
    let total := total_outstanding tenant_id d in
    fst call = Json true msg 200 ->
    exists olds new credit debit,
      appended_payment d (snd call) olds new
      /\ pay_amount new = amount
      /\ pay_credit new = Some credit /\ pay_debit new = Some debit
      /\ ((pay_balance_due new == 0)%num -> has_completed_cycle tenant_id d ->
          (total == 0)%num -> fee amount credit debit)
      /\ ((pay_balance_due new == 0)%num ->
          ~ has_completed_cycle tenant_id d \/ (0 < total)%num ->
          credit = amount /\ debit = 0%float)
      /\ ((0 < pay_balance_due new)%num -> credit = 0%float /\ debit = 0%float).

(** The fee as the specification words it, and as binary64 computes it. *)
Definition fee_as_specified (amount credit debit : float) : Prop :=
  credit = (amount * 0.90)%float /\ debit = (amount * 0.10)%float
  /\ (credit + debit)%float = amount.

Definition fee_as_computed (amount credit debit : float) : Prop :=
  debit = (amount * 0.10)%float /\ credit = (amount - amount * 0.10)%float.

(** The behaviour of [add_payment] on amounts that are not positive, for the
    tenants [tenancy] selects and, among the calls with no outstanding
    balance, those [applies amount rent] selects. *)
Definition nonpositive_amounts_stored_partial
    (tenancy : Z -> db -> Prop) (applies : float -> float -> Prop) : Prop :=
  forall (d : db) (tenant_id : Z) (amount : float) (payment_method payment_date : string)
         (description : option string),
    tenancy tenant_id d ->
    (amount <= 0)%num ->
    let total := total_outstanding tenant_id d in
    let call := run (add_payment tenant_id amount payment_method payment_date description) d in
    ((total == 0)%num ->
       forall rent, rent_due tenant_id d = Some rent -> applies amount rent ->
       stored_as_partial call d tenant_id amount rent /\ (rent <= rent - amount)%num)
    /\ ((0 < total)%num -> stored_as_partial call d tenant_id amount total).

(** ** Sample data: the scenarios of the specification *)

Definition sample_tenant : tenant :=
  {| t_id := 7; t_full_name := "Ada"; t_lease_start_date := Some "2024-01-01";
     t_lease_end_date := Some "2024-12-31"; t_property_id := Some 1;
     t_unit_id := None |}.

(** One landlord, one standard property at 1500, one assigned tenant. *)
Definition sample_db : db :=
  {| landlords := [ {| l_id := 1; l_full_name := "Obi" |} ];
     properties := [ {| p_id := 1; p_title := "Bungalow"; p_landlord_id := 1;
                        p_price := Some 1500%float; p_status := "Occupied" |} ];
     property_units := [];
     tenants := [ sample_tenant ];
     payments := [];
     landlord_transactions := [] |}.

Definition sample_payment (i : Z) (amount : float) (payment_type : string) (balance_due : float)
    (credit debit : float) : payment :=
  {| pay_id := i; pay_tenant_id := 7; pay_property_id := 1; pay_unit_id := None;
     pay_amount := amount; pay_payment_type := payment_type;
     pay_payment_method := "Cash"; pay_payment_date := Some "2024-01-05";
     pay_balance_due := balance_due; pay_status := "Paid";
     pay_description := None; pay_credit := Some credit; pay_debit := Some debit |}.

(** Scenario B happened: 1000 paid of 1500, 500 outstanding. *)
Definition sample_db_partial : db :=
  with_payments sample_db [ sample_payment 1 1000 "Partial" 500 0 0 ].

(** Scenario B for a tenant whose property has no price. *)
Definition sample_db_unpriced : db :=
  with_properties sample_db_partial
    [ {| p_id := 1; p_title := "Bungalow"; p_landlord_id := 1;
         p_price := None; p_status := "Occupied" |} ].

(** A first cycle was closed in full. *)
Definition sample_db_closed : db :=
  with_payments sample_db [ sample_payment 1 1500 "Full" 0 1500 0 ].

(** A rent of 100.46, with a first cycle closed in full. *)
Definition sample_db_cents : db :=
  with_payments
    (with_properties sample_db
       [ {| p_id := 1; p_title := "Bungalow"; p_landlord_id := 1;
            p_price := Some 100.46%float; p_status := "Occupied" |} ])
    [ sample_payment 1 100.46 "Full" 0 100.46 0 ].

(** The same tenant in a property whose rent is zero. *)
Definition sample_db_free : db :=
  with_properties sample_db
    [ {| p_id := 1; p_title := "Bungalow"; p_landlord_id := 1;
         p_price := Some 0%float; p_status := "Occupied" |} ].

(** ** Vocabulary of the statement builder *)

(** The balance standing before line [i] of a statement (lines counted from
    0): 0 before the first line, the balance of the previous line after. *)
Definition balance_before (transactions : list detailed_line) (i : nat) : float :=
  match i with
  | O => 0%float
  | S j =>
      match nth_error transactions j with
      | Some previous => balance previous
      | None => 0%float
      end
  end.

(** The date of a line as text, a missing date reading as the empty text. *)
Definition line_date (x : statement_line) : string :=
  match tx_date x with
  | Some date => date
  | None => ""
  end.

(** Ascending date order of two lines: ISO dates compare as their text. *)
Definition date_le (a b : statement_line) : Prop :=
  String.leb (line_date a) (line_date b) = true.

(** The rows that take part in a landlord's statement, before sorting. *)
Definition collected_lines (landlord_id : Z) (d : db) : list statement_line :=
  map (fun pp => payment_line d (fst pp)) (payments_join_properties landlord_id d)
  ++ map manual_line (manual_rows landlord_id d).

(** The amounts of a line read by [x or 0] are the amounts of the line: the
    line holds no negative zero. *)
Definition plain_amounts (x : statement_line) : Prop :=
  Py.or0 (Some (tx_credit x)) = tx_credit x /\ Py.or0 (Some (tx_debit x)) = tx_debit x.

(** What a statement is: the collected rows in ascending date order, numbered
    from 1, each line's balance being the previous balance plus its credit
    minus its debit, from 0, and the final balance being the last one;
    [final_law merged final] is what else is said of the final balance. *)
Definition statement_balances (final_law : list statement_line -> float -> Prop) : Prop :=
  forall (d : db) (landlord_id : Z) (transactions : list detailed_line) (final : float),
    landlord_account_detail landlord_id d = Statement transactions final ->
    let merged := map tx transactions in
    Permutation (collected_lines landlord_id d) merged
    /\ Sorted date_le merged
    /\ balance_before transactions 0 = 0%float
    /\ (forall i line, nth_error transactions i = Some line ->
        sn line = Z.of_nat i + 1
        /\ balance line
           = (balance_before transactions i + (tx_credit (tx line) - tx_debit (tx line)))%float)
    /\ final = balance_before transactions (length transactions)
    /\ final_law merged final.

(** The final balance as the specification words it: the sum of the credits
    minus the sum of the debits, whatever the order of the entries of a same
    date. *)
Definition final_as_specified (merged : list statement_line) (final : float) : Prop :=
  final = (sum_of (map tx_credit merged) - sum_of (map tx_debit merged))%float
  /\ (forall reordered,
        Permutation merged reordered -> Sorted date_le reordered ->
        snd (running_balance 1 0 reordered) = final).

(** The final balance as binary64 computes it: the accumulation in the order
    of the statement. *)
Definition final_as_computed (merged : list statement_line) (final : float) : Prop :=
  final = fold_left (fun b x => (b + (tx_credit x - tx_debit x))%float) merged 0%float.

(** A landlord with two payments and two manual entries, three of them on the
    same date. *)
Definition sample_ledger : db :=
  {| landlords := [ {| l_id := 1; l_full_name := "Obi" |} ];
     properties := [ {| p_id := 1; p_title := "Bungalow"; p_landlord_id := 1;
                        p_price := Some 1500%float; p_status := "Occupied" |} ];
     property_units := [];
     tenants := [ sample_tenant ];
     payments := [ sample_payment 1 1500 "Full" 0 1500 0;
                   sample_payment 2 2000 "Full" 0 1800 200 ];
     landlord_transactions :=
       [ ledger_entry 1 1 "2024-01-05" (Literal "Repairs") "debit" 300 "Cash";
         ledger_entry 2 1 "2023-12-01" (Literal "Opening") "credit" 100 "Transfer" ] |}.

(** A landlord with three credits of one date: 0.1, 0.2 and 0.3. *)
Definition sample_ledger_tenths : db :=
  {| landlords := [ {| l_id := 1; l_full_name := "Obi" |} ];
     properties := [];
     property_units := [];
     tenants := [];
     payments := [];
     landlord_transactions :=
       [ ledger_entry 1 1 "2024-01-05" (Literal "A") "credit" 0.1 "Cash";
         ledger_entry 2 1 "2024-01-05" (Literal "B") "credit" 0.2 "Cash";
         ledger_entry 3 1 "2024-01-05" (Literal "C") "credit" 0.3 "Cash" ] |}.

(** ** Tenancy registry: [end_lease] and [available_units] *)

(** [UPDATE property_units SET status = "Vacant", tenant_id = NULL WHERE id = ?]. *)
Definition update_unit_vacant (unit_id : Z) (d : db) : db :=
  with_property_units d
    (map (fun u =>
            if u_id u =? unit_id then
              {| u_id := u_id u; u_property_id := u_property_id u;
                 u_price := u_price u; u_status := "Vacant";
                 u_tenant_id := None |}
            else u)
         (property_units d)).

(** [SELECT COUNT( * ) FROM tenants
     WHERE property_id = ? AND id != ? AND unit_id IS NOT NULL]. *)
Definition count_other_tenants (property_id tenant_id : Z) (d : db) : Z :=
  sql_count
    (filter (fun t =>
               match t_property_id t with
               | Some pid => pid =? property_id
               | None => false
               end
               && negb (t_id t =? tenant_id)
               && match t_unit_id t with
                  | Some _ => true
                  | None => false
                  end)
       (tenants d)).

(** Lines 2029-2088. *)
Definition end_lease (tenant_id : Z) : M response :=
  try_except
    (execute_begin ;;
     tenant <- query (find_tenant tenant_id) ;;
     match tenant with
     | None =>
         rollback ;; close ;;
         return_ (Json false Tenant_not_found 404)
     | Some tenant =>
         (match t_unit_id tenant with
          | Some unit_id =>
              if Py.truthy_int (Some unit_id)
              then execute_write "property_units" (update_unit_vacant unit_id)
              else ret tt
          | None => ret tt
          end) ;;
         (match t_property_id tenant with
          | Some property_id =>
              if Py.truthy_int (Some property_id) then
                other_tenants <- query (count_other_tenants property_id tenant_id) ;;
                if negb (Py.truthy_int (t_unit_id tenant)) || (other_tenants =? 0)
                then execute_write "properties" (update_property_status property_id "Vacant")
                else ret tt
              else ret tt
          | None => ret tt
          end) ;;
         execute_write "tenants" (update_tenant_links tenant_id None None) ;;
         commit ;; close ;;
         return_ (Json true (Plain "Lease ended successfully") 200)
     end)
    (fun e =>
       rollback ;; close ;;
       return_ (Json false (Error_of e) 500)).

(** Lines 896-908: the rows of [SELECT ... FROM property_units
    WHERE property_id = ? AND status = 'Vacant'] (the columns the embedding
    keeps). *)
Definition available_units (property_id : Z) (d : db) : list property_unit :=
  filter (fun u => (u_property_id u =? property_id) && String.eqb (u_status u) "Vacant")
    (property_units d).

(** ** Landlord ledger: [add_landlord_transaction] *)

(** The POST branch of lines 2090-2140 ([appp.py] 117-164).  [today] is
    [date.today().isoformat()]; [narration] and [mode_of_payment] are the
    stripped form strings, [amount] the parsed number. *)
Definition add_landlord_transaction (landlord_id : Z) (today : string)
    (date txn_type narration mode_of_payment : string) (amount : float) : M response :=
  landlord <- query (find_landlord landlord_id) ;;
  match landlord with
  | None =>
      close ;;
      return_ (Flash_redirect (Plain "Landlord not found.") "danger")
  | Some _ =>
      if negb (String.eqb txn_type "credit" || String.eqb txn_type "debit") then
        close ;;
        return_ (Flash_redirect (Plain "Select transaction type (credit or debit).") "danger")
      else
        let date := if Py.truthy_str date then date else today in
        insert_landlord_transaction (fun i =>
          {| lt_id := i; lt_landlord_id := landlord_id; lt_date := Some date;
             lt_narration := Literal narration; lt_transaction_type := txn_type;
             lt_amount := amount; lt_payment_method := mode_of_payment |}) ;;
        commit ;; close ;;
        return_ (Flash_redirect (Plain "Transaction saved.") "success")
  end.

(** ** Dashboard: the total outstanding rent *)

(** Lines 356-362: [SUM(balance_due) ... WHERE balance_due > 0], 0 when no
    row is open. *)
Definition total_rent_due (d : db) : float :=
  match sql_sum (map pay_balance_due
                   (filter (fun p => Py.gt (pay_balance_due p) 0) (payments d))) with
  | Some total_due => total_due
  | None => 0%float
  end.

(** ** Vocabulary of the further properties *)

(** Primary keys of [property_units] are unique. *)
Definition unit_ids_unique (d : db) : Prop := NoDup (map u_id (property_units d)).

(** Every ledger entry is typed ['credit'] or ['debit'], as the routes that
    insert entries write them. *)
Definition ledger_types_valid (d : db) : Prop :=
  forall m, In m (landlord_transactions d) ->
            lt_transaction_type m = "credit" \/ lt_transaction_type m = "debit".

(** The columns of a payment row other than [balance_due] and
    [payment_type]. *)
Definition immutable_part (p : payment)
  : Z * Z * Z * option Z * float * string * option string * string * option text
    * option float * option float :=
  (pay_id p, pay_tenant_id p, pay_property_id p, pay_unit_id p, pay_amount p,
   pay_payment_method p, pay_payment_date p, pay_status p, pay_description p,
   pay_credit p, pay_debit p).

(** The landlord a tenant pays to: the landlord of the property the tenant's
    row refers to. *)
Definition landlord_of_tenant (tenant_id : Z) (d : db) : option Z :=
  match find_tenant tenant_id d with
  | Some t =>
      match t_property_id t with
      | Some pid => option_map p_landlord_id (find_property pid d)
      | None => None
      end
  | None => None
  end.

(** The lines of a landlord's statement, in the order shown, without their
    numbers and balances (none when there is no such landlord). *)
Definition statement_lines (landlord_id : Z) (d : db) : list statement_line :=
  match landlord_account_detail landlord_id d with
  | Statement transactions _ => map tx transactions
  | Landlord_not_found => []
  end.

(** A stored amount as a statement shows it: [NULL] and zero show as 0.0. *)
Definition as_read (x : float) : float :=
  if PrimFloat.is_nan x || PrimFloat.eqb x 0 then 0%float else x.

(** The statement lines that the join of [rows] with the properties selects
    for a landlord. *)
Definition joined_lines (landlord_id : Z) (d : db) (rows : list payment)
  : list statement_line :=
  flat_map
    (fun p =>
       map (fun _ => payment_line d p)
         (filter (fun prop => (p_id prop =? pay_property_id p)
                              && (p_landlord_id prop =? landlord_id))
            (properties d)))
    rows.

(** The open balances of all tenants, and of the tenants other than
    [tenant_id], in the order the rows are stored. *)
Definition balances_due (d : db) : list float :=
  map pay_balance_due (filter (fun p => PrimFloat.ltb 0 (pay_balance_due p)) (payments d)).

Definition others_due (tenant_id : Z) (d : db) : list float :=
  map pay_balance_due
    (filter (fun p => negb (pay_tenant_id p =? tenant_id)
                      && PrimFloat.ltb 0 (pay_balance_due p))
       (payments d)).

(** ** What [end_lease] stores *)

Definition freed_unit (t : tenant) (d : db) : db :=
  match t_unit_id t with
  | Some unit_id =>
      if Py.truthy_int (Some unit_id) then update_unit_vacant unit_id d else d
  | None => d
  end.

(** Lines 2059-2073: whether the property is marked Vacant. *)
Definition frees_property (t : tenant) (property_id : Z) (d : db) : bool :=
  negb (Py.truthy_int (t_unit_id t)) || (count_other_tenants property_id (t_id t) d =? 0).

Definition freed_property (t : tenant) (d : db) : db :=
  match t_property_id t with
  | Some property_id =>
      if Py.truthy_int (Some property_id) && frees_property t property_id d
      then update_property_status property_id "Vacant" d
      else d
  | None => d
  end.

Definition stored_after_end_lease (d : db) (t : tenant) : db :=
  update_tenant_links (t_id t) None None (freed_property t (freed_unit t d)).

(** ** Vocabulary of binary64 rounding *)

(** A float of the specification of binary64 that is above zero. *)
Definition SFpositive (f : spec_float) : Prop :=
  match f with
  | S754_finite false _ _ | S754_infinity false => True
  | _ => False
  end.

(** The integer a finite float stands for, in units of [2 ^ ez]. *)
Definition aligned (ez : Z) (s : bool) (m : positive) (e : Z) : Z :=
  cond_Zopp s (Zpos (fst (shl_align m e ez))).


(** What [k] right shifts of a mantissa [m0], from an exact record, leave: the
    quotient by [2 ^ k], with both flags clear when nothing was lost. *)
Definition shr_inv (m0 : Z) (rec : shr_record) (k : Z) : Prop :=
  (0 <= shr_m rec)%Z
  /\ (shr_m rec * 2 ^ k <= m0 < (shr_m rec + 1) * 2 ^ k)%Z
  /\ (m0 = (shr_m rec * 2 ^ k)%Z -> shr_r rec = false /\ shr_s rec = false).

(** * Properties *)

(** ** Binary64 comparisons *)

Lemma SFcompare_antisym (x y : spec_float) :
  SFcompare y x = option_map CompOpp (SFcompare x y).
Proof.
  destruct x as [sx|sx| |sx mx ex], y as [sy|sy| |sy my ey]; cbn;
    try reflexivity;
    try (destruct sx; reflexivity); try (destruct sy; reflexivity);
    try (destruct sx, sy; reflexivity).
  assert (Pos.compare_cont Eq my mx = CompOpp (Pos.compare_cont Eq mx my)) as Hm
    by (rewrite (Pos.compare_cont_antisym mx my Eq); reflexivity).
  destruct sx, sy; cbn; try reflexivity;
    rewrite (Z.compare_antisym ex ey), Hm;
    destruct (ex ?= ey); cbn; try reflexivity;
    destruct (Pos.compare_cont Eq mx my); reflexivity.
Qed.

Lemma ltb_compare (a b : float) :
  PrimFloat.ltb a b = true <-> SFcompare (Prim2SF a) (Prim2SF b) = Some Lt.
Proof.
  rewrite ltb_spec. unfold SFltb.
  destruct (SFcompare (Prim2SF a) (Prim2SF b)) as [[]|]; split; congruence.
Qed.

Lemma eqb_compare (a b : float) :
  PrimFloat.eqb a b = true <-> SFcompare (Prim2SF a) (Prim2SF b) = Some Eq.
Proof.
  rewrite eqb_spec. unfold SFeqb.
  destruct (SFcompare (Prim2SF a) (Prim2SF b)) as [[]|]; split; congruence.
Qed.

Lemma leb_compare (a b : float) :
  PrimFloat.leb a b = true <->
  SFcompare (Prim2SF a) (Prim2SF b) = Some Lt \/ SFcompare (Prim2SF a) (Prim2SF b) = Some Eq.
Proof.
  rewrite leb_spec. unfold SFleb.
  destruct (SFcompare (Prim2SF a) (Prim2SF b)) as [[]|]; split; intros H;
    try (destruct H as [H|H]; congruence); try congruence;
    try (left; reflexivity); try (right; reflexivity).
Qed.

Lemma ltb_asym (a b : float) : PrimFloat.ltb a b = true -> PrimFloat.ltb b a = false.
Proof.
  intros H. apply ltb_compare in H.
  destruct (PrimFloat.ltb b a) eqn:E; [|reflexivity].
  apply ltb_compare in E. rewrite SFcompare_antisym, H in E. discriminate.
Qed.

Lemma ltb_not_eqb (a b : float) : PrimFloat.ltb a b = true -> PrimFloat.eqb a b = false.
Proof.
  intros H. apply ltb_compare in H.
  destruct (PrimFloat.eqb a b) eqn:E; [|reflexivity].
  apply eqb_compare in E. congruence.
Qed.

Lemma eqb_sym (a b : float) : PrimFloat.eqb a b = PrimFloat.eqb b a.
Proof.
  rewrite !eqb_spec. unfold SFeqb. rewrite (SFcompare_antisym (Prim2SF a) (Prim2SF b)).
  destruct (SFcompare (Prim2SF a) (Prim2SF b)) as [[]|]; reflexivity.
Qed.

Lemma ltb_leb (a b : float) : PrimFloat.ltb a b = true -> PrimFloat.leb a b = true.
Proof. intros H. apply leb_compare. left. apply ltb_compare. exact H. Qed.

Lemma eqb_leb (a b : float) : PrimFloat.eqb a b = true -> PrimFloat.leb a b = true.
Proof. intros H. apply leb_compare. right. apply eqb_compare. exact H. Qed.

Lemma leb_cases (a b : float) :
  PrimFloat.leb a b = true -> PrimFloat.ltb a b = true \/ PrimFloat.eqb a b = true.
Proof.
  intros H. apply leb_compare in H. destruct H as [H|H].
  - left. apply ltb_compare. exact H.
  - right. apply eqb_compare. exact H.
Qed.

Lemma leb_ltb_false (a b : float) : PrimFloat.leb a b = true -> PrimFloat.ltb b a = false.
Proof.
  intros H. destruct (PrimFloat.ltb b a) eqn:E; [|reflexivity].
  apply ltb_compare in E. apply leb_compare in H.
  rewrite SFcompare_antisym, E in H. cbn in H. destruct H; discriminate.
Qed.

(** Numbers (not NaN) are totally ordered. *)
Lemma is_nan_compare (a : float) :
  PrimFloat.is_nan a = false <-> Prim2SF a <> S754_nan.
Proof.
  unfold PrimFloat.is_nan. rewrite negb_false_iff, eqb_compare.
  destruct (Prim2SF a) as [s|s| |s m e]; cbn.
  - split; [discriminate|reflexivity].
  - destruct s; (split; [discriminate|reflexivity]).
  - split; [discriminate|congruence].
  - rewrite Z.compare_refl, Pos.compare_cont_refl.
    destruct s; (split; [discriminate|reflexivity]).
Qed.

Lemma compare_numbers (a b : float) :
  PrimFloat.is_nan a = false -> PrimFloat.is_nan b = false ->
  exists c, SFcompare (Prim2SF a) (Prim2SF b) = Some c.
Proof.
  rewrite !is_nan_compare. intros Ha Hb.
  destruct (Prim2SF a) as [sa|sa| |sa ma ea], (Prim2SF b) as [sb|sb| |sb mb eb];
    try congruence; cbn; eexists; reflexivity.
Qed.

Lemma ltb_false_leb (a b : float) :
  PrimFloat.is_nan a = false -> PrimFloat.is_nan b = false ->
  PrimFloat.ltb b a = false -> PrimFloat.leb a b = true.
Proof.
  intros Ha Hb H. destruct (compare_numbers a b Ha Hb) as [c Hc].
  apply leb_compare. destruct c; auto.
  exfalso. assert (PrimFloat.ltb b a = true); [|congruence].
  apply ltb_compare. rewrite SFcompare_antisym, Hc. reflexivity.
Qed.

Lemma ltb_number_l (a b : float) : PrimFloat.ltb a b = true -> PrimFloat.is_nan a = false.
Proof.
  intros H. apply ltb_compare in H. apply is_nan_compare.
  intros E. rewrite E in H. discriminate.
Qed.

Lemma ltb_number_r (a b : float) : PrimFloat.ltb a b = true -> PrimFloat.is_nan b = false.
Proof.
  intros H. apply ltb_compare in H. apply is_nan_compare.
  intros E. rewrite E in H. destruct (Prim2SF a); discriminate.
Qed.

(** ** Rounding keeps a positive value positive *)

Lemma shr_1_digits (r : shr_record) :
  0 <= shr_m r ->
  0 <= shr_m (shr_1 r) /\ Zdigits2 (shr_m (shr_1 r)) = Z.max 0 (Zdigits2 (shr_m r) - 1).
Proof.
  destruct r as [m r s]. cbn [shr_m]. intros Hm.
  destruct m as [|p|p]; [| |lia].
  - cbn. split; [lia|reflexivity].
  - destruct p as [p|p|]; cbn [shr_1 shr_m Zdigits2 digits2_pos]; split; try lia.

Qed.

Lemma iter_shr_1_digits (p : positive) (r : shr_record) :
  0 <= shr_m r ->
  0 <= shr_m (iter_pos shr_1 p r)
  /\ Zdigits2 (shr_m (iter_pos shr_1 p r)) = Z.max 0 (Zdigits2 (shr_m r) - Zpos p).
Proof.
  revert r. induction p as [p IH|p IH|]; intros r Hr; cbn [iter_pos].
  - destruct (shr_1_digits r Hr) as [H1 D1].
    destruct (IH _ H1) as [H2 D2]. destruct (IH _ H2) as [H3 D3].
    split; [exact H3|]. rewrite D3, D2, D1. lia.
  - destruct (IH _ Hr) as [H2 D2]. destruct (IH _ H2) as [H3 D3].
    split; [exact H3|]. rewrite D3, D2. lia.
  - apply shr_1_digits. exact Hr.
Qed.

Lemma Zdigits2_pos_inv (z : Z) : 0 <= z -> 0 < Zdigits2 z -> exists m, z = Zpos m.
Proof.
  destruct z as [|m|m]; cbn; intros H0 H1; try lia. exists m. reflexivity.
Qed.

Lemma shr_m_of_loc (m : Z) (l : location) : shr_m (shr_record_of_loc m l) = m.
Proof. destruct l as [|[]]; reflexivity. Qed.

Lemma shr_fexp_positive (m : positive) (e : Z) (l : location) :
  emin <= e ->
  exists m', shr_m (fst (shr_fexp prec emax (Zpos m) e l)) = Zpos m'
             /\ emin <= snd (shr_fexp prec emax (Zpos m) e l).
Proof.
  intros He. unfold shr_fexp, shr.
  set (n := fexp prec emax (Zdigits2 (Zpos m) + e) - e).
  assert (n <= 0 \/ n = Zdigits2 (Zpos m) - prec /\ 0 < n) as Hn.
  { unfold n, fexp. lia. }
  destruct n as [|p|p] eqn:En; cbn [fst snd].
  - rewrite shr_m_of_loc. exists m. split; [reflexivity|exact He].
  - destruct Hn as [Hn|[Hn Hp]]; [lia|].
    destruct (iter_shr_1_digits p (shr_record_of_loc (Zpos m) l)) as [H0 D].
    { rewrite shr_m_of_loc. lia. }
    rewrite shr_m_of_loc in D.
    destruct (Zdigits2_pos_inv _ H0) as [m' Hm'].
    { rewrite D. unfold prec in Hn. lia. }
    exists m'. split; [exact Hm'|lia].
  - rewrite shr_m_of_loc. exists m. split; [reflexivity|exact He].
Qed.

Lemma round_nearest_even_positive (m : positive) (l : location) :
  exists m', round_nearest_even (Zpos m) l = Zpos m'.
Proof.
  destruct l as [|[]]; cbn [round_nearest_even].
  - eexists; reflexivity.
  - destruct (Z.even (Zpos m)); eexists; reflexivity.
  - eexists; reflexivity.
  - eexists; reflexivity.
Qed.

Lemma binary_round_aux_positive (m : positive) (e : Z) (l : location) :
  emin <= e ->
  SFpositive (binary_round_aux prec emax false (Zpos m) e l).
Proof.
  intros He. unfold binary_round_aux.
  destruct (shr_fexp_positive m e l He) as [m1 [Hm1 He1]].
  destruct (shr_fexp prec emax (Zpos m) e l) as [mrs' e'] eqn:E1.
  cbn [fst snd] in Hm1, He1. rewrite Hm1.
  destruct (round_nearest_even_positive m1 (loc_of_shr_record mrs')) as [m2 Hm2].
  rewrite Hm2.
  destruct (shr_fexp_positive m2 e' loc_Exact He1) as [m3 [Hm3 He3]].
  destruct (shr_fexp prec emax (Zpos m2) e' loc_Exact) as [mrs'' e''] eqn:E2.
  cbn [fst snd] in Hm3, He3. rewrite Hm3.
  destruct (e'' <=? emax - prec); exact I.
Qed.

Lemma binary_round_positive (m : positive) (e : Z) :
  emin <= e ->
  SFpositive (binary_round prec emax false m e).
Proof.
  intros He. unfold binary_round, shl_align.
  set (f := fexp prec emax (Z.pos (digits2_pos m) + e)).
  assert (emin <= f) as Hf by (unfold f, fexp; lia).
  destruct (f - e) as [|p|p]; apply binary_round_aux_positive; assumption.
Qed.

Lemma SFpositive_ltb (f : spec_float) :
  SFpositive f <-> SFltb (S754_zero false) f = true.
Proof.
  destruct f as [s|s| |s m e]; cbn; try (split; [contradiction|discriminate]).
  - destruct s; split; try contradiction; try discriminate; auto.
  - destruct s; split; try contradiction; try discriminate; auto.
Qed.

(** ** Mantissas of valid floats *)

Lemma digits2_pos_size (m : positive) : digits2_pos m = Pos.size m.
Proof. induction m as [m IH|m IH|]; cbn; [rewrite IH | rewrite IH |]; reflexivity. Qed.

Lemma digits2_pos_bounds (m : positive) :
  2 ^ (Zpos (digits2_pos m) - 1) <= Zpos m < 2 ^ Zpos (digits2_pos m).
Proof.
  rewrite digits2_pos_size.
  pose proof (Pos.size_gt m) as Hgt. pose proof (Pos.size_le m) as Hle.
  apply Pos2Z.pos_lt_pos in Hgt. apply Pos2Z.pos_le_pos in Hle.
  rewrite Pos2Z.inj_pow in Hgt, Hle.
  change (Z.pos m~0) with (2 * Z.pos m) in Hle.
  split; [|exact Hgt].
  replace (Z.pos (Pos.size m)) with (Z.succ (Z.pos (Pos.size m) - 1)) in Hle by lia.
  rewrite Z.pow_succ_r in Hle by lia. lia.
Qed.

Lemma valid_finite (s : bool) (m : positive) (e : Z) :
  valid_binary (S754_finite s m e) = true ->
  emin <= e /\ Zpos (digits2_pos m) <= prec /\ (emin < e -> Zpos (digits2_pos m) = prec).
Proof.
  cbn [SpecFloat.valid_binary]. unfold bounded, canonical_mantissa, fexp.
  intros H. apply andb_true_iff in H. destruct H as [H _].
  apply Z.eqb_eq in H. lia.
Qed.

Lemma shl_align_value (m : positive) (e ez : Z) :
  ez <= e -> Zpos (fst (shl_align m e ez)) = Zpos m * 2 ^ (e - ez).
Proof.
  intros H. unfold shl_align.
  destruct (ez - e) as [|p|p] eqn:E; cbn [fst].
  - replace (e - ez) with 0 by lia. lia.
  - lia.
  - change (Pos.iter xO m p) with (shift_pos p m).
    rewrite shift_pos_correct, Z.pow_pos_fold.
    replace (e - ez) with (Zpos p) by lia. lia.
Qed.

Lemma aligned_magnitudes (m1 m2 : positive) (e1 e2 : Z) :
  valid_binary (S754_finite false m1 e1) = true ->
  valid_binary (S754_finite false m2 e2) = true ->
  e1 < e2 ->
  Zpos m1 < Zpos m2 * 2 ^ (e2 - e1).
Proof.
  intros V1 V2 He.
  apply valid_finite in V1. apply valid_finite in V2.
  destruct V1 as [E1 [D1 _]]. destruct V2 as [E2 [_ D2]].
  specialize (D2 ltac:(lia)).
  pose proof (digits2_pos_bounds m1) as [_ B1].
  pose proof (digits2_pos_bounds m2) as [B2 _].
  rewrite D2 in B2.
  assert (2 ^ Zpos (digits2_pos m1) <= 2 ^ prec) as P1
    by (apply Z.pow_le_mono_r; lia).
  assert (2 ^ prec = 2 ^ (prec - 1) * 2 ^ 1) as P2
    by (rewrite <- Z.pow_add_r by (unfold prec; lia); f_equal; lia).
  assert (2 ^ 1 <= 2 ^ (e2 - e1)) as P3 by (apply Z.pow_le_mono_r; lia).
  assert (0 < 2 ^ (prec - 1)) as P4 by (apply Z.pow_pos_nonneg; unfold prec; lia).
  nia.
Qed.

Lemma SFcompare_aligned (s1 s2 : bool) (m1 m2 : positive) (e1 e2 : Z) :
  valid_binary (S754_finite s1 m1 e1) = true ->
  valid_binary (S754_finite s2 m2 e2) = true ->
  SFcompare (S754_finite s1 m1 e1) (S754_finite s2 m2 e2)
  = Some (aligned (Z.min e1 e2) s1 m1 e1 ?= aligned (Z.min e1 e2) s2 m2 e2).
Proof.
  intros V1 V2. unfold aligned.
  rewrite !shl_align_value by lia.
  assert (match e1 ?= e2 with
          | Lt => Lt | Gt => Gt | Eq => Pos.compare_cont Eq m1 m2
          end
          = (Zpos m1 * 2 ^ (e1 - Z.min e1 e2) ?= Zpos m2 * 2 ^ (e2 - Z.min e1 e2))) as Hc.
  { destruct (Z.compare_spec e1 e2) as [E|E|E].
    - subst e2. rewrite Z.min_id, Z.sub_diag. cbn [Z.pow]. rewrite !Z.mul_1_r.
      reflexivity.
    - rewrite Z.min_l by lia. rewrite Z.sub_diag. cbn [Z.pow]. rewrite Z.mul_1_r.
      symmetry. apply Z.compare_lt_iff.
      apply (aligned_magnitudes m1 m2 e1 e2); assumption.
    - rewrite Z.min_r by lia. rewrite Z.sub_diag. cbn [Z.pow]. rewrite Z.mul_1_r.
      symmetry. apply Z.compare_gt_iff.
      apply (aligned_magnitudes m2 m1 e2 e1); assumption. }
  set (M1 := Zpos m1 * 2 ^ (e1 - Z.min e1 e2)) in *.
  set (M2 := Zpos m2 * 2 ^ (e2 - Z.min e1 e2)) in *.
  assert (0 < M1) as P1 by (apply Z.mul_pos_pos; [lia | apply Z.pow_pos_nonneg; lia]).
  assert (0 < M2) as P2 by (apply Z.mul_pos_pos; [lia | apply Z.pow_pos_nonneg; lia]).
  cbn [SFcompare]. destruct s1, s2; cbn [cond_Zopp]; f_equal.
  - rewrite Z.compare_opp. rewrite (Z.compare_antisym M1 M2), <- Hc.
    destruct (e1 ?= e2); reflexivity.
  - symmetry. apply Z.compare_lt_iff. lia.
  - symmetry. apply Z.compare_gt_iff. lia.
  - exact Hc.
Qed.

Lemma binary_round_aux_negative (m : Z) (e : Z) (l : location) :
  ~ SFpositive (binary_round_aux prec emax true m e l).
Proof.
  unfold binary_round_aux.
  destruct (shr_fexp prec emax m e l) as [mrs' e'].
  destruct (shr_fexp prec emax _ e' loc_Exact) as [mrs'' e''].
  unfold not.
  destruct (shr_m mrs'') as [|p|p]; cbn; try (intros []).
  destruct (e'' <=? _)%Z; cbn; intros [].
Qed.

Lemma binary_normalize_positive (z ez : Z) :
  emin <= ez ->
  (SFpositive (binary_normalize prec emax z ez false) <-> 0 < z).
Proof.
  intros He. destruct z as [|m|m]; cbn [binary_normalize].
  - split; [intros []|lia].
  - split; [lia|]. intros _. apply binary_round_positive. exact He.
  - split; [|lia]. intros H. exfalso. revert H. unfold binary_round.
    destruct (shl_align _ _ _) as [mz ez']. apply binary_round_aux_negative.
Qed.

Lemma SFsub_positive (x y : spec_float) :
  valid_binary x = true -> valid_binary y = true ->
  (SFpositive (SFsub prec emax x y) <-> SFcompare y x = Some Lt).
Proof.
  intros Vx Vy.
  destruct x as [sx|sx| |sx mx ex], y as [sy|sy| |sy my ey];
    try (destruct sx, sy; cbn; split; intros H; try exact I; try reflexivity;
         try contradiction; try discriminate; fail);
    try (cbn; split; intros H; try exact I; try reflexivity; try contradiction;
         try discriminate; fail).
  rewrite (SFcompare_aligned sy sx my mx ey ex Vy Vx).
  cbn [SFsub]. unfold aligned. rewrite (Z.min_comm ey ex).
  set (X := cond_Zopp sx (Z.pos (fst (shl_align mx ex (Z.min ex ey))))).
  set (Y := cond_Zopp sy (Z.pos (fst (shl_align my ey (Z.min ex ey))))).
  rewrite binary_normalize_positive.
  - split; intros H.
    + f_equal. apply Z.compare_lt_iff. lia.
    + injection H as H. rewrite Z.compare_lt_iff in H. lia.
  - apply valid_finite in Vx. apply valid_finite in Vy. lia.
Qed.

Lemma SFadd_positive (x y : spec_float) :
  valid_binary x = true -> valid_binary y = true ->
  SFleb (S754_zero false) x = true -> SFpositive y ->
  SFpositive (SFadd prec emax x y).
Proof.
  intros Vx Vy Hx Hy.
  destruct x as [sx|sx| |sx mx ex], y as [sy|sy| |sy my ey];
    try contradiction; try discriminate;
    try (destruct sx, sy; cbn in *; try exact I; try contradiction; try discriminate; fail).
  destruct sx; [discriminate|]. destruct sy; [contradiction|].
  cbn [SFadd cond_Zopp].
  apply binary_normalize_positive.
  - apply valid_finite in Vx. apply valid_finite in Vy. lia.
  - lia.
Qed.

(** ** The same facts on primitive floats *)

Lemma Prim2SF_zero : Prim2SF 0 = S754_zero false.
Proof. reflexivity. Qed.

Lemma ltb_0_positive (x : float) : PrimFloat.ltb 0 x = true <-> SFpositive (Prim2SF x).
Proof. rewrite ltb_spec, Prim2SF_zero. symmetry. apply SFpositive_ltb. Qed.

(** [a < b] exactly when the rounded difference [b - a] is positive. *)
Lemma sub_positive (a b : float) : PrimFloat.ltb 0 (b - a) = PrimFloat.ltb a b.
Proof.
  assert (PrimFloat.ltb 0 (b - a) = true <-> PrimFloat.ltb a b = true) as H.
  { rewrite ltb_0_positive, sub_spec, ltb_compare.
    apply SFsub_positive; apply Prim2SF_valid. }
  destruct (PrimFloat.ltb 0 (b - a)), (PrimFloat.ltb a b); try reflexivity.
  - symmetry. apply H. reflexivity.
  - apply H. reflexivity.
Qed.

(** Adding a positive number to a number that is not negative gives a
    positive number. *)
Lemma add_positive (acc x : float) :
  PrimFloat.leb 0 acc = true -> PrimFloat.ltb 0 x = true ->
  PrimFloat.ltb 0 (acc + x) = true.
Proof.
  intros Ha Hx. apply ltb_0_positive. rewrite add_spec.
  apply SFadd_positive; try apply Prim2SF_valid.
  - rewrite leb_spec, Prim2SF_zero in Ha. exact Ha.
  - apply ltb_0_positive. exact Hx.
Qed.

Lemma leb_number_l (a b : float) : PrimFloat.leb a b = true -> PrimFloat.is_nan a = false.
Proof.
  intros H. apply leb_compare in H. apply is_nan_compare.
  intros E. rewrite E in H. destruct H; discriminate.
Qed.

Lemma leb_number_r (a b : float) : PrimFloat.leb a b = true -> PrimFloat.is_nan b = false.
Proof.
  intros H. apply leb_compare in H. apply is_nan_compare.
  intros E. rewrite E in H. destruct (Prim2SF a); destruct H; discriminate.
Qed.

Lemma eqb_number_l (a b : float) : PrimFloat.eqb a b = true -> PrimFloat.is_nan a = false.
Proof. intros H. apply (leb_number_l a b). apply eqb_leb. exact H. Qed.

(** A NaN fails every comparison. *)
Lemma nan_compares (a x : float) :
  PrimFloat.is_nan a = true ->
  PrimFloat.ltb x a = false /\ PrimFloat.ltb a x = false
  /\ PrimFloat.leb x a = false /\ PrimFloat.leb a x = false
  /\ PrimFloat.eqb a x = false.
Proof.
  intros H.
  repeat split.
  - destruct (PrimFloat.ltb x a) eqn:E; [|reflexivity].
    apply ltb_number_r in E. congruence.
  - destruct (PrimFloat.ltb a x) eqn:E; [|reflexivity].
    apply ltb_number_l in E. congruence.
  - destruct (PrimFloat.leb x a) eqn:E; [|reflexivity].
    apply leb_number_r in E. congruence.
  - destruct (PrimFloat.leb a x) eqn:E; [|reflexivity].
    apply leb_number_l in E. congruence.
  - destruct (PrimFloat.eqb a x) eqn:E; [|reflexivity].
    apply eqb_number_l in E. congruence.
Qed.

(** ** Sums of positive amounts *)

Lemma fold_add_positive (l : list float) (acc : float) :
  PrimFloat.leb 0 acc = true ->
  Forall (fun x => PrimFloat.ltb 0 x = true) l ->
  PrimFloat.leb 0 (fold_left PrimFloat.add l acc) = true
  /\ (l <> [] -> PrimFloat.ltb 0 (fold_left PrimFloat.add l acc) = true).
Proof.
  revert acc. induction l as [|x l IH]; intros acc Hacc Hl; cbn [fold_left].
  - split; [exact Hacc | congruence].
  - inversion Hl as [|? ? Hx Hl']; subst.
    pose proof (add_positive acc x Hacc Hx) as Hpos.
    destruct (IH (acc + x)%float (ltb_leb _ _ Hpos) Hl') as [H1 H2].
    split; [exact H1|]. intros _.
    destruct l as [|y l]; [exact Hpos | apply H2; discriminate].
Qed.

Lemma sum_of_positive (l : list float) :
  Forall (fun x => PrimFloat.ltb 0 x = true) l -> l <> [] ->
  PrimFloat.ltb 0 (sum_of l) = true.
Proof.
  intros Hl Hne. unfold sum_of.
  apply (fold_add_positive l 0%float); [reflexivity | exact Hl | exact Hne].
Qed.

Lemma numbers_positive (l : list float) :
  Forall (fun x => PrimFloat.ltb 0 x = true) l -> numbers l = l.
Proof.
  unfold numbers. induction 1 as [|x l Hx _ IH]; cbn; [reflexivity|].
  rewrite (ltb_number_r _ _ Hx). cbn. rewrite IH. reflexivity.
Qed.

Lemma or0_positive (s : float) : PrimFloat.ltb 0 s = true -> Py.or0 (Some s) = s.
Proof.
  intros H. unfold Py.or0.
  rewrite eqb_sym, (ltb_not_eqb _ _ H). reflexivity.
Qed.

(** ** The outstanding balance *)

Lemma open_balances_positive (tenant_id : Z) (ps : list payment) :
  Forall (fun x => PrimFloat.ltb 0 x = true)
    (map pay_balance_due (filter (owes tenant_id) ps)).
Proof.
  apply Forall_forall. intros x Hx.
  apply in_map_iff in Hx. destruct Hx as [p [<- Hp]].
  apply filter_In in Hp. destruct Hp as [_ Hp].
  unfold owes in Hp. apply andb_true_iff in Hp. apply Hp.
Qed.

(** The query of the routes returns the outstanding balance of the
    specification. *)
Lemma outstanding_on_entry (tenant_id : Z) (d : db) :
  Py.or0 (select_total_outstanding tenant_id d) = total_outstanding tenant_id d.
Proof.
  unfold select_total_outstanding, total_outstanding, sql_sum.
  change (filter (is_open_for tenant_id) (payments d))
    with (filter (owes tenant_id) (payments d)).
  pose proof (open_balances_positive tenant_id (payments d)) as HF.
  rewrite (numbers_positive _ HF).
  destruct (map pay_balance_due (filter (owes tenant_id) (payments d))) as [|x l] eqn:E.
  - reflexivity.
  - apply or0_positive. apply sum_of_positive; [exact HF | discriminate].
Qed.

(** The balance is zero exactly when the tenant has no open row, and positive
    otherwise. *)
Lemma total_outstanding_zero_iff (tenant_id : Z) (d : db) :
  total_outstanding tenant_id d = 0%float <->
  filter (owes tenant_id) (payments d) = [].
Proof.
  unfold total_outstanding.
  pose proof (open_balances_positive tenant_id (payments d)) as HF.
  destruct (filter (owes tenant_id) (payments d)) as [|p l] eqn:E.
  - split; reflexivity.
  - split; [|discriminate]. intros H0. exfalso.
    assert (PrimFloat.ltb 0 (sum_of (map pay_balance_due (p :: l))) = true) as Hpos
      by (apply sum_of_positive; [exact HF | discriminate]).
    rewrite H0 in Hpos. discriminate Hpos.
Qed.

Lemma total_outstanding_cases (tenant_id : Z) (d : db) :
  (0 < total_outstanding tenant_id d)%num \/ total_outstanding tenant_id d = 0%float.
Proof.
  unfold total_outstanding.
  pose proof (open_balances_positive tenant_id (payments d)) as HF.
  destruct (filter (owes tenant_id) (payments d)) as [|p l] eqn:E.
  - right. reflexivity.
  - left. apply sum_of_positive; [exact HF | discriminate].
Qed.

Lemma total_outstanding_not_positive (tenant_id : Z) (d : db) :
  PrimFloat.ltb 0 (total_outstanding tenant_id d) = false ->
  total_outstanding tenant_id d = 0%float.
Proof.
  intros H. destruct (total_outstanding_cases tenant_id d) as [Hp|Hz]; [|exact Hz].
  unfold Num.lt in Hp. congruence.
Qed.

(** ** The tenant's row *)

Lemma rent_due_join (tenant_id : Z) (d : db) :
  rent_due tenant_id d
  = match select_tenant_join tenant_id d with
    | Some r => row_rent_amount r
    | None => None
    end.
Proof.
  unfold rent_due, select_tenant_join.
  destruct (find_tenant tenant_id d) as [t|]; [|reflexivity].
  destruct (t_property_id t) as [pid|]; [|reflexivity].
  destruct (find_property pid d) as [p|]; [|reflexivity].
  unfold row_rent_amount, row_unit_price. cbn [j_tenant j_property j_unit].
  destruct (t_unit_id t) as [uid|]; reflexivity.
Qed.

Lemma is_assigned_join (tenant_id : Z) (d : db) :
  is_assigned tenant_id d = true <-> exists r, select_tenant_join tenant_id d = Some r.
Proof.
  unfold is_assigned, select_tenant_join.
  destruct (find_tenant tenant_id d) as [t|]; [|split; [discriminate | intros [r H]; discriminate]].
  destruct (t_property_id t) as [pid|]; [|split; [discriminate | intros [r H]; discriminate]].
  destruct (find_property pid d) as [p|]; [|split; [discriminate | intros [r H]; discriminate]].
  split; [intros _; eexists; reflexivity | reflexivity].
Qed.

Lemma rent_due_inv (tenant_id : Z) (d : db) (rent : float) :
  rent_due tenant_id d = Some rent ->
  exists r, select_tenant_join tenant_id d = Some r /\ row_rent_amount r = Some rent.
Proof.
  rewrite rent_due_join.
  destruct (select_tenant_join tenant_id d) as [r|]; [|discriminate].
  intros H. exists r. split; [reflexivity | exact H].
Qed.

(** ** Runs of [add_payment] *)

Section AddPaymentRuns.

Variables (d : db) (tenant_id : Z) (amount : float).
Variables (payment_method payment_date : string) (description : option string).

Let call := run (add_payment tenant_id amount payment_method payment_date description) d.

Lemma add_payment_no_tenant :
  select_tenant_join tenant_id d = None ->
  call = (Json false Tenant_not_found 404, aborted d).
Proof.
  intros H. subst call.
  unfold run, add_payment, bind, try_except, execute_begin, query, get_db_connection.
  cbn. rewrite H. reflexivity.
Qed.

Lemma add_payment_no_price r :
  select_tenant_join tenant_id d = Some r ->
  row_rent_amount r = None ->
  exists e, call = (Json false (Error_of e) 500, aborted d).
Proof.
  intros H Hr. subst call. eexists.
  unfold run, add_payment, bind, try_except, execute_begin, query, get_db_connection.
  cbn. rewrite H. cbn. rewrite Hr. reflexivity.
Qed.

Lemma add_payment_exceeds_outstanding r rent :
  select_tenant_join tenant_id d = Some r ->
  row_rent_amount r = Some rent ->
  Py.gt (total_outstanding tenant_id d) 0 = true ->
  Py.gt amount (total_outstanding tenant_id d) = true ->
  call = (Json false (Exceeds_outstanding amount (total_outstanding tenant_id d)) 400,
          aborted d).
Proof.
  intros H Hr Ht Ha. subst call.
  unfold run, add_payment, bind, try_except, execute_begin, query, get_db_connection.
  cbn. rewrite H. cbn. rewrite Hr. cbn.
  rewrite (outstanding_on_entry tenant_id d). rewrite Ht, Ha. reflexivity.
Qed.

Lemma add_payment_exceeds_rent r rent :
  select_tenant_join tenant_id d = Some r ->
  row_rent_amount r = Some rent ->
  Py.gt (total_outstanding tenant_id d) 0 = false ->
  Py.gt amount rent = true ->
  call = (Json false (Exceeds_rent amount rent) 400, aborted d).
Proof.
  intros H Hr Ht Ha. subst call.
  unfold run, add_payment, bind, try_except, execute_begin, query, get_db_connection.
  cbn. rewrite H. cbn. rewrite Hr. cbn.
  rewrite (outstanding_on_entry tenant_id d). rewrite Ht, Ha. reflexivity.
Qed.

(** A NaN passes both comparisons with the target and is refused by the
    [NOT NULL] constraint of the [INSERT]. *)
Lemma add_payment_nan r rent :
  select_tenant_join tenant_id d = Some r ->
  row_rent_amount r = Some rent ->
  PrimFloat.is_nan amount = true ->
  exists e, call = (Json false (Error_of e) 500, aborted d).
Proof.
  intros H Hr Hn. subst call. eexists.
  unfold run, add_payment, bind, try_except, execute_begin, query, get_db_connection.
  cbn. rewrite H. cbn. rewrite Hr. cbn.
  rewrite (outstanding_on_entry tenant_id d).
  unfold Py.gt.
  rewrite (proj1 (nan_compares amount (total_outstanding tenant_id d) Hn)).
  rewrite (proj1 (nan_compares amount rent Hn)).
  destruct (PrimFloat.ltb 0 (total_outstanding tenant_id d)); cbn;
    destruct (split_fee _ _ _ _) as [[cr db_] msg]; cbn;
    unfold insert_payment; cbn; rewrite Hn; reflexivity.
Qed.

Lemma add_payment_accepted r rent :
  select_tenant_join tenant_id d = Some r ->
  row_rent_amount r = Some rent ->
  PrimFloat.is_nan amount = false ->
  let total := total_outstanding tenant_id d in
  Py.gt amount (target_of total rent) = false ->
  let row := payment_row d r tenant_id amount rent payment_method payment_date description in
  let d' := stored_after_payment d tenant_id row total in
  call =
    (Json true (snd (split_fee (is_renewal tenant_id d) amount total (pay_balance_due row))) 200,
     {| committed := d'; working := d';
        trace := [BEGIN; WRITE "payments"]
                 ++ (if completes_outstanding total (pay_balance_due row)
                     then [WRITE "payments"] else [])
                 ++ [COMMIT; CLOSE] |}).
Proof.
  intros H Hr Hn total Ha row d'. subst call d' row.
  unfold stored_after_payment, payment_row, target_of in *.
  fold total in Ha |- *.
  unfold run, add_payment, bind, try_except, execute_begin, query, get_db_connection.
  cbn. rewrite H. cbn. rewrite Hr. cbn.
  rewrite (outstanding_on_entry tenant_id d). fold total.
  fold (is_renewal tenant_id d).
  destruct (Py.gt total 0) eqn:Ht; rewrite Ha; cbn.
  - destruct (split_fee _ _ _ _) as [[cr db_] msg] eqn:Efee. cbn.
    unfold insert_payment. cbn. rewrite Hn. cbn.
    unfold completes_outstanding. rewrite Ht. cbn.
    destruct (Py.eq _ 0) eqn:Eb; cbn; reflexivity.
  - destruct (split_fee _ _ _ _) as [[cr db_] msg] eqn:Efee. cbn.
    unfold insert_payment. cbn. rewrite Hn. cbn.
    unfold completes_outstanding. rewrite Ht. cbn. reflexivity.
Qed.

End AddPaymentRuns.

(** ** What is stored after an accepted payment *)

Lemma clear_row_self (tenant_id : Z) (p : payment) :
  clear_row tenant_id (pay_id p) p = p.
Proof.
  unfold clear_row. rewrite Z.eqb_refl. cbn. rewrite andb_false_r. reflexivity.
Qed.

(** The payments table after an accepted payment: the former rows (possibly
    normalised) followed by the inserted one. *)
Lemma stored_after_payment_rows (d : db) (tenant_id : Z) (row : payment) (total : float) :
  exists olds,
    payments (stored_after_payment d tenant_id row total) = olds ++ [row]
    /\ length olds = length (payments d).
Proof.
  unfold stored_after_payment.
  destruct (completes_outstanding total (pay_balance_due row)).
  - exists (map (clear_row tenant_id (pay_id row)) (payments d)). split.
    + cbn. rewrite map_app. cbn. rewrite clear_row_self. reflexivity.
    + apply length_map.
  - exists (payments d). split; reflexivity.
Qed.

Lemma classify_balance (amount target : float) :
  (amount <= target)%num ->
  snd (classify amount target) = max0 (target - amount).
Proof.
  unfold Num.le, classify, max0, Py.ge. cbn [snd]. intros H.
  rewrite sub_positive.
  destruct (leb_cases _ _ H) as [Hlt|Heq].
  - rewrite Hlt.
    destruct (PrimFloat.leb target amount) eqn:E; [|reflexivity].
    apply leb_ltb_false in E. congruence.
  - rewrite eqb_sym in Heq. rewrite (eqb_leb _ _ Heq).
    destruct (PrimFloat.ltb amount target) eqn:E; [|reflexivity].
    apply ltb_not_eqb in E. rewrite eqb_sym in E. congruence.
Qed.

Lemma classify_type (amount target : float) :
  ((target <= amount)%num -> fst (classify amount target) = "Full")
  /\ ((amount < target)%num -> fst (classify amount target) = "Partial").
Proof.
  unfold Num.le, Num.lt, classify, Py.ge. cbn [fst]. split; intros H.
  - rewrite H. reflexivity.
  - destruct (PrimFloat.leb target amount) eqn:E; [|reflexivity].
    apply leb_ltb_false in E. congruence.
Qed.

(** ** C1: classification of a recorded payment *)

Lemma is_renewal_iff (tenant_id : Z) (d : db) :
  is_renewal tenant_id d = true <-> has_completed_cycle tenant_id d.
Proof.
  unfold is_renewal, count_completed, sql_count, has_completed_cycle.
  split.
  - intros H. apply Z.geb_le in H.
    destruct (filter (is_completed_for tenant_id) (payments d)) as [|p l] eqn:E.
    + cbn in H. lia.
    + assert (In p (filter (is_completed_for tenant_id) (payments d))) as Hin
        by (rewrite E; left; reflexivity).
      apply filter_In in Hin. destruct Hin as [Hin Hp].
      unfold is_completed_for in Hp.
      apply andb_true_iff in Hp. destruct Hp as [Hp Hb].
      apply andb_true_iff in Hp. destruct Hp as [Ht Hf].
      exists p. repeat split.
      * exact Hin.
      * apply Z.eqb_eq. exact Ht.
      * apply String.eqb_eq. exact Hf.
      * exact Hb.
  - intros [p [Hin [Ht [Hf Hb]]]].
    assert (In p (filter (is_completed_for tenant_id) (payments d))) as Hin'.
    { apply filter_In. split; [exact Hin|].
      unfold is_completed_for.
      rewrite (proj2 (Z.eqb_eq _ _) Ht), (proj2 (String.eqb_eq _ _) Hf).
      cbn. exact Hb. }
    apply Z.geb_le.
    destruct (filter (is_completed_for tenant_id) (payments d)); [contradiction|].
    cbn [length]. lia.
Qed.

Lemma target_of_outstanding (total rent : float) :
  (0 < total)%num -> target_of total rent = total.
Proof. intros H. unfold target_of, Py.gt. rewrite H. reflexivity. Qed.

Lemma zero_not_positive (x : float) : (x == 0)%num -> PrimFloat.ltb 0 x = false.
Proof.
  intros H. destruct (PrimFloat.ltb 0 x) eqn:E; [|reflexivity].
  apply ltb_not_eqb in E. rewrite eqb_sym in E. unfold Num.eq in H. congruence.
Qed.

Lemma target_of_new_cycle (total rent : float) :
  (total == 0)%num -> target_of total rent = rent.
Proof.
  intros H. unfold target_of, Py.gt. rewrite (zero_not_positive _ H). reflexivity.
Qed.

Lemma add_payment_accepted_against (d : db) (tenant_id : Z) (amount : float)
    (payment_method payment_date : string) (description : option string)
    (r : tenant_join) (rent : float) :
  select_tenant_join tenant_id d = Some r ->
  row_rent_amount r = Some rent ->
  (amount <= target_of (total_outstanding tenant_id d) rent)%num ->
  accepted_against
    (run (add_payment tenant_id amount payment_method payment_date description) d)
    d tenant_id amount (target_of (total_outstanding tenant_id d) rent).
Proof.
  intros Hs Hr Ha.
  assert (Py.gt amount (target_of (total_outstanding tenant_id d) rent) = false) as Hgt
    by (apply leb_ltb_false; exact Ha).
  rewrite (add_payment_accepted d tenant_id amount payment_method payment_date
             description r rent Hs Hr (leb_number_l _ _ Ha) Hgt).
  set (row := payment_row d r tenant_id amount rent payment_method payment_date description).
  destruct (stored_after_payment_rows d tenant_id row (total_outstanding tenant_id d))
    as [olds [Hrows Hlen]].
  eexists. exists olds, row.
  split; [reflexivity|].
  split; [split; assumption|].
  split; [reflexivity|].
  split; [reflexivity|].
  unfold classified_against. subst row. cbn [pay_payment_type pay_balance_due payment_row].
  pose proof (classify_type amount (target_of (total_outstanding tenant_id d) rent)) as [H1 H2].
  split; [exact H1|]. split; [exact H2|].
  apply classify_balance. exact Ha.
Qed.

Lemma payments_classified_with_rent :
  payments_classified (fun tenant_id d => rent_due tenant_id d <> None).
Proof.
  intros d tenant_id amount payment_method payment_date description Hrent total call.
  destruct (rent_due tenant_id d) as [rent|] eqn:Erent; [|congruence].
  destruct (rent_due_inv _ _ _ Erent) as [r [Hs Hr]].
  split.
  - intros Hpos. split.
    + intros Hgt. subst call.
      rewrite (add_payment_exceeds_outstanding d tenant_id amount payment_method
                 payment_date description r rent Hs Hr Hpos Hgt).
      split; reflexivity.
    + intros Hle. subst call.
      pose proof (add_payment_accepted_against d tenant_id amount payment_method
                    payment_date description r rent Hs Hr) as Hacc.
      fold total in Hacc. rewrite (target_of_outstanding total rent Hpos) in Hacc.
      exact (Hacc Hle).
  - intros Hzero rent' Hrent'. injection Hrent' as <-. split.
    + intros Hgt. subst call.
      rewrite (add_payment_exceeds_rent d tenant_id amount payment_method
                 payment_date description r rent Hs Hr (zero_not_positive _ Hzero) Hgt).
      split; reflexivity.
    + intros Hle. subst call.
      pose proof (add_payment_accepted_against d tenant_id amount payment_method
                    payment_date description r rent Hs Hr) as Hacc.
      fold total in Hacc. rewrite (target_of_new_cycle total rent Hzero) in Hacc.
      exact (Hacc Hle).
Qed.

Lemma add_payment_null_price (d : db) (tenant_id : Z) (amount : float)
    (payment_method payment_date : string) (description : option string) :
  is_assigned tenant_id d = true -> rent_due tenant_id d = None ->
  failed_with_error
    (run (add_payment tenant_id amount payment_method payment_date description) d) d.
Proof.
  intros Ha Hr. apply is_assigned_join in Ha. destruct Ha as [r Hs].
  rewrite rent_due_join, Hs in Hr.
  exact (add_payment_no_price d tenant_id amount payment_method payment_date description
           r Hs Hr).
Qed.

Lemma add_payment_nan_amount (d : db) (tenant_id : Z) (amount : float)
    (payment_method payment_date : string) (description : option string) :
  rent_due tenant_id d <> None -> PrimFloat.is_nan amount = true ->
  failed_with_error
    (run (add_payment tenant_id amount payment_method payment_date description) d) d.
Proof.
  intros Hrent Hn.
  destruct (rent_due tenant_id d) as [rent|] eqn:Erent; [|congruence].
  destruct (rent_due_inv _ _ _ Erent) as [r [Hs Hr]].
  exact (add_payment_nan d tenant_id amount payment_method payment_date description
           r rent Hs Hr Hn).
Qed.

(** C1, as amended.  For an existing, assigned tenant whose rent due is set:
    with a positive outstanding balance the payment is refused when it exceeds
    that balance and is otherwise stored as Full when it reaches the balance
    and Partial below it, with [balance_due = max(0, total_outstanding -
    amount)], the difference being the binary64 one; with no outstanding
    balance the same holds against the rent due.  The outstanding balance is
    positive or zero.  For an assigned tenant whose price is [NULL], and for
    an amount that is NaN, the call is answered with status 500 and leaves the
    stored database as it was. *)
Theorem record_payment_classification :
  payments_classified (fun tenant_id d => rent_due tenant_id d <> None)
  /\ (forall d tenant_id,
        (0 < total_outstanding tenant_id d)%num \/ total_outstanding tenant_id d = 0%float)
  /\ (forall d tenant_id amount payment_method payment_date description,
        is_assigned tenant_id d = true -> rent_due tenant_id d = None ->
        failed_with_error
          (run (add_payment tenant_id amount payment_method payment_date description) d) d)
  /\ (forall d tenant_id amount payment_method payment_date description,
        rent_due tenant_id d <> None -> PrimFloat.is_nan amount = true ->
        failed_with_error
          (run (add_payment tenant_id amount payment_method payment_date description) d) d).
Proof.
  split; [exact payments_classified_with_rent|].
  split; [exact (fun d tenant_id => total_outstanding_cases tenant_id d)|].
  split.
  - intros d tenant_id amount payment_method payment_date description Ha Hr.
    apply add_payment_null_price; assumption.
  - intros d tenant_id amount payment_method payment_date description Hr Hn.
    apply add_payment_nan_amount; assumption.
Qed.

(** Scenario B of the specification as an instance: rent 1500, amount 1000,
    nothing outstanding. *)
Lemma record_payment_classification_witness :
  rent_due 7 sample_db = Some 1500%float
  /\ accepted_against (run (add_payment 7 1000 "Cash" "2024-01-05" None) sample_db)
       sample_db 7 1000 1500.
Proof.
  split; [reflexivity|].
  assert (rent_due 7 sample_db <> None) as Hrent by discriminate.
  apply (proj2 (proj1 record_payment_classification sample_db 7 1000%float "Cash"
                  "2024-01-05" None Hrent)
           eq_refl 1500%float eq_refl).
  reflexivity.
Defined.

(** C1 as it is worded fails: an assigned tenant whose property has no price
    and who owes 500 pays 200, which is below the outstanding balance, and the
    call is answered with status 500 instead of being stored. *)
Lemma record_payment_classification_counterexample :
  ~ payments_classified (fun tenant_id d => is_assigned tenant_id d = true).
Proof.
  intros Hclaim.
  destruct (Hclaim sample_db_unpriced 7 200%float "Cash" "2024-02-01" None eq_refl)
    as [Hopen _].
  destruct (Hopen eq_refl) as [_ Hacc].
  destruct (Hacc eq_refl) as [msg [olds [new [Hresp _]]]].
  vm_compute in Hresp. discriminate Hresp.
Qed.

(** ** Every run of [add_payment] is a refusal that aborts or an acceptance *)

Lemma add_payment_outcomes (d : db) (tenant_id : Z) (amount : float)
    (payment_method payment_date : string) (description : option string) :
  let call := run (add_payment tenant_id amount payment_method payment_date description) d in
  (exists msg code, call = (Json false msg code, aborted d))
  \/ (exists r rent,
        select_tenant_join tenant_id d = Some r
        /\ row_rent_amount r = Some rent
        /\ PrimFloat.is_nan amount = false
        /\ Py.gt amount (target_of (total_outstanding tenant_id d) rent) = false).
Proof.
  intros call. subst call.
  destruct (select_tenant_join tenant_id d) as [r|] eqn:Hs.
  2:{ left. do 2 eexists. apply add_payment_no_tenant. exact Hs. }
  destruct (row_rent_amount r) as [rent|] eqn:Hr.
  2:{ left. destruct (add_payment_no_price d tenant_id amount payment_method payment_date
                        description r Hs Hr) as [e He].
      do 2 eexists. exact He. }
  destruct (PrimFloat.is_nan amount) eqn:Hn.
  { left. destruct (add_payment_nan d tenant_id amount payment_method payment_date
                      description r rent Hs Hr Hn) as [e He].
    do 2 eexists. exact He. }
  destruct (Py.gt amount (target_of (total_outstanding tenant_id d) rent)) eqn:Ha.
  2:{ right. exists r, rent. repeat split; assumption. }
  left. unfold target_of in Ha.
  destruct (Py.gt (total_outstanding tenant_id d) 0) eqn:Ht.
  - do 2 eexists. eapply add_payment_exceeds_outstanding; eassumption.
  - do 2 eexists. eapply add_payment_exceeds_rent; eassumption.
Qed.

Lemma add_payment_success_inv (d : db) (tenant_id : Z) (amount : float)
    (payment_method payment_date : string) (description : option string)
    (msg : message) (code : Z) :
  fst (run (add_payment tenant_id amount payment_method payment_date description) d)
  = Json true msg code ->
  exists r rent,
    select_tenant_join tenant_id d = Some r
    /\ row_rent_amount r = Some rent
    /\ PrimFloat.is_nan amount = false
    /\ Py.gt amount (target_of (total_outstanding tenant_id d) rent) = false.
Proof.
  intros H.
  destruct (add_payment_outcomes d tenant_id amount payment_method payment_date description)
    as [[m [c E]]|Hacc].
  - rewrite E in H. discriminate.
  - exact Hacc.
Qed.

Lemma add_payment_failure_inv (d : db) (tenant_id : Z) (amount : float)
    (payment_method payment_date : string) (description : option string)
    (msg : message) (code : Z) :
  fst (run (add_payment tenant_id amount payment_method payment_date description) d)
  = Json false msg code ->
  snd (run (add_payment tenant_id amount payment_method payment_date description) d)
  = aborted d.
Proof.
  intros H.
  destruct (add_payment_outcomes d tenant_id amount payment_method payment_date description)
    as [[m [c E]]|[r [rent [Hs [Hr [Hn Ha]]]]]].
  - rewrite E. reflexivity.
  - rewrite (add_payment_accepted d tenant_id amount payment_method payment_date
               description r rent Hs Hr Hn Ha) in H.
    discriminate.
Qed.

(** ** C6: a refused payment persists nothing *)

(** C6. Whenever [add_payment] answers with a failure, the stored database is
    the one before the call, and the transaction issued no write before it was
    rolled back; an unknown or unassigned tenant, an amount above the
    outstanding balance and an amount above the rent due are such failures;
    2000 against an outstanding balance of 500 is refused with no row
    written. *)
Theorem record_payment_failure_persists_nothing (d : db) (tenant_id : Z) (amount : float)
    (payment_method payment_date : string) (description : option string) :
  let call := run (add_payment tenant_id amount payment_method payment_date description) d in
  let total := total_outstanding tenant_id d in
  (forall msg code, fst call = Json false msg code ->
     committed (snd call) = d
     /\ writes (trace (snd call)) = []
     /\ trace (snd call) = [BEGIN; ROLLBACK; CLOSE])
  /\ (select_tenant_join tenant_id d = None ->
      fst call = Json false Tenant_not_found 404)
  /\ (forall rent, rent_due tenant_id d = Some rent -> (0 < total)%num -> (total < amount)%num ->
      fst call = Json false (Exceeds_outstanding amount total) 400)
  /\ (forall rent, rent_due tenant_id d = Some rent -> (total == 0)%num -> (rent < amount)%num ->
      fst call = Json false (Exceeds_rent amount rent) 400)
  /\ run (add_payment 7 2000 "Cash" "2024-02-01" None) sample_db_partial
     = (Json false (Exceeds_outstanding 2000 500) 400, aborted sample_db_partial).
Proof.
  intros call total. subst call total.
  split; [|split; [|split; [|split]]].
  - intros msg code H.
    rewrite (add_payment_failure_inv _ _ _ _ _ _ _ _ H).
    repeat split; reflexivity.
  - intros Hs. rewrite add_payment_no_tenant by exact Hs. reflexivity.
  - intros rent Hrent Hpos Hgt.
    destruct (rent_due_inv _ _ _ Hrent) as [r [Hs Hr]].
    rewrite (add_payment_exceeds_outstanding d tenant_id amount payment_method
               payment_date description r rent Hs Hr Hpos Hgt).
    reflexivity.
  - intros rent Hrent Hz Hgt.
    destruct (rent_due_inv _ _ _ Hrent) as [r [Hs Hr]].
    rewrite (add_payment_exceeds_rent d tenant_id amount payment_method
               payment_date description r rent Hs Hr (zero_not_positive _ Hz) Hgt).
    reflexivity.
  - reflexivity.
Qed.

Lemma record_payment_failure_persists_nothing_witness :
  fst (run (add_payment 7 2000 "Cash" "2024-02-01" None) sample_db_partial)
  = Json false (Exceeds_outstanding 2000 500) 400
  /\ committed (snd (run (add_payment 7 2000 "Cash" "2024-02-01" None) sample_db_partial))
     = sample_db_partial.
Proof.
  split; [reflexivity|].
  exact (proj1 (proj1 (record_payment_failure_persists_nothing
                         sample_db_partial 7 2000 "Cash" "2024-02-01" None)
                  (Exceeds_outstanding 2000 500) 400 eq_refl)).
Defined.

(** ** C2: the credit/debit stored with a payment *)

Lemma positive_not_zero (x : float) : (0 < x)%num -> PrimFloat.eqb x 0 = false.
Proof.
  intros H. rewrite eqb_sym. apply ltb_not_eqb. exact H.
Qed.

Lemma split_fee_renewal (amount total balance_due : float) :
  (balance_due == 0)%num -> (total == 0)%num ->
  let fee := split_fee true amount total balance_due in
  fst (fst fee) = (amount - amount * 0.10)%float
  /\ snd (fst fee) = (amount * 0.10)%float.
Proof.
  intros Hb Ht. unfold split_fee, Py.eq. rewrite Hb, Ht.
  cbn. split; reflexivity.
Qed.

Lemma split_fee_no_fee (renewal : bool) (amount total balance_due : float) :
  (balance_due == 0)%num -> renewal = false \/ (0 < total)%num ->
  let fee := split_fee renewal amount total balance_due in
  fst (fst fee) = amount /\ snd (fst fee) = 0%float.
Proof.
  intros Hb Hc. unfold split_fee, Py.eq. rewrite Hb.
  destruct Hc as [-> | Hpos].
  - cbn. split; reflexivity.
  - rewrite (positive_not_zero _ Hpos).
    rewrite andb_false_r. cbn. split; reflexivity.
Qed.

Lemma split_fee_partial (renewal : bool) (amount total balance_due : float) :
  (0 < balance_due)%num ->
  let fee := split_fee renewal amount total balance_due in
  fst (fst fee) = 0%float /\ snd (fst fee) = 0%float.
Proof.
  intros Hb. unfold split_fee, Py.eq. rewrite (positive_not_zero _ Hb).
  cbn. split; reflexivity.
Qed.

Lemma not_renewal_iff (tenant_id : Z) (d : db) :
  is_renewal tenant_id d = false <-> ~ has_completed_cycle tenant_id d.
Proof.
  rewrite <- is_renewal_iff. destruct (is_renewal tenant_id d); split; intros H.
  - discriminate.
  - exfalso. apply H. reflexivity.
  - discriminate.
  - reflexivity.
Qed.

(** C2, as amended.  For every accepted payment the stored row carries
    [debit = amount * 0.10] and [credit = amount - amount * 0.10], both
    computed in binary64, when it closes at zero balance for a tenant with a
    completed cycle and nothing outstanding on entry; [credit = amount,
    debit = 0] when it closes at zero balance otherwise; and
    [credit = debit = 0] when a balance remains. *)
Theorem record_payment_fee_split : fee_split fee_as_computed.
Proof.
  intros d tenant_id amount payment_method payment_date description msg call total H.
  subst call.
  destruct (add_payment_success_inv _ _ _ _ _ _ _ _ H) as [r [rent [Hs [Hr [Hn Ha]]]]].
  rewrite (add_payment_accepted d tenant_id amount payment_method payment_date
             description r rent Hs Hr Hn Ha).
  set (row := payment_row d r tenant_id amount rent payment_method payment_date description).
  destruct (stored_after_payment_rows d tenant_id row (total_outstanding tenant_id d))
    as [olds [Hrows Hlen]].
  exists olds, row. do 2 eexists.
  split; [split; assumption|].
  split; [reflexivity|].
  split; [reflexivity|].
  split; [reflexivity|].
  cbn [pay_balance_due row payment_row]. fold total.
  split; [|split].
  - intros Hb Hc Ht. apply is_renewal_iff in Hc. rewrite Hc.
    destruct (split_fee_renewal amount total _ Hb Ht) as [Hcr Hdb].
    split; assumption.
  - intros Hb Hc. apply split_fee_no_fee; [exact Hb|].
    destruct Hc as [Hc|Hc]; [left; apply not_renewal_iff; exact Hc | right; exact Hc].
  - intros Hb. apply split_fee_partial. exact Hb.
Qed.

(** A renewal closing payment: a tenant with one closed cycle pays the whole
    rent of 1500 and is credited 1350 with a fee of 150. *)
Lemma record_payment_fee_split_witness :
  exists olds new credit debit,
    appended_payment sample_db_closed
      (snd (run (add_payment 7 1500 "Cash" "2025-01-05" None) sample_db_closed)) olds new
    /\ pay_credit new = Some credit /\ pay_debit new = Some debit
    /\ credit = 1350%float /\ debit = 150%float.
Proof.
  destruct (record_payment_fee_split sample_db_closed 7 1500%float "Cash" "2025-01-05" None
              (Renewal_payment (1500 - 1500 * 0.10) (1500 * 0.10)) eq_refl)
    as [olds [new [credit [debit [Happ [_ [Hc [Hd [Hren _]]]]]]]]].
  exists olds, new, credit, debit.
  split; [exact Happ|]. split; [exact Hc|]. split; [exact Hd|].
  destruct Happ as [Hrows _]. cbn in Hrows.
  apply (f_equal (@rev payment)) in Hrows. rewrite rev_app_distr in Hrows. cbn in Hrows.
  injection Hrows as Hnew _. subst new.
  cbn in Hc, Hd. injection Hc as <-. injection Hd as <-.
  split; reflexivity.
Defined.

(** C2 as it is worded fails: a tenant with a closed cycle and a rent of
    100.46 pays the rent; the stored debit is 10.046 and the stored credit
    90.41399999999999, which is neither [100.46 * 0.90] nor what added to the
    debit gives 100.46. *)
Lemma record_payment_fee_split_counterexample : ~ fee_split fee_as_specified.
Proof.
  intros Hclaim.
  destruct (Hclaim sample_db_cents 7 100.46%float "Cash" "2025-01-05" None
              (Renewal_payment (100.46 - 100.46 * 0.10) (100.46 * 0.10)) eq_refl)
    as [olds [new [credit [debit [[Hrows _] [_ [Hc [_ [Hfee _]]]]]]]]].
  cbn in Hrows.
  apply (f_equal (@rev payment)) in Hrows. rewrite rev_app_distr in Hrows. cbn in Hrows.
  injection Hrows as Hnew _. subst new.
  cbn in Hc. injection Hc as <-.
  destruct Hfee as [Hcredit _].
  - reflexivity.
  - exists (sample_payment 1 100.46 "Full" 0 100.46 0).
    split; [left; reflexivity|]. repeat split; reflexivity.
  - reflexivity.
  - apply (f_equal (fun x => PrimFloat.eqb x (100.46 * 0.90))) in Hcredit.
    vm_compute in Hcredit. discriminate Hcredit.
Qed.

(** ** C5: cleanup of stale open rows *)

Lemma next_id_above {A : Type} (key : A -> Z) (rows : list A) (r : A) :
  In r rows -> key r < next_id key rows.
Proof.
  unfold next_id. induction rows as [|x rows IH]; intros Hin.
  - contradiction.
  - cbn [fold_right]. destruct Hin as [->|Hin].
    + lia.
    + specialize (IH Hin). lia.
Qed.

Lemma clear_row_normalises (tenant_id lastrowid : Z) (p : payment) :
  pay_id p <> lastrowid ->
  normalised tenant_id p (clear_row tenant_id lastrowid p).
Proof.
  intros Hid. unfold normalised, clear_row.
  change (is_open_for tenant_id p) with (owes tenant_id p).
  apply Z.eqb_neq in Hid. rewrite Hid. cbn [negb]. rewrite andb_true_r.
  destruct (owes tenant_id p).
  - cbn. repeat split; reflexivity.
  - reflexivity.
Qed.

Lemma clear_rows_normalise (tenant_id lastrowid : Z) (rows : list payment) :
  (forall p, In p rows -> pay_id p <> lastrowid) ->
  Forall2 (normalised tenant_id) rows (map (clear_row tenant_id lastrowid) rows).
Proof.
  induction rows as [|p rows IH]; intros Hids; cbn.
  - constructor.
  - constructor.
    + apply clear_row_normalises. apply Hids. left. reflexivity.
    + apply IH. intros q Hq. apply Hids. right. exact Hq.
Qed.

Lemma clear_row_not_open (tenant_id lastrowid : Z) (p : payment) :
  pay_id p <> lastrowid ->
  owes tenant_id (clear_row tenant_id lastrowid p) = false.
Proof.
  intros Hid. unfold clear_row.
  change (is_open_for tenant_id p) with (owes tenant_id p).
  apply Z.eqb_neq in Hid. rewrite Hid. cbn [negb]. rewrite andb_true_r.
  destruct (owes tenant_id p) eqn:E.
  - unfold owes. cbn [pay_balance_due pay_tenant_id].
    change (PrimFloat.ltb 0 0) with false. apply andb_false_r.
  - exact E.
Qed.

Lemma no_open_after_clear (tenant_id lastrowid : Z) (rows : list payment) :
  (forall p, In p rows -> pay_id p <> lastrowid) ->
  filter (owes tenant_id) (map (clear_row tenant_id lastrowid) rows) = [].
Proof.
  induction rows as [|p rows IH]; intros Hids; cbn.
  - reflexivity.
  - rewrite clear_row_not_open by (apply Hids; left; reflexivity).
    apply IH. intros q Hq. apply Hids. right. exact Hq.
Qed.

Lemma closed_row_not_open (tenant_id : Z) (p : payment) :
  (pay_balance_due p == 0)%num -> owes tenant_id p = false.
Proof.
  intros H. unfold owes. rewrite (zero_not_positive _ H). apply andb_false_r.
Qed.

Lemma old_ids_differ (d : db) (p : payment) :
  In p (payments d) -> pay_id p <> next_id pay_id (payments d).
Proof.
  intros Hin. pose proof (next_id_above pay_id (payments d) p Hin). lia.
Qed.

(** After an accepted payment that leaves no balance the tenant has no open
    row at all. *)
Lemma no_open_rows_after_completion (d : db) (tenant_id : Z) (row : payment) :
  pay_id row = next_id pay_id (payments d) ->
  (pay_balance_due row == 0)%num ->
  filter (owes tenant_id)
    (payments (stored_after_payment d tenant_id row (total_outstanding tenant_id d))) = [].
Proof.
  intros Hid Hb. unfold stored_after_payment, completes_outstanding, Py.eq.
  rewrite Hb, andb_true_r. unfold Py.gt.
  destruct (PrimFloat.ltb 0 (total_outstanding tenant_id d)) eqn:Ht.
  - cbn. rewrite map_app, filter_app. cbn [map filter].
    rewrite clear_row_self, (closed_row_not_open tenant_id row Hb).
    rewrite no_open_after_clear; [reflexivity|].
    intros p Hp. rewrite Hid. apply old_ids_differ. exact Hp.
  - cbn. rewrite filter_app. cbn [filter].
    rewrite (closed_row_not_open tenant_id row Hb).
    apply total_outstanding_not_positive in Ht.
    apply total_outstanding_zero_iff in Ht. rewrite Ht. reflexivity.
Qed.

(** C5. When an accepted payment closes a balance that was outstanding on
    entry, every former row of the tenant with [balance_due > 0] is stored
    with [balance_due = 0] and [payment_type = 'Full'] and every other former
    row is kept as it was; and after any accepted payment that leaves no
    balance the tenant has at most one open row. *)
Theorem record_payment_clears_stale_rows (d : db) (tenant_id : Z) (amount : float)
    (payment_method payment_date : string) (description : option string)
    (msg : message) :
  let call := run (add_payment tenant_id amount payment_method payment_date description) d in
  let total := total_outstanding tenant_id d in
  fst call = Json true msg 200 ->
  exists olds new,
    appended_payment d (snd call) olds new
    /\ pay_tenant_id new = tenant_id
    /\ ((0 < total)%num -> (pay_balance_due new == 0)%num ->
        Forall2 (normalised tenant_id) (payments d) olds)
    /\ ((pay_balance_due new == 0)%num ->
        (length (filter (owes tenant_id) (payments (committed (snd call)))) <= 1)%nat).
Proof.
  intros call total H. subst call.
  destruct (add_payment_success_inv _ _ _ _ _ _ _ _ H) as [r [rent [Hs [Hr [Hn Ha]]]]].
  rewrite (add_payment_accepted d tenant_id amount payment_method payment_date
             description r rent Hs Hr Hn Ha).
  set (row := payment_row d r tenant_id amount rent payment_method payment_date description).
  cbn [snd committed].
  assert (pay_id row = next_id pay_id (payments d)) as Hid by reflexivity.
  unfold stored_after_payment, completes_outstanding. fold total.
  destruct (Py.gt total 0 && Py.eq (pay_balance_due row) 0) eqn:Hclear.
  - exists (map (clear_row tenant_id (pay_id row)) (payments d)), row.
    split; [split|split; [reflexivity|split]].
    + unfold clear_old_partials, with_payments. cbn [payments].
      rewrite map_app. cbn [map]. rewrite clear_row_self. reflexivity.
    + apply length_map.
    + intros _ _. apply clear_rows_normalise.
      intros p Hp. rewrite Hid. apply old_ids_differ. exact Hp.
    + intros Hb.
      pose proof (no_open_rows_after_completion d tenant_id row Hid Hb) as Hnone.
      unfold stored_after_payment, completes_outstanding in Hnone.
      fold total in Hnone. rewrite Hclear in Hnone. rewrite Hnone. cbn. lia.
  - exists (payments d), row.
    split; [split; reflexivity|split; [reflexivity|split]].
    + intros Hpos Hb. exfalso.
      unfold Py.gt, Py.eq in Hclear. rewrite Hpos, Hb in Hclear. discriminate.
    + intros Hb.
      pose proof (no_open_rows_after_completion d tenant_id row Hid Hb) as Hnone.
      unfold stored_after_payment, completes_outstanding in Hnone.
      fold total in Hnone. rewrite Hclear in Hnone. rewrite Hnone. cbn. lia.
Qed.

(** Scenario C: 500 closes the 500 left open by scenario B, and the open row
    is normalised. *)
Lemma record_payment_clears_stale_rows_witness :
  exists olds new,
    appended_payment sample_db_partial
      (snd (run (add_payment 7 500 "Cash" "2024-02-01" None) sample_db_partial)) olds new
    /\ (length (filter (owes 7)
                  (payments (committed
                     (snd (run (add_payment 7 500 "Cash" "2024-02-01" None)
                             sample_db_partial))))) <= 1)%nat.
Proof.
  destruct (record_payment_clears_stale_rows sample_db_partial 7 500%float "Cash" "2024-02-01"
              None (Payment_completed 500) eq_refl)
    as [olds [new [Happ [_ [_ Hopen]]]]].
  exists olds, new. split; [exact Happ|].
  apply Hopen.
  destruct Happ as [Hrows _]. cbn in Hrows.
  apply (f_equal (@rev payment)) in Hrows. rewrite rev_app_distr in Hrows. cbn in Hrows.
  injection Hrows as Hnew _. subst new. reflexivity.
Defined.

(** ** Runs of [renew_rent] *)

Section RenewRentRuns.

Variables (d : db) (tenant_id : Z) (new_start_date new_end_date : string) (amount : float).
Variables (payment_method payment_type payment_date description : string).

Let call :=
  run (renew_rent tenant_id new_start_date new_end_date amount payment_method
         payment_type payment_date description) d.

Lemma renew_rent_missing_field :
  required_fields new_start_date new_end_date payment_method = false ->
  call = (Flash_redirect (Plain "All required fields must be filled.") "danger",
          {| committed := d; working := d; trace := [CLOSE] |}).
Proof.
  intros H. subst call. unfold required_fields in H.
  unfold run, renew_rent. rewrite H. reflexivity.
Qed.

Lemma renew_rent_no_tenant :
  required_fields new_start_date new_end_date payment_method = true ->
  select_tenant_join_landlord tenant_id d = None ->
  call = (Flash_redirect (Plain "Tenant not found.") "danger", aborted d).
Proof.
  intros H Hs. subst call. unfold required_fields in H.
  unfold run, renew_rent. rewrite H.
  unfold bind, try_except, execute_begin, query, get_db_connection.
  cbn. rewrite Hs. reflexivity.
Qed.

Lemma renew_rent_no_price r l :
  required_fields new_start_date new_end_date payment_method = true ->
  select_tenant_join_landlord tenant_id d = Some (r, l) ->
  renewal_rent_column r = None ->
  exists e,
    call = (Flash_redirect (Error_of e) "danger",
            {| committed := d; working := d; trace := [BEGIN; ROLLBACK; CLOSE] |}).
Proof.
  intros H Hs Hr. subst call. unfold required_fields in H. eexists.
  unfold run, renew_rent. rewrite H.
  unfold bind, try_except, execute_begin, query, get_db_connection.
  cbn. rewrite Hs. cbn. rewrite Hr. reflexivity.
Qed.

(** A NaN is refused by the [NOT NULL] constraint of the [INSERT] into
    [payments], after the lease dates were updated; the transaction is rolled
    back. *)
Lemma renew_rent_nan r l rent :
  required_fields new_start_date new_end_date payment_method = true ->
  select_tenant_join_landlord tenant_id d = Some (r, l) ->
  renewal_rent_column r = Some rent ->
  PrimFloat.is_nan amount = true ->
  exists e,
    call = (Flash_redirect (Error_of e) "danger",
            {| committed := d; working := d;
               trace := [BEGIN; WRITE "tenants"; ROLLBACK; CLOSE] |}).
Proof.
  intros H Hs Hr Hn. subst call. unfold required_fields in H. eexists.
  unfold run, renew_rent. rewrite H.
  unfold bind, try_except, execute_begin, query, get_db_connection.
  cbn. rewrite Hs. cbn. rewrite Hr. cbn.
  unfold insert_payment. cbn. rewrite Hn. reflexivity.
Qed.

Lemma renew_rent_accepted r l rent :
  required_fields new_start_date new_end_date payment_method = true ->
  select_tenant_join_landlord tenant_id d = Some (r, l) ->
  renewal_rent_column r = Some rent ->
  PrimFloat.is_nan amount = false ->
  let row := renewal_payment_row d r tenant_id new_start_date new_end_date amount rent
               payment_method payment_type payment_date description in
  let entries := renewal_entries d r tenant_id amount payment_method payment_date
                   description in
  let d' := stored_after_renewal d tenant_id new_start_date new_end_date row entries in
  call =
    (Flash_redirect (renewal_message d tenant_id amount rent payment_type) "success",
     {| committed := d'; working := d';
        trace := [BEGIN; WRITE "tenants"; WRITE "payments"]
                 ++ map (fun _ => WRITE "landlord_transactions") entries
                 ++ [COMMIT; CLOSE] |}).
Proof.
  intros H Hs Hr Hn row entries d'. subst call d' entries row. unfold required_fields in H.
  unfold run, renew_rent. rewrite H.
  unfold stored_after_renewal, renewal_entries, renewal_message, renewal_payment_row.
  unfold bind, try_except, execute_begin, query, get_db_connection.
  cbn. rewrite Hs. cbn. rewrite Hr. cbn.
  unfold insert_payment. cbn. rewrite Hn. cbn.
  fold (is_renewal tenant_id d).
  destruct (is_renewal tenant_id d); cbn.
  - f_equal. f_equal; try reflexivity;
      unfold with_landlord_transactions; cbn; rewrite <- app_assoc; reflexivity.
  - f_equal.
Qed.

Lemma renew_rent_outcomes :
  (exists msg c, call = (Flash_redirect msg "danger", c) /\ committed c = d)
  \/ (exists r l rent,
        required_fields new_start_date new_end_date payment_method = true
        /\ select_tenant_join_landlord tenant_id d = Some (r, l)
        /\ renewal_rent_column r = Some rent
        /\ PrimFloat.is_nan amount = false).
Proof.
  destruct (required_fields new_start_date new_end_date payment_method) eqn:H.
  2:{ left. do 2 eexists. split; [apply renew_rent_missing_field; exact H | reflexivity]. }
  destruct (select_tenant_join_landlord tenant_id d) as [[r l]|] eqn:Hs.
  2:{ left. do 2 eexists. split; [apply renew_rent_no_tenant; assumption | reflexivity]. }
  destruct (renewal_rent_column r) as [rent|] eqn:Hr.
  2:{ left. destruct (renew_rent_no_price r l H Hs Hr) as [e He].
      do 2 eexists. split; [exact He | reflexivity]. }
  destruct (PrimFloat.is_nan amount) eqn:Hn.
  { left. destruct (renew_rent_nan r l rent H Hs Hr Hn) as [e He].
    do 2 eexists. split; [exact He | reflexivity]. }
  right. exists r, l, rent. repeat split; assumption.
Qed.

Lemma renew_rent_success_inv msg :
  fst call = Flash_redirect msg "success" ->
  exists r l rent,
    required_fields new_start_date new_end_date payment_method = true
    /\ select_tenant_join_landlord tenant_id d = Some (r, l)
    /\ renewal_rent_column r = Some rent
    /\ PrimFloat.is_nan amount = false.
Proof.
  intros H. destruct renew_rent_outcomes as [[m [c [E _]]]|Hacc].
  - rewrite E in H. discriminate.
  - exact Hacc.
Qed.

End RenewRentRuns.

(** ** C3: ledger entries written by a renewal *)



(** ** C4: the balance stored by a renewal *)

(** What a renewal that goes through stores in the payments table: the
    payment type as sent, and [rent - amount] for Partial, 0 otherwise. *)
Lemma renew_rent_payment_row (d : db) (tenant_id : Z)
    (new_start_date new_end_date : string) (amount : float)
    (payment_method payment_type payment_date description : string) (msg : message) :
  let call := run (renew_rent tenant_id new_start_date new_end_date amount payment_method
                     payment_type payment_date description) d in
  fst call = Flash_redirect msg "success" ->
  exists new rent,
    payments (committed (snd call)) = payments d ++ [new]
    /\ option_map renewal_rent_column (select_tenant_join tenant_id d) = Some (Some rent)
    /\ pay_payment_type new = payment_type
    /\ pay_amount new = amount
    /\ (payment_type = "Partial" -> pay_balance_due new = (rent - amount)%float)
    /\ (payment_type <> "Partial" -> pay_balance_due new = 0%float).
Proof.
  intros call H. subst call.
  destruct (renew_rent_success_inv _ _ _ _ _ _ _ _ _ _ H) as [r [l [rent [Hf [Hs [Hr Hn]]]]]].
  rewrite (renew_rent_accepted d tenant_id new_start_date new_end_date amount
             payment_method payment_type payment_date description r l rent Hf Hs Hr Hn).
  assert (select_tenant_join tenant_id d = Some r) as Hj.
  { unfold select_tenant_join_landlord in Hs.
    destruct (select_tenant_join tenant_id d) as [r'|]; [|discriminate].
    destruct (find_landlord (p_landlord_id (j_property r')) d); [|discriminate].
    injection Hs as -> _. reflexivity. }
  rewrite Hj. cbn [option_map]. rewrite Hr.
  do 2 eexists. split; [reflexivity|]. split; [reflexivity|].
  cbn [pay_payment_type pay_amount pay_balance_due renewal_payment_row].
  unfold renewal_balance_due.
  split; [reflexivity|]. split; [reflexivity|]. split.
  - intros ->. reflexivity.
  - intros Hne. apply String.eqb_neq in Hne. rewrite Hne. reflexivity.
Qed.

(** C4 fails on the code: renewing a tenant whose rent is 1500 with 2000 sent
    as Partial stores a balance of -500, where [max(0, rent_due - amount)]
    is 0. *)
Theorem renew_lease_partial_overpayment_balance :
  exists new c,
    run (renew_rent 7 "2025-01-01" "2025-12-31" 2000 "Cash" "Partial" "2025-01-05" "")
      sample_db = (Flash_redirect (First_partial 2000 (1500 - 2000)) "success", c)
    /\ payments (committed c) = [new]
    /\ pay_payment_type new = "Partial"
    /\ pay_balance_due new = (-500)%float
    /\ (pay_balance_due new < 0)%num
    /\ ~ (pay_balance_due new == max0 (1500 - 2000))%num.
Proof.
  do 2 eexists. split; [reflexivity|]. cbn.
  split; [reflexivity|]. split; [reflexivity|]. split; [reflexivity|].
  split; [reflexivity|]. discriminate.
Qed.

(** ** Runs of [assign_tenant] *)

Section AssignTenantRuns.

Variables (d : db) (tenant_id property_id : Z) (unit_id : option Z).
Hypothesis tenant_id_given : tenant_id <> 0.
Hypothesis property_id_given : property_id <> 0.

Let call := run (assign_tenant (Some tenant_id) (Some property_id) unit_id) d.

Let refused := settled d [BEGIN; ROLLBACK; CLOSE].

Lemma truthy_given (z : Z) : z <> 0 -> Py.truthy_int (Some z) = true.
Proof. intros H. cbn. apply Z.eqb_neq in H. rewrite H. reflexivity. Qed.

Ltac enter_assign :=
  subst call refused; unfold run, assign_tenant;
  rewrite (truthy_given tenant_id tenant_id_given);
  rewrite (truthy_given property_id property_id_given);
  unfold try_finally, try_except, bind, execute_begin, query, get_db_connection;
  cbn.

Lemma assign_tenant_no_tenant :
  find_tenant tenant_id d = None ->
  call = (Json false (Plain "Tenant not found") 404, refused).
Proof. intros H. enter_assign. rewrite H. reflexivity. Qed.

Lemma assign_tenant_already_assigned t :
  find_tenant tenant_id d = Some t ->
  assigned t = true ->
  call = (Json false (Plain "Tenant already assigned to a property or unit") 400, refused).
Proof.
  intros H Ha. unfold assigned in Ha. enter_assign. rewrite H. cbn. rewrite Ha.
  reflexivity.
Qed.

Lemma assign_tenant_no_unit t uid :
  find_tenant tenant_id d = Some t -> assigned t = false ->
  requested_unit unit_id = Some uid ->
  find_unit uid d = None ->
  call = (Json false (Plain "Unit not found") 404, refused).
Proof.
  intros H Ha Hu Hf. unfold assigned in Ha. unfold requested_unit in Hu.
  enter_assign. rewrite H. cbn. rewrite Ha, Hu. cbn. rewrite Hf. reflexivity.
Qed.

Lemma assign_tenant_unit_mismatch t uid u :
  find_tenant tenant_id d = Some t -> assigned t = false ->
  requested_unit unit_id = Some uid ->
  find_unit uid d = Some u ->
  (u_property_id u =? property_id) = false ->
  call = (Json false (Plain "Unit does not belong to the selected property") 400, refused).
Proof.
  intros H Ha Hu Hf Hp. unfold assigned in Ha. unfold requested_unit in Hu.
  enter_assign. rewrite H. cbn. rewrite Ha, Hu. cbn. rewrite Hf. cbn. rewrite Hp.
  reflexivity.
Qed.

Lemma assign_tenant_unit_taken t uid u :
  find_tenant tenant_id d = Some t -> assigned t = false ->
  requested_unit unit_id = Some uid ->
  find_unit uid d = Some u ->
  (u_property_id u =? property_id) = true ->
  String.eqb (u_status u) "Vacant" = false ->
  call = (Json false (Plain "Unit is not available") 409, refused).
Proof.
  intros H Ha Hu Hf Hp Hv. unfold assigned in Ha. unfold requested_unit in Hu.
  enter_assign. rewrite H. cbn. rewrite Ha, Hu. cbn. rewrite Hf. cbn. rewrite Hp.
  cbn. rewrite Hv. reflexivity.
Qed.

Lemma assign_tenant_unit_accepted t uid u :
  find_tenant tenant_id d = Some t -> assigned t = false ->
  requested_unit unit_id = Some uid ->
  find_unit uid d = Some u ->
  (u_property_id u =? property_id) = true ->
  String.eqb (u_status u) "Vacant" = true ->
  let d' := stored_after_unit_assignment d tenant_id property_id uid in
  exists tr,
    call = (Json true (Plain "Tenant assigned successfully") 200, settled d' tr).
Proof.
  intros H Ha Hu Hf Hp Hv d'. subst d'. unfold assigned in Ha. unfold requested_unit in Hu.
  enter_assign. rewrite H. cbn. rewrite Ha, Hu. cbn. rewrite Hf. cbn. rewrite Hp.
  cbn. rewrite Hv. cbn.
  unfold stored_after_unit_assignment, all_units_counted_occupied, settled.
  match goal with
  | |- context [if ?b then execute_write _ _ else _] => destruct b eqn:Hall
  end; cbn in *; rewrite Hall; eexists; reflexivity.
Qed.

Lemma assign_tenant_no_property t :
  find_tenant tenant_id d = Some t -> assigned t = false ->
  requested_unit unit_id = None ->
  find_property property_id d = None ->
  call = (Json false (Plain "Property not found") 404, refused).
Proof.
  intros H Ha Hu Hf. unfold assigned in Ha. unfold requested_unit in Hu.
  enter_assign. rewrite H. cbn. rewrite Ha, Hu. cbn. rewrite Hf. reflexivity.
Qed.

Lemma assign_tenant_property_taken t p :
  find_tenant tenant_id d = Some t -> assigned t = false ->
  requested_unit unit_id = None ->
  find_property property_id d = Some p ->
  String.eqb (p_status p) "Vacant" = false ->
  call = (Json false (Plain "Property is not available") 409, refused).
Proof.
  intros H Ha Hu Hf Hv. unfold assigned in Ha. unfold requested_unit in Hu.
  enter_assign. rewrite H. cbn. rewrite Ha, Hu. cbn. rewrite Hf. cbn. rewrite Hv.
  reflexivity.
Qed.

Lemma assign_tenant_property_accepted t p :
  find_tenant tenant_id d = Some t -> assigned t = false ->
  requested_unit unit_id = None ->
  find_property property_id d = Some p ->
  String.eqb (p_status p) "Vacant" = true ->
  let d' := stored_after_property_assignment d tenant_id property_id in
  call = (Json true (Plain "Tenant assigned successfully") 200,
          settled d' [BEGIN; WRITE "tenants"; WRITE "properties"; COMMIT; CLOSE]).
Proof.
  intros H Ha Hu Hf Hv d'. subst d'. unfold assigned in Ha. unfold requested_unit in Hu.
  enter_assign. rewrite H. cbn. rewrite Ha, Hu. cbn. rewrite Hf. cbn. rewrite Hv.
  reflexivity.
Qed.

End AssignTenantRuns.

(** ** C7: assignment checks and occupancy *)




Lemma find_unit_after_occupy (unit_id tenant_id : Z) (d : db) (u : property_unit) :
  find_unit unit_id d = Some u ->
  find_unit unit_id (update_unit_occupied unit_id tenant_id d)
  = Some {| u_id := u_id u; u_property_id := u_property_id u; u_price := u_price u;
            u_status := "Occupied"; u_tenant_id := Some tenant_id |}.
Proof.
  unfold find_unit, update_unit_occupied. cbn [property_units with_property_units].
  induction (property_units d) as [|x l IH]; cbn; [discriminate|].
  destruct (u_id x =? unit_id) eqn:E; cbn.
  - rewrite E. intros [= ->]. reflexivity.
  - rewrite E. exact IH.
Qed.


Lemma properties_after_status (property_id : Z) (status : string) (d : db) (p : property) :
  In p (properties (update_property_status property_id status d)) ->
  p_id p = property_id -> p_status p = status.
Proof.
  unfold update_property_status. cbn [properties with_properties].
  intros Hin Hid. apply in_map_iff in Hin. destruct Hin as [x [Hx _]].
  destruct (p_id x =? property_id) eqn:E.
  - subst p. reflexivity.
  - subst p. apply Z.eqb_neq in E. contradiction.
Qed.


Lemma assign_tenant_outcomes (d : db) (tenant_id property_id : Z) (unit_id : option Z) :
  tenant_id <> 0 -> property_id <> 0 ->
  let call := run (assign_tenant (Some tenant_id) (Some property_id) unit_id) d in
  (exists msg code, call = (Json false msg code, settled d [BEGIN; ROLLBACK; CLOSE]))
  \/ (exists t uid u tr,
        find_tenant tenant_id d = Some t /\ assigned t = false
        /\ requested_unit unit_id = Some uid /\ find_unit uid d = Some u
        /\ u_property_id u = property_id /\ u_status u = "Vacant"
        /\ call = (Json true (Plain "Tenant assigned successfully") 200,
                   settled (stored_after_unit_assignment d tenant_id property_id uid) tr))
  \/ (exists t p tr,
        find_tenant tenant_id d = Some t /\ assigned t = false
        /\ requested_unit unit_id = None /\ find_property property_id d = Some p
        /\ p_status p = "Vacant"
        /\ call = (Json true (Plain "Tenant assigned successfully") 200,
                   settled (stored_after_property_assignment d tenant_id property_id) tr)).
Proof.
  intros Ht Hp call. subst call.
  destruct (find_tenant tenant_id d) as [t|] eqn:Hft.
  2:{ left. do 2 eexists. apply assign_tenant_no_tenant; assumption. }
  destruct (assigned t) eqn:Ha.
  { left. do 2 eexists. eapply assign_tenant_already_assigned; eassumption. }
  destruct (requested_unit unit_id) as [uid|] eqn:Hu.
  - destruct (find_unit uid d) as [u|] eqn:Hfu.
    2:{ left. do 2 eexists. eapply assign_tenant_no_unit; eassumption. }
    destruct (u_property_id u =? property_id) eqn:Hup.
    2:{ left. do 2 eexists. eapply assign_tenant_unit_mismatch; eassumption. }
    destruct (String.eqb (u_status u) "Vacant") eqn:Hv.
    2:{ left. do 2 eexists. eapply assign_tenant_unit_taken; eassumption. }
    right. left.
    destruct (assign_tenant_unit_accepted d tenant_id property_id unit_id Ht Hp t uid u
                Hft Ha Hu Hfu Hup Hv) as [tr Htr].
    exists t, uid, u, tr. repeat split; try assumption.
    + apply Z.eqb_eq. exact Hup.
    + apply String.eqb_eq. exact Hv.
  - destruct (find_property property_id d) as [p|] eqn:Hfp.
    2:{ left. do 2 eexists. eapply assign_tenant_no_property; eassumption. }
    destruct (String.eqb (p_status p) "Vacant") eqn:Hv.
    2:{ left. do 2 eexists. eapply assign_tenant_property_taken; eassumption. }
    right. right. exists t, p. eexists. repeat split; try assumption.
    + apply String.eqb_eq. exact Hv.
    + eapply assign_tenant_property_accepted; eassumption.
Qed.




(** ** C8: the running balance of a statement *)

Lemma insert_line_perm (x : statement_line) (l : list statement_line) :
  Permutation (x :: l) (insert_line x l).
Proof.
  induction l as [|y l IH]; cbn.
  - apply Permutation_refl.
  - destruct (String.leb (sort_key x) (sort_key y)).
    + apply Permutation_refl.
    + apply perm_trans with (y :: x :: l).
      * apply perm_swap.
      * apply perm_skip. exact IH.
Qed.

Lemma sort_by_date_perm (l : list statement_line) :
  Permutation l (sort_by_date l).
Proof.
  induction l as [|x l IH]; cbn.
  - apply perm_nil.
  - apply perm_trans with (x :: sort_by_date l).
    + apply perm_skip. exact IH.
    + apply insert_line_perm.
Qed.

(** The key the sort compares is the date of the line. *)
Lemma sort_key_date (x : statement_line) : sort_key x = line_date x.
Proof. unfold sort_key, line_date. destruct (tx_date x); reflexivity. Qed.

Lemma insert_line_hd (a x : statement_line) (l : list statement_line) :
  date_le a x -> HdRel date_le a l -> HdRel date_le a (insert_line x l).
Proof.
  intros Hax Hal. destruct l as [|y l]; cbn.
  - constructor. exact Hax.
  - destruct (String.leb (sort_key x) (sort_key y)).
    + constructor. exact Hax.
    + constructor. inversion Hal; assumption.
Qed.

Lemma insert_line_sorted (x : statement_line) (l : list statement_line) :
  Sorted date_le l -> Sorted date_le (insert_line x l).
Proof.
  induction 1 as [|y l Hs IH Hhd]; cbn.
  - repeat constructor.
  - destruct (String.leb (sort_key x) (sort_key y)) eqn:E.
    + constructor; [constructor; assumption | constructor].
      unfold date_le. rewrite <- !sort_key_date. exact E.
    + constructor; [exact IH|].
      apply insert_line_hd; [|exact Hhd].
      unfold date_le. rewrite <- !sort_key_date.
      destruct (String.leb_total (sort_key x) (sort_key y)) as [H|H].
      * congruence.
      * exact H.
Qed.

Lemma sort_by_date_sorted (l : list statement_line) :
  Sorted date_le (sort_by_date l).
Proof.
  induction l as [|x l IH]; cbn.
  - constructor.
  - apply insert_line_sorted. exact IH.
Qed.

Lemma or0_idem (o : option float) : Py.or0 (Some (Py.or0 o)) = Py.or0 o.
Proof.
  unfold Py.or0. destruct o as [x|]; [|reflexivity].
  destruct (PrimFloat.eqb x 0) eqn:E; [reflexivity|].
  rewrite E. reflexivity.
Qed.

Lemma or0_zero : Py.or0 (Some 0%float) = 0%float.
Proof. reflexivity. Qed.

Lemma payment_line_plain (d : db) (p : payment) : plain_amounts (payment_line d p).
Proof. split; [apply or0_idem | apply or0_zero]. Qed.

Lemma manual_line_plain (m : landlord_transaction) : plain_amounts (manual_line m).
Proof.
  unfold plain_amounts, manual_line. cbn [tx_credit tx_debit].
  destruct (String.eqb (Py.lower (lt_transaction_type m)) "credit");
    split; try apply or0_idem; apply or0_zero.
Qed.

Lemma collected_lines_plain (landlord_id : Z) (d : db) :
  Forall plain_amounts (collected_lines landlord_id d).
Proof.
  unfold collected_lines. apply Forall_app. split; apply Forall_forall; intros x Hx;
    apply in_map_iff in Hx; destruct Hx as [y [<- _]].
  - apply payment_line_plain.
  - apply manual_line_plain.
Qed.

Lemma merged_lines_plain (landlord_id : Z) (d : db) :
  Forall plain_amounts (merged_lines landlord_id d).
Proof.
  apply (Permutation_Forall (sort_by_date_perm (collected_lines landlord_id d))).
  apply collected_lines_plain.
Qed.

Lemma running_balance_lines (i : Z) (b : float) (l : list statement_line) :
  map tx (fst (running_balance i b l)) = l.
Proof.
  revert i b. induction l as [|x l IH]; intros i b; cbn [running_balance].
  - reflexivity.
  - match goal with
    | |- context [running_balance (i + 1) ?b' l] =>
        specialize (IH (i + 1) b'); destruct (running_balance (i + 1) b' l) as [ds f]
    end.
    cbn in *. rewrite IH. reflexivity.
Qed.

Lemma running_balance_numbers (i : Z) (b : float) (l : list statement_line) :
  forall k line, nth_error (fst (running_balance i b l)) k = Some line ->
                 sn line = i + Z.of_nat k.
Proof.
  revert i b. induction l as [|x l IH]; intros i b k line; cbn [running_balance].
  - destruct k; discriminate.
  - match goal with
    | |- context [running_balance (i + 1) ?b' l] =>
        specialize (IH (i + 1) b'); destruct (running_balance (i + 1) b' l) as [ds f]
    end.
    cbn [fst] in *. destruct k as [|k]; cbn [nth_error].
    + intros [= <-]. cbn. lia.
    + intros H. rewrite (IH k line H). lia.
Qed.

(** Each line's balance is the previous one plus its credit minus its debit,
    starting from [b]. *)
Lemma running_balance_step (i : Z) (b : float) (l : list statement_line) :
  Forall plain_amounts l ->
  forall k line,
    nth_error (fst (running_balance i b l)) k = Some line ->
    balance line
    = (match k with
       | O => b
       | S j => balance_before (fst (running_balance i b l)) k
       end + (tx_credit (tx line) - tx_debit (tx line)))%float.
Proof.
  intros Hplain. revert i b.
  induction Hplain as [|x l [Hc Hd] _ IH]; intros i b k line; cbn [running_balance].
  - destruct k; discriminate.
  - rewrite Hc, Hd.
    specialize (IH (i + 1) (b + (tx_credit x - tx_debit x))%float).
    destruct (running_balance (i + 1) (b + (tx_credit x - tx_debit x)) l) as [ds f].
    cbn [fst] in *. destruct k as [|k]; cbn [nth_error].
    + intros [= <-]. reflexivity.
    + intros H. specialize (IH k line H).
      destruct k as [|k].
      * cbn [balance_before nth_error balance]. exact IH.
      * cbn [balance_before nth_error] in *. exact IH.
Qed.

Lemma running_balance_last (i : Z) (b : float) (l : list statement_line) :
  snd (running_balance i b l)
  = match length (fst (running_balance i b l)) with
    | O => b
    | S j => balance_before (fst (running_balance i b l)) (S j)
    end.
Proof.
  revert i b. induction l as [|x l IH]; intros i b; cbn [running_balance].
  - reflexivity.
  - match goal with
    | |- context [running_balance (i + 1) ?b' l] =>
        specialize (IH (i + 1) b'); destruct (running_balance (i + 1) b' l) as [ds f]
    end.
    cbn [fst snd length] in *. rewrite IH.
    destruct (length ds) as [|j]; reflexivity.
Qed.

Lemma running_balance_final (i : Z) (b : float) (l : list statement_line) :
  Forall plain_amounts l ->
  snd (running_balance i b l)
  = fold_left (fun b x => (b + (tx_credit x - tx_debit x))%float) l b.
Proof.
  intros Hplain. revert i b.
  induction Hplain as [|x l [Hc Hd] _ IH]; intros i b; cbn [running_balance fold_left].
  - reflexivity.
  - rewrite Hc, Hd.
    specialize (IH (i + 1) (b + (tx_credit x - tx_debit x))%float).
    destruct (running_balance (i + 1) (b + (tx_credit x - tx_debit x)) l) as [ds f].
    cbn [snd] in *. exact IH.
Qed.

(** C8, as amended.  In a landlord's statement the lines are the collected
    payment and manual rows in ascending date order, numbered from 1; the
    balance starts from 0 and each line's balance is the previous balance plus
    its credit minus its debit, computed in binary64; the final balance is the
    last line's balance, that is the accumulation in the order of the
    statement. *)
Theorem statement_running_balance : statement_balances final_as_computed.
Proof.
  intros d landlord_id transactions final.
  unfold landlord_account_detail.
  destruct (find_landlord landlord_id d); [|discriminate].
  pose proof (merged_lines_plain landlord_id d) as Hplain.
  pose proof (running_balance_lines 1 0 (merged_lines landlord_id d)) as Hlines.
  pose proof (running_balance_numbers 1 0 (merged_lines landlord_id d)) as Hsn.
  pose proof (running_balance_step 1 0 (merged_lines landlord_id d) Hplain) as Hstep.
  pose proof (running_balance_final 1 0 (merged_lines landlord_id d) Hplain) as Hfinal.
  pose proof (running_balance_last 1 0 (merged_lines landlord_id d)) as Hlast.
  destruct (running_balance 1 0 (merged_lines landlord_id d)) as [ds f].
  cbn [fst snd] in *. intros [= <- <-]. cbn zeta.
  rewrite Hlines.
  split; [apply sort_by_date_perm|].
  split; [apply sort_by_date_sorted|].
  split; [reflexivity|].
  split; [|split].
  - intros i line Hnth. split.
    + rewrite (Hsn i line Hnth). lia.
    + specialize (Hstep i line Hnth). destruct i; exact Hstep.
  - rewrite Hlast. destruct (length ds); reflexivity.
  - exact Hfinal.
Qed.

(** A statement of four lines, three of them of the same date: the final
    balance is 100 + 1500 + 2000 - 300. *)
Lemma statement_running_balance_witness :
  exists transactions final,
    landlord_account_detail 1 sample_ledger = Statement transactions final
    /\ final = 3300%float.
Proof.
  destruct (landlord_account_detail 1 sample_ledger) as [|transactions final] eqn:E.
  - vm_compute in E. discriminate E.
  - exists transactions, final. split; [reflexivity|].
    destruct (statement_running_balance sample_ledger 1 transactions final E)
      as [_ [_ [_ [_ [_ Hfinal]]]]].
    rewrite Hfinal. vm_compute in E. injection E as <- _. reflexivity.
Defined.

(** C8 as it is worded fails: three credits of one date, 0.1, 0.2 and 0.3,
    give a final balance of 0.6000000000000001, and 0.6 when the same
    entries are taken in the reverse order. *)
Lemma statement_running_balance_counterexample : ~ statement_balances final_as_specified.
Proof.
  intros Hclaim.
  destruct (landlord_account_detail 1 sample_ledger_tenths) as [|transactions final] eqn:E.
  - vm_compute in E. discriminate E.
  - destruct (Hclaim sample_ledger_tenths 1 transactions final E)
      as [_ [_ [_ [_ [_ [_ Horder]]]]]].
    vm_compute in E. injection E as <- <-.
    specialize (Horder (rev (map manual_line (landlord_transactions sample_ledger_tenths)))).
    assert (snd (running_balance 1 0
                   (rev (map manual_line (landlord_transactions sample_ledger_tenths))))
            = 0.6000000000000001%float) as Hfinal.
    { apply Horder.
      - apply Permutation_rev.
      - repeat constructor. }
    apply (f_equal (fun x => PrimFloat.eqb x 0.6000000000000001)) in Hfinal.
    vm_compute in Hfinal. discriminate Hfinal.
Qed.

(** ** C9: the general account of the dashboard *)






















(** ** Rounding is monotone around a representable number *)

Lemma shr_1_inv (m0 : Z) (rec : shr_record) (k : Z) :
  0 <= k -> shr_inv m0 rec k -> shr_inv m0 (shr_1 rec) (k + 1).
Proof.
  intros Hk [H0 [[Hlo Hhi] Hex]]. unfold shr_inv.
  assert (0 < 2 ^ k) as Hp by (apply Z.pow_pos_nonneg; lia).
  rewrite Z.pow_add_r by lia. change (2 ^ 1) with 2.
  destruct rec as [m r s]. cbn [shr_m shr_r shr_s] in *.
  destruct m as [|p|p]; [| |lia].
  - cbn [shr_1 shr_m shr_r shr_s]. split; [lia|]. split; [lia|].
    intros E. destruct (Hex ltac:(lia)) as [-> ->]. split; reflexivity.
  - destruct p as [p|p|]; cbn [shr_1 shr_m shr_r shr_s].
    + split; [lia|]. split.
      * change (Z.pos p~1) with (2 * Z.pos p + 1) in *. nia.
      * intros E. exfalso. change (Z.pos p~1) with (2 * Z.pos p + 1) in *. nia.
    + split; [lia|]. split.
      * change (Z.pos p~0) with (2 * Z.pos p) in *. nia.
      * intros E. change (Z.pos p~0) with (2 * Z.pos p) in *.
        destruct (Hex ltac:(nia)) as [-> ->]. split; reflexivity.
    + split; [lia|]. split.
      * nia.
      * intros E. exfalso. nia.
Qed.

Lemma iter_shr_1_inv (m0 : Z) (p : positive) (rec : shr_record) (k : Z) :
  0 <= k -> shr_inv m0 rec k -> shr_inv m0 (iter_pos shr_1 p rec) (k + Zpos p).
Proof.
  revert rec k. induction p as [p IH|p IH|]; intros rec k Hk H; cbn [iter_pos].
  - apply shr_1_inv in H; [|exact Hk].
    apply IH in H; [|lia]. apply IH in H; [|lia].
    replace (k + Z.pos p~1) with (k + 1 + Z.pos p + Z.pos p) by lia. exact H.
  - apply IH in H; [|lia]. apply IH in H; [|lia].
    replace (k + Z.pos p~0) with (k + Z.pos p + Z.pos p) by lia. exact H.
  - apply shr_1_inv; assumption.
Qed.

(** The first step of rounding: the mantissa is brought to the exponent the
    format gives its magnitude, by a quotient. *)
Lemma shr_fexp_shape (m : positive) (e : Z) :
  emin <= e ->
  exists rec' m',
    shr_fexp prec emax (Zpos m) e loc_Exact
    = (rec', Z.max e (fexp prec emax (Zdigits2 (Zpos m) + e)))
    /\ shr_m rec' = Zpos m'
    /\ shr_inv (Zpos m) rec' (Z.max e (fexp prec emax (Zdigits2 (Zpos m) + e)) - e).
Proof.
  intros He.
  destruct (shr_fexp_positive m e loc_Exact He) as [m' [Hm' _]].
  unfold shr_fexp, shr in *.
  set (f := fexp prec emax (Zdigits2 (Zpos m) + e)) in *.
  destruct (f - e) as [|p|p] eqn:En; cbn [fst] in Hm'.
  - eexists. exists m'. split; [|split; [exact Hm'|]].
    + rewrite Z.max_l by lia. reflexivity.
    + rewrite Z.max_l by lia. rewrite Z.sub_diag.
      cbn [shr_record_of_loc]. split; [cbn; lia|]. split; [cbn; lia|].
      intros _. split; reflexivity.
  - eexists. exists m'. split; [|split; [exact Hm'|]].
    + rewrite Z.max_r by lia. f_equal. lia.
    + rewrite Z.max_r by lia.
      replace (f - e) with (0 + Z.pos p) by lia.
      apply iter_shr_1_inv; [lia|].
      cbn [shr_record_of_loc]. split; [cbn; lia|]. split; [cbn; lia|].
      intros _. split; reflexivity.
  - eexists. exists m'. split; [|split; [exact Hm'|]].
    + rewrite Z.max_l by lia. reflexivity.
    + rewrite Z.max_l by lia. rewrite Z.sub_diag.
      cbn [shr_record_of_loc]. split; [cbn; lia|]. split; [cbn; lia|].
      intros _. split; reflexivity.
Qed.

Lemma round_nearest_even_bounds (m : Z) (l : location) :
  m <= round_nearest_even m l <= m + 1.
Proof.
  destruct l as [|[]]; cbn [round_nearest_even]; try lia.
  destruct (Z.even m); lia.
Qed.

Lemma round_exact (rec : shr_record) :
  shr_r rec = false -> shr_s rec = false ->
  round_nearest_even (shr_m rec) (loc_of_shr_record rec) = shr_m rec.
Proof. destruct rec as [m r s]. cbn. intros -> ->. reflexivity. Qed.

Lemma digits2_pos_shift (d z : positive) :
  Zpos (digits2_pos (shift_pos d z)) = Zpos (digits2_pos z) + Zpos d.
Proof.
  unfold shift_pos. induction d as [|d IH] using Pos.peano_ind.
  - cbn. lia.
  - rewrite Pos.iter_succ. cbn [digits2_pos]. lia.
Qed.

(** The shape of a rounded number: its mantissa and exponent, from those of
    the exact value. *)
Lemma binary_round_shape (s : bool) (z : positive) (ez : Z) :
  emin <= ez ->
  let f := fexp prec emax (Zpos (digits2_pos z) + ez) in
  exists m2 m3 : positive, exists e3 : Z,
    binary_round prec emax s z ez
    = (if e3 <=? emax - prec then S754_finite s m3 e3 else S754_infinity s)
    /\ (f < ez -> Zpos m2 = Zpos z * 2 ^ (ez - f))
    /\ (ez <= f ->
        exists m1, m1 * 2 ^ (f - ez) <= Zpos z < (m1 + 1) * 2 ^ (f - ez)
                   /\ m1 <= Zpos m2 <= m1 + 1
                   /\ (Zpos z = m1 * 2 ^ (f - ez) -> Zpos m2 = m1))
    /\ e3 = Z.max f (fexp prec emax (Zpos (digits2_pos m2) + f))
    /\ Zpos m3 * 2 ^ (e3 - f) <= Zpos m2 < (Zpos m3 + 1) * 2 ^ (e3 - f).
Proof.
  intros He f.
  assert (emin <= f) as Hf by (unfold f, fexp; lia).
  (* the mantissa and exponent the first step starts from *)
  assert (exists mz ez',
            shl_align z ez f = (mz, ez') /\ emin <= ez' /\ ez' <= f
            /\ fexp prec emax (Zdigits2 (Zpos mz) + ez') = f
            /\ (f < ez -> ez' = f /\ Zpos mz = Zpos z * 2 ^ (ez - f))
            /\ (ez <= f -> ez' = ez /\ mz = z)) as [mz [ez' [Ha [He' [Hle [Hfz [Hlt Hge]]]]]]].
  { unfold shl_align. destruct (f - ez) as [|p|p] eqn:En.
    - exists z, ez. repeat split; try lia; reflexivity.
    - exists z, ez. repeat split; try lia; reflexivity.
    - exists (shift_pos p z), f. split; [reflexivity|].
      split; [exact Hf|]. split; [lia|]. split.
      + cbn [Zdigits2]. rewrite digits2_pos_shift.
        replace (Z.pos (digits2_pos z) + Z.pos p + f) with (Z.pos (digits2_pos z) + ez) by lia.
        reflexivity.
      + split; [|lia]. intros _. split; [reflexivity|].
        rewrite shift_pos_correct, Z.pow_pos_fold.
        replace (ez - f) with (Z.pos p) by lia. lia. }
  unfold binary_round. fold f. rewrite Ha. unfold binary_round_aux.
  destruct (shr_fexp_shape mz ez' He') as [rec1 [m1 [E1 [Hm1 Hinv1]]]].
  rewrite Hfz in E1, Hinv1. rewrite (Z.max_r ez' f Hle) in E1, Hinv1.
  rewrite E1.
  destruct (round_nearest_even_positive m1 (loc_of_shr_record rec1)) as [m2 Hm2].
  pose proof (round_nearest_even_bounds (shr_m rec1) (loc_of_shr_record rec1)) as Hb2.
  rewrite Hm1 in Hb2 |- *. rewrite Hm2 in Hb2 |- *.
  destruct (shr_fexp_shape m2 f Hf) as [rec3 [m3 [E3 [Hm3 Hinv3]]]].
  rewrite E3. rewrite Hm3.
  cbn [Zdigits2] in *.
  set (e3 := Z.max f (fexp prec emax (Z.pos (digits2_pos m2) + f))) in *.
  exists m2, m3, e3.
  destruct Hinv1 as [_ [Hq1 Hx1]]. destruct Hinv3 as [_ [Hq3 _]].
  rewrite Hm1 in Hq1, Hx1. rewrite Hm3 in Hq3.
  split; [reflexivity|]. split; [|split; [|split; [reflexivity | exact Hq3]]].
  - intros Hlt'. destruct (Hlt Hlt') as [-> Hmz].
    rewrite Z.sub_diag in Hq1, Hx1. cbn [Z.pow] in Hq1, Hx1.
    assert (Z.pos mz = Z.pos m1) as Heq by lia.
    destruct (Hx1 ltac:(lia)) as [Hr Hs].
    pose proof (round_exact rec1 Hr Hs) as Hre. rewrite Hm1, Hm2 in Hre.
    lia.
  - intros Hge'. destruct (Hge Hge') as [-> ->].
    exists (Zpos m1). split; [exact Hq1|]. split; [exact Hb2|].
    intros Hexact. destruct (Hx1 Hexact) as [Hr Hs].
    pose proof (round_exact rec1 Hr Hs) as Hre. rewrite Hm1, Hm2 in Hre. exact Hre.
Qed.

Lemma digits_le_shift (x y : positive) (k : Z) :
  0 <= k -> Zpos x <= Zpos y * 2 ^ k ->
  Zpos (digits2_pos x) <= Zpos (digits2_pos y) + k.
Proof.
  intros Hk H.
  pose proof (digits2_pos_bounds x) as [Bx _].
  pose proof (digits2_pos_bounds y) as [_ By].
  assert (0 < 2 ^ k) as Hp by (apply Z.pow_pos_nonneg; lia).
  assert (2 ^ (Zpos (digits2_pos x) - 1) < 2 ^ (Zpos (digits2_pos y) + k)) as Hlt.
  { rewrite (Z.pow_add_r 2 (Zpos (digits2_pos y)) k) by lia. nia. }
  apply Z.pow_lt_mono_r_iff in Hlt; lia.
Qed.

Lemma digits_ge_shift (x y : positive) (k : Z) :
  0 <= k -> Zpos y * 2 ^ k <= Zpos x ->
  Zpos (digits2_pos y) + k <= Zpos (digits2_pos x).
Proof.
  intros Hk H.
  pose proof (digits2_pos_bounds x) as [_ Bx].
  pose proof (digits2_pos_bounds y) as [By _].
  assert (0 < 2 ^ k) as Hp by (apply Z.pow_pos_nonneg; lia).
  assert (2 ^ (Zpos (digits2_pos y) - 1 + k) < 2 ^ Zpos (digits2_pos x)) as Hlt.
  { rewrite (Z.pow_add_r 2 (Zpos (digits2_pos y) - 1) k) by lia. nia. }
  apply Z.pow_lt_mono_r_iff in Hlt; lia.
Qed.

Lemma valid_finite_canonical (s : bool) (m : positive) (e : Z) :
  valid_binary (S754_finite s m e) = true ->
  fexp prec emax (Zpos (digits2_pos m) + e) = e /\ e <= emax - prec.
Proof.
  cbn [SpecFloat.valid_binary]. unfold bounded, canonical_mantissa.
  intros H. apply andb_true_iff in H. destruct H as [H1 H2].
  apply Z.eqb_eq in H1. apply Z.leb_le in H2. split; assumption.
Qed.

(** Rounding a value that is not below a representable number does not go
    below it. *)
Lemma binary_round_ge (mr z : positive) (er ez : Z) :
  valid_binary (S754_finite false mr er) = true ->
  emin <= ez -> ez <= er ->
  Zpos mr * 2 ^ (er - ez) <= Zpos z ->
  SFleb (S754_finite false mr er) (binary_round prec emax false z ez) = true.
Proof.
  intros V He Hle Hval.
  destruct (valid_finite_canonical _ _ _ V) as [Hcan _].
  destruct (binary_round_shape false z ez He) as [m2 [m3 [e3 [-> [_ [Hge [He3 Hq3]]]]]]].
  set (f := fexp prec emax (Zpos (digits2_pos z) + ez)) in *.
  assert (er <= f) as Herf.
  { pose proof (digits_ge_shift z mr (er - ez) ltac:(lia) Hval) as Hd.
    rewrite <- Hcan. unfold f, fexp. lia. }
  destruct (e3 <=? emax - prec); [|reflexivity].
  unfold SFleb. cbn [SFcompare].
  destruct (Z.compare_spec er e3) as [E|E|E]; [|reflexivity|lia].
  assert (f = er) as Hfer by lia. subst e3.
  rewrite <- E, Hfer, Z.sub_diag in Hq3. cbn [Z.pow] in Hq3.
  destruct (Hge ltac:(lia)) as [m1 [Hq1 [Hb _]]]. rewrite Hfer in Hq1.
  assert (0 < 2 ^ (er - ez)) as Hp by (apply Z.pow_pos_nonneg; lia).
  assert (Zpos mr <= Zpos m3) as Hm by nia.
  change (Pos.compare_cont Eq mr m3) with (Pos.compare mr m3).
  destruct (Pos.compare_spec mr m3) as [Em|Em|Em]; try reflexivity. lia.
Qed.

(** Rounding a value that is not above a representable number does not go
    above it. *)
Lemma binary_round_le (s : bool) (mr z : positive) (er ez : Z) :
  valid_binary (S754_finite false mr er) = true ->
  emin <= ez -> ez <= er ->
  Zpos z <= Zpos mr * 2 ^ (er - ez) ->
  exists m3 e3,
    binary_round prec emax s z ez = S754_finite s m3 e3
    /\ (e3 < er \/ (e3 = er /\ Zpos m3 <= Zpos mr)).
Proof.
  intros V He Hle Hval.
  destruct (valid_finite_canonical _ _ _ V) as [Hcan Hbound].
  destruct (binary_round_shape s z ez He) as [m2 [m3 [e3 [-> [Hlt [Hge [He3 Hq3]]]]]]].
  set (f := fexp prec emax (Zpos (digits2_pos z) + ez)) in *.
  assert (emin <= f) as Hf by (unfold f, fexp; lia).
  assert (f <= er) as Hfer.
  { pose proof (digits_le_shift z mr (er - ez) ltac:(lia) Hval) as Hd.
    rewrite <- Hcan. unfold f, fexp. lia. }
  assert (Zpos m2 <= Zpos mr * 2 ^ (er - f)) as Hm2.
  { destruct (Z_lt_le_dec f ez) as [Hc|Hc].
    - rewrite (Hlt Hc).
      replace (er - f) with ((er - ez) + (ez - f)) by lia.
      rewrite Z.pow_add_r by lia.
      assert (0 < 2 ^ (ez - f)) as Hp by (apply Z.pow_pos_nonneg; lia).
      nia.
    - destruct (Hge Hc) as [m1 [Hq1 [Hb Hex]]].
      replace (er - ez) with ((er - f) + (f - ez)) in Hval by lia.
      rewrite Z.pow_add_r in Hval by lia.
      assert (0 < 2 ^ (f - ez)) as Hp by (apply Z.pow_pos_nonneg; lia).
      assert (0 < 2 ^ (er - f)) as Hp' by (apply Z.pow_pos_nonneg; lia).
      destruct (Z.eq_dec (Zpos z) (m1 * 2 ^ (f - ez))) as [Hz|Hz].
      + rewrite (Hex Hz). nia.
      + assert (m1 < Zpos mr * 2 ^ (er - f)) by nia. lia. }
  assert (e3 <= er) as He3er.
  { pose proof (digits_le_shift m2 mr (er - f) ltac:(lia) Hm2) as Hd.
    rewrite He3. unfold fexp in Hcan |- *. lia. }
  assert ((e3 <=? emax - prec) = true) as -> by (apply Z.leb_le; lia).
  exists m3, e3. split; [reflexivity|].
  destruct (Z_lt_le_dec e3 er) as [Hc|Hc]; [left; exact Hc|].
  right. split; [lia|].
  assert (e3 = er) as -> by lia.
  assert (0 < 2 ^ (er - f)) as Hp by (apply Z.pow_pos_nonneg; lia).
  nia.
Qed.

Lemma SFsub_nonpositive_le (r a : spec_float) :
  valid_binary r = true -> valid_binary a = true ->
  SFleb a (S754_zero false) = true -> SFcompare a r = Some Lt ->
  SFleb r (SFsub prec emax r a) = true.
Proof.
  intros Vr Va Ha Hlt.
  destruct a as [sa|sa| |sa ma ea], r as [sr|sr| |sr mr er];
    try discriminate;
    try (destruct sa, sr; try discriminate; reflexivity);
    try (destruct sa; try discriminate; reflexivity);
    try (destruct sr; try discriminate; reflexivity).
  - (* a zero, r finite *)
    destruct sr; [destruct sa; discriminate|].
    cbn [SFsub]. unfold SFleb. cbn [SFcompare].
    rewrite Z.compare_refl, Pos.compare_cont_refl. reflexivity.
  - (* both finite *)
    destruct sa; [|discriminate].
    cbn [SFsub].
    set (ez := Z.min er ea).
    pose proof (valid_finite _ _ _ Vr) as [Er _].
    pose proof (valid_finite _ _ _ Va) as [Ea _].
    pose proof (shl_align_value mr er ez ltac:(unfold ez; lia)) as HR.
    set (mr' := fst (shl_align mr er ez)) in *.
    set (ma' := fst (shl_align ma ea ez)) in *.
    destruct sr; cbn [cond_Zopp].
    + match goal with
      | |- context [binary_normalize prec emax ?D0 ez false] => set (D := D0)
      end.
      assert (D = Z.pos ma' - Z.pos mr') as ED by (unfold D; lia).
      clearbody D. destruct D as [|k|k]; cbn [binary_normalize].
      * reflexivity.
      * pose proof (binary_round_positive k ez ltac:(unfold ez; lia)) as Hpos.
        destruct (binary_round prec emax false k ez) as [s|s| |s m e];
          try contradiction; destruct s; try contradiction; reflexivity.
      * destruct (binary_round_le true mr k er ez Vr ltac:(unfold ez; lia)
                    ltac:(unfold ez; lia) ltac:(lia)) as [m3 [e3 [-> Hc]]].
        unfold SFleb. cbn [SFcompare].
        destruct Hc as [Hc|[-> Hc]].
        -- rewrite (proj2 (Z.compare_gt_iff er e3)) by lia. reflexivity.
        -- rewrite Z.compare_refl.
           change (Pos.compare_cont Eq mr m3) with (Pos.compare mr m3).
           destruct (Pos.compare_spec mr m3) as [Em|Em|Em]; try reflexivity. lia.
    + match goal with
      | |- context [binary_normalize prec emax ?D0 ez false] =>
          replace D0 with (Z.pos (mr' + ma')) by lia
      end.
      cbn [binary_normalize].
      apply binary_round_ge; try assumption; try (unfold ez; lia).
      rewrite <- HR. lia.
Qed.

(** Taking away an amount that is not positive does not lower a number. *)
Lemma sub_nonpositive_le (r a : float) :
  PrimFloat.leb a 0 = true -> PrimFloat.ltb a r = true ->
  PrimFloat.leb r (r - a) = true.
Proof.
  intros Ha Hlt. rewrite leb_spec, sub_spec.
  apply SFsub_nonpositive_le; try apply Prim2SF_valid.
  - rewrite leb_spec, Prim2SF_zero in Ha. exact Ha.
  - apply ltb_compare. exact Hlt.
Qed.

(** An amount that is not positive is below every positive one. *)
Lemma nonpositive_below_positive (a t : float) :
  PrimFloat.leb a 0 = true -> PrimFloat.ltb 0 t = true -> PrimFloat.ltb a t = true.
Proof.
  rewrite !ltb_spec, leb_spec, Prim2SF_zero. unfold SFleb, SFltb.
  destruct (Prim2SF a) as [sa|sa| |sa ma ea], (Prim2SF t) as [st|st| |st mt et];
    cbn; try discriminate; try reflexivity;
    try (destruct sa; try discriminate; destruct st; try discriminate; reflexivity);
    try (destruct st; try discriminate; reflexivity);
    try (destruct sa; try discriminate; reflexivity).
Qed.

(** ** C10: amounts that are not positive *)

Lemma add_payment_stored_as_partial (d : db) (tenant_id : Z) (amount : float)
    (payment_method payment_date : string) (description : option string)
    (r : tenant_join) (rent : float) :
  select_tenant_join tenant_id d = Some r ->
  row_rent_amount r = Some rent ->
  (amount < target_of (total_outstanding tenant_id d) rent)%num ->
  stored_as_partial
    (run (add_payment tenant_id amount payment_method payment_date description) d)
    d tenant_id amount (target_of (total_outstanding tenant_id d) rent).
Proof.
  intros Hs Hr Hlt.
  set (target := target_of (total_outstanding tenant_id d) rent) in *.
  assert (Py.gt amount target = false) as Ha by (apply ltb_asym; exact Hlt).
  rewrite (add_payment_accepted d tenant_id amount payment_method payment_date
             description r rent Hs Hr (ltb_number_l _ _ Hlt) Ha).
  set (row := payment_row d r tenant_id amount rent payment_method payment_date description).
  destruct (stored_after_payment_rows d tenant_id row (total_outstanding tenant_id d))
    as [olds [Hrows Hlen]].
  assert (Py.ge amount target = false) as Hge.
  { unfold Py.ge. destruct (PrimFloat.leb target amount) eqn:E; [|reflexivity].
    apply leb_ltb_false in E. unfold Num.lt in Hlt. congruence. }
  assert (pay_balance_due row = (target - amount)%float) as Hbal.
  { subst row. cbn [pay_balance_due payment_row]. fold target. unfold classify. cbn [snd].
    rewrite Hge. reflexivity. }
  assert (0 < target - amount)%num as Hpos
    by (unfold Num.lt; rewrite sub_positive; exact Hlt).
  destruct (split_fee_partial (is_renewal tenant_id d) amount
              (total_outstanding tenant_id d) (target - amount) Hpos) as [Hc Hd].
  cbn zeta in Hc, Hd. rewrite <- Hbal in Hc, Hd.
  eexists. exists olds, row.
  exists (fst (fst (split_fee (is_renewal tenant_id d) amount
                      (total_outstanding tenant_id d) (pay_balance_due row)))).
  exists (snd (fst (split_fee (is_renewal tenant_id d) amount
                      (total_outstanding tenant_id d) (pay_balance_due row)))).
  split; [reflexivity|].
  split; [split; assumption|].
  split; [reflexivity|].
  split; [reflexivity|].
  split.
  { unfold row. cbn [pay_payment_type payment_row]. fold target. unfold classify. cbn [fst].
    rewrite Hge. reflexivity. }
  split; [exact Hbal|].
  split; [reflexivity|].
  split; [reflexivity|].
  split; assumption.
Qed.

(** C10, as amended. [add_payment] has no positivity check: for [amount <= 0]
    and an existing assigned tenant whose rent due is set, a call with no
    outstanding balance and [amount < rent_due] is accepted and stored as
    Partial with [balance_due = rent_due - amount >= rent_due] and
    [credit = debit = 0]; a call with an outstanding balance is accepted and
    stored as Partial with [balance_due = total_outstanding - amount].  The
    differences are the binary64 ones.  For an assigned tenant whose price is
    [NULL] the call is answered with status 500 and stores nothing. *)
Theorem record_payment_nonpositive_amount :
  nonpositive_amounts_stored_partial
    (fun tenant_id d => rent_due tenant_id d <> None)
    (fun amount rent => (amount < rent)%num)
  /\ (forall d tenant_id amount payment_method payment_date description,
        is_assigned tenant_id d = true -> rent_due tenant_id d = None ->
        failed_with_error
          (run (add_payment tenant_id amount payment_method payment_date description) d) d).
Proof.
  split.
  - unfold nonpositive_amounts_stored_partial.
    intros d tenant_id amount payment_method payment_date description Hrent Hneg.
    destruct (rent_due tenant_id d) as [rent|] eqn:Erent; [|congruence].
    destruct (rent_due_inv _ _ _ Erent) as [r [Hs Hr]].
    pose proof (add_payment_stored_as_partial d tenant_id amount payment_method
                  payment_date description r rent Hs Hr) as Hpart.
    set (total := total_outstanding tenant_id d) in *.
    split.
    + intros Hz rent' Hrent' Hlt. injection Hrent' as <-.
      rewrite (target_of_new_cycle total rent Hz) in Hpart.
      split; [apply Hpart; exact Hlt | apply sub_nonpositive_le; assumption].
    + intros Hpos. rewrite (target_of_outstanding total rent Hpos) in Hpart.
      apply Hpart. apply nonpositive_below_positive; assumption.
  - intros d tenant_id amount payment_method payment_date description Ha Hr.
    apply add_payment_null_price; assumption.
Qed.

(** A payment of 0 against a rent of 1500 is stored as Partial with the whole
    rent still due. *)
Lemma record_payment_nonpositive_amount_witness :
  rent_due 7 sample_db = Some 1500%float /\ (0 <= 0)%num
  /\ stored_as_partial (run (add_payment 7 0 "Cash" "2024-01-05" None) sample_db)
       sample_db 7 0 1500.
Proof.
  split; [reflexivity|]. split; [reflexivity|].
  assert (rent_due 7 sample_db <> None) as Hrent by discriminate.
  refine (proj1 (proj1 (proj1 record_payment_nonpositive_amount sample_db 7 0%float "Cash"
                          "2024-01-05" None Hrent _) _ 1500%float _ _)).
  - reflexivity.
  - reflexivity.
  - reflexivity.
  - reflexivity.
Defined.

(** C10 as it is worded fails, and so does each half of the amendment alone:
    with a rent of zero, a payment of zero is accepted as Full, not Partial;
    and an assigned tenant whose property has no price, owing 500, is
    answered with status 500 when paying 0. *)
Lemma record_payment_nonpositive_amount_counterexample :
  ~ nonpositive_amounts_stored_partial
      (fun tenant_id d => is_assigned tenant_id d = true) (fun _ _ => True)
  /\ ~ nonpositive_amounts_stored_partial
         (fun tenant_id d => rent_due tenant_id d <> None) (fun _ _ => True)
  /\ ~ nonpositive_amounts_stored_partial
         (fun tenant_id d => is_assigned tenant_id d = true)
         (fun amount rent => (amount < rent)%num).
Proof.
  assert (forall tenancy : Z -> db -> Prop,
            tenancy 7 sample_db_free ->
            ~ nonpositive_amounts_stored_partial tenancy (fun _ _ => True)) as Hfree.
  { intros tenancy Ht Hclaim.
    destruct (Hclaim sample_db_free 7 0%float "Cash" "2024-01-05" None Ht eq_refl)
      as [Hnew _].
    destruct (Hnew eq_refl 0%float eq_refl I)
      as [[msg [olds [new [credit [debit [_ [[Hrows _] [_ [_ [Hty _]]]]]]]]]] _].
    cbn in Hrows.
    apply (f_equal (@rev payment)) in Hrows. rewrite rev_app_distr in Hrows.
    cbn in Hrows. injection Hrows as Hnew' _. subst new.
    cbn in Hty. discriminate. }
  split; [apply Hfree; reflexivity|].
  split; [apply Hfree; discriminate|].
  intros Hclaim.
  destruct (Hclaim sample_db_unpriced 7 0%float "Cash" "2024-02-01" None eq_refl eq_refl)
    as [_ Hopen].
  destruct (Hopen eq_refl) as [msg [olds [new [credit [debit [Hresp _]]]]]].
  vm_compute in Hresp. discriminate Hresp.
Qed.

(** * Further properties of the routes *)

(** ** [add_payment]: what it leaves alone and what it does to the balance *)

Lemma stored_after_payment_tables (d : db) (tenant_id : Z) (row : payment) (total : float) :
  let d' := stored_after_payment d tenant_id row total in
  landlords d' = landlords d /\ properties d' = properties d
  /\ property_units d' = property_units d /\ tenants d' = tenants d
  /\ landlord_transactions d' = landlord_transactions d.
Proof.
  unfold stored_after_payment.
  destruct (completes_outstanding total (pay_balance_due row)); cbn; repeat split.
Qed.

Lemma add_payment_writes_payments_only_tables (d : db) (tenant_id : Z) (amount : float)
    (payment_method payment_date : string) (description : option string) :
  let after :=
    committed (snd (run (add_payment tenant_id amount payment_method payment_date
                           description) d)) in
  landlords after = landlords d /\ properties after = properties d
  /\ property_units after = property_units d /\ tenants after = tenants d
  /\ landlord_transactions after = landlord_transactions d.
Proof.
  cbn zeta.
  destruct (add_payment_outcomes d tenant_id amount payment_method payment_date description)
    as [[m [c E]]|[r [rent [Hs [Hr [Hn Ha]]]]]].
  - rewrite E. cbn. repeat split.
  - rewrite (add_payment_accepted d tenant_id amount payment_method payment_date
               description r rent Hs Hr Hn Ha).
    cbn [snd committed]. apply stored_after_payment_tables.
Qed.

Lemma clear_row_immutable_part (tenant_id lastrowid : Z) (p : payment) :
  immutable_part (clear_row tenant_id lastrowid p) = immutable_part p.
Proof.
  unfold clear_row.
  destruct (is_open_for tenant_id p && negb (pay_id p =? lastrowid)); reflexivity.
Qed.

Lemma stored_after_payment_immutable (d : db) (tenant_id : Z) (row : payment) (total : float) :
  map immutable_part (payments (stored_after_payment d tenant_id row total))
  = map immutable_part (payments d) ++ [immutable_part row].
Proof.
  unfold stored_after_payment.
  destruct (completes_outstanding total (pay_balance_due row)).
  - unfold clear_old_partials, with_payments. cbn [payments].
    rewrite map_map, map_app. cbn [map]. rewrite clear_row_immutable_part.
    f_equal. apply map_ext. intros p. apply clear_row_immutable_part.
  - cbn [payments with_payments]. rewrite map_app. reflexivity.
Qed.

(** X1. [add_payment] writes to the payments table only and appends at most
    one row: whatever the outcome of a call, the landlords, properties,
    units, tenants and ledger entries stored afterwards are those stored
    before (no ledger entry is written for the credit and debit it
    computes), and of a payment row stored before, only [balance_due] and
    [payment_type] can differ afterwards. *)
Theorem add_payment_writes_payments_only (d : db) (tenant_id : Z) (amount : float)
    (payment_method payment_date : string) (description : option string) :
  let after :=
    committed (snd (run (add_payment tenant_id amount payment_method payment_date
                           description) d)) in
  landlords after = landlords d /\ properties after = properties d
  /\ property_units after = property_units d /\ tenants after = tenants d
  /\ landlord_transactions after = landlord_transactions d
  /\ exists news,
       map immutable_part (payments after) = map immutable_part (payments d) ++ news
       /\ (length news <= 1)%nat.
Proof.
  intros after.
  pose proof (add_payment_writes_payments_only_tables d tenant_id amount payment_method
                payment_date description) as [Hl [Hp [Hu [Ht Hlt]]]].
  fold after in Hl, Hp, Hu, Ht, Hlt.
  repeat (split; [assumption|]).
  subst after.
  destruct (add_payment_outcomes d tenant_id amount payment_method payment_date description)
    as [[m [c E]]|[r [rent [Hs [Hr [Hn Ha]]]]]].
  - rewrite E. exists []. cbn. rewrite app_nil_r. split; [reflexivity | lia].
  - rewrite (add_payment_accepted d tenant_id amount payment_method payment_date
               description r rent Hs Hr Hn Ha).
    cbn [snd committed]. eexists. split; [apply stored_after_payment_immutable|].
    cbn. lia.
Qed.

Lemma select_tenant_join_same_tables (tenant_id : Z) (d d' : db) :
  tenants d' = tenants d -> properties d' = properties d ->
  property_units d' = property_units d ->
  select_tenant_join tenant_id d' = select_tenant_join tenant_id d.
Proof.
  intros Ht Hp Hu.
  unfold select_tenant_join, find_tenant, find_property, find_unit.
  rewrite Ht, Hp, Hu. reflexivity.
Qed.

Lemma add_zero_l (x : float) : (0 < x)%num -> (0 + x)%float = x.
Proof.
  intros H. apply ltb_0_positive in H.
  apply Prim2SF_inj. rewrite add_spec, Prim2SF_zero.
  destruct (Prim2SF x) as [s|s| |s m e]; cbn in H |- *; try contradiction;
    destruct s; try contradiction; reflexivity.
Qed.

Lemma sum_of_snoc (l : list float) (x : float) : sum_of (l ++ [x]) = (sum_of l + x)%float.
Proof. unfold sum_of. rewrite fold_left_app. reflexivity. Qed.

Lemma lt_not_ge (a b : float) : (a < b)%num -> Py.ge a b = false.
Proof.
  unfold Num.lt, Py.ge. intros H.
  destruct (PrimFloat.leb b a) eqn:E; [|reflexivity].
  apply leb_ltb_false in E. congruence.
Qed.

Lemma payment_row_balance_open (d : db) (r : tenant_join) (tenant_id : Z)
    (amount rent : float) (payment_method payment_date : string)
    (description : option string) :
  (amount < target_of (total_outstanding tenant_id d) rent)%num ->
  pay_balance_due (payment_row d r tenant_id amount rent payment_method payment_date
                     description)
  = (target_of (total_outstanding tenant_id d) rent - amount)%float.
Proof.
  intros Hlt. cbn [pay_balance_due payment_row]. unfold classify. cbn [snd].
  rewrite (lt_not_ge _ _ Hlt). reflexivity.
Qed.

Lemma payment_row_balance_closed (d : db) (r : tenant_join) (tenant_id : Z)
    (amount rent : float) (payment_method payment_date : string)
    (description : option string) :
  (target_of (total_outstanding tenant_id d) rent <= amount)%num ->
  pay_balance_due (payment_row d r tenant_id amount rent payment_method payment_date
                     description) = 0%float
  /\ pay_payment_type (payment_row d r tenant_id amount rent payment_method payment_date
                         description) = "Full".
Proof.
  intros Hge. cbn [pay_balance_due pay_payment_type payment_row]. unfold classify.
  cbn [fst snd]. unfold Py.ge. rewrite Hge. split; reflexivity.
Qed.

(** The outstanding balance once a part payment is stored: the former open
    rows stay open and the new row, stored last, adds what is left of the
    target. *)
Lemma outstanding_after_part_payment (d : db) (tenant_id : Z) (amount : float)
    (payment_method payment_date : string) (description : option string)
    (r : tenant_join) (rent : float) :
  select_tenant_join tenant_id d = Some r ->
  row_rent_amount r = Some rent ->
  let total := total_outstanding tenant_id d in
  (amount < target_of total rent)%num ->
  total_outstanding tenant_id
    (committed (snd (run (add_payment tenant_id amount payment_method payment_date
                            description) d)))
  = (total + (target_of total rent - amount))%float.
Proof.
  intros Hs Hr total Hlt.
  assert (Py.gt amount (target_of total rent) = false) as Ha
    by (apply ltb_asym; exact Hlt).
  rewrite (add_payment_accepted d tenant_id amount payment_method payment_date
             description r rent Hs Hr (ltb_number_l _ _ Hlt) Ha).
  cbn [snd committed].
  set (row := payment_row d r tenant_id amount rent payment_method payment_date description).
  pose proof (payment_row_balance_open d r tenant_id amount rent payment_method
                payment_date description Hlt) as Hbal.
  fold row in Hbal. fold total in Hbal.
  assert ((0 < pay_balance_due row)%num) as Hpos
    by (unfold Num.lt; rewrite Hbal, sub_positive; exact Hlt).
  unfold stored_after_payment, completes_outstanding. fold total.
  unfold Py.eq at 1. rewrite (positive_not_zero _ Hpos), andb_false_r.
  unfold total_outstanding at 1. cbn [payments with_payments].
  rewrite filter_app, map_app.
  assert (owes tenant_id row = true) as Hopen.
  { unfold owes. replace (pay_tenant_id row) with tenant_id by reflexivity.
    rewrite Z.eqb_refl. exact Hpos. }
  cbn [filter]. rewrite Hopen. cbn [map]. rewrite sum_of_snoc, Hbal. reflexivity.
Qed.

Lemma outstanding_after_closing_payment (d : db) (tenant_id : Z) (amount : float)
    (payment_method payment_date : string) (description : option string)
    (r : tenant_join) (rent : float) :
  select_tenant_join tenant_id d = Some r ->
  row_rent_amount r = Some rent ->
  let total := total_outstanding tenant_id d in
  (amount == target_of total rent)%num ->
  total_outstanding tenant_id
    (committed (snd (run (add_payment tenant_id amount payment_method payment_date
                            description) d))) = 0%float.
Proof.
  intros Hs Hr total Heq.
  assert (Py.gt amount (target_of total rent) = false) as Ha
    by (apply leb_ltb_false, eqb_leb; exact Heq).
  rewrite (add_payment_accepted d tenant_id amount payment_method payment_date
             description r rent Hs Hr (eqb_number_l _ _ Heq) Ha).
  cbn [snd committed].
  set (row := payment_row d r tenant_id amount rent payment_method payment_date description).
  destruct (payment_row_balance_closed d r tenant_id amount rent payment_method
              payment_date description) as [Hbal _].
  { fold total. apply eqb_leb. unfold Num.eq in Heq. rewrite eqb_sym. exact Heq. }
  fold row in Hbal.
  unfold total_outstanding at 1.
  rewrite (no_open_rows_after_completion d tenant_id row eq_refl);
    [reflexivity | rewrite Hbal; reflexivity].
Qed.

(** X2. The outstanding balance after an accepted payment, as SQLite sums it
    in binary64 over the tenant's open rows in the order they are stored.  A
    part payment in a new cycle leaves [rent_due - amount] outstanding.  A
    part payment against an outstanding balance adds a second open row beside
    the former ones, so the stored outstanding balance becomes
    [total_outstanding + (total_outstanding - amount)]: it grows by what is
    still unpaid instead of shrinking by what was paid.  A payment equal to
    the outstanding balance, or to the rent in a new cycle, leaves nothing
    outstanding. *)
Theorem add_payment_outstanding_after (d : db) (tenant_id : Z) (amount : float)
    (payment_method payment_date : string) (description : option string) (rent : float) :
  rent_due tenant_id d = Some rent ->
  let total := total_outstanding tenant_id d in
  let total' :=
    total_outstanding tenant_id
      (committed (snd (run (add_payment tenant_id amount payment_method payment_date
                              description) d))) in
  ((total == 0)%num -> (amount < rent)%num -> total' = (rent - amount)%float)
  /\ ((0 < total)%num -> (amount < total)%num ->
      total' = (total + (total - amount))%float)
  /\ ((total == 0)%num -> (amount == rent)%num -> total' = 0%float)
  /\ ((0 < total)%num -> (amount == total)%num -> total' = 0%float).
Proof.
  intros Hrent total total'. subst total'.
  destruct (rent_due_inv _ _ _ Hrent) as [r [Hs Hr]].
  pose proof (outstanding_after_part_payment d tenant_id amount payment_method
                payment_date description r rent Hs Hr) as Hpart.
  pose proof (outstanding_after_closing_payment d tenant_id amount payment_method
                payment_date description r rent Hs Hr) as Hclose.
  cbn zeta in Hpart, Hclose. fold total in Hpart, Hclose.
  split; [|split; [|split]].
  - intros Hz Hlt. rewrite (target_of_new_cycle total rent Hz) in Hpart.
    rewrite (Hpart Hlt).
    destruct (total_outstanding_cases tenant_id d) as [Hpos|Hzero].
    + fold total in Hpos. unfold Num.lt in Hpos.
      rewrite (zero_not_positive _ Hz) in Hpos. discriminate.
    + fold total in Hzero. rewrite Hzero. apply add_zero_l.
      unfold Num.lt. rewrite sub_positive. exact Hlt.
  - intros Hpos Hlt. rewrite (target_of_outstanding total rent Hpos) in Hpart.
    exact (Hpart Hlt).
  - intros Hz Heq. rewrite (target_of_new_cycle total rent Hz) in Hclose.
    exact (Hclose Heq).
  - intros Hpos Heq. rewrite (target_of_outstanding total rent Hpos) in Hclose.
    exact (Hclose Heq).
Qed.

(** 200 paid against the 500 left open by scenario B: 800 is outstanding
    afterwards. *)
Lemma add_payment_outstanding_after_witness :
  rent_due 7 sample_db_partial = Some 1500%float
  /\ total_outstanding 7 sample_db_partial = 500%float
  /\ total_outstanding 7
       (committed (snd (run (add_payment 7 200 "Cash" "2024-02-01" None)
                          sample_db_partial))) = 800%float.
Proof.
  split; [reflexivity|]. split; [reflexivity|].
  rewrite (proj1 (proj2 (add_payment_outstanding_after sample_db_partial 7 200 "Cash"
                           "2024-02-01" None 1500 eq_refl))).
  - reflexivity.
  - reflexivity.
  - reflexivity.
Defined.

(** ** [add_payment] twice: the fee starts with the second closed cycle *)

(** The stored state after a payment that closes its cycle: the tenant's
    row resolves as before, nothing is outstanding and a completed cycle
    exists. *)
Lemma state_after_closing_payment (d : db) (tenant_id : Z) (amount : float)
    (payment_method payment_date : string) (description : option string)
    (r : tenant_join) (rent : float) :
  select_tenant_join tenant_id d = Some r ->
  row_rent_amount r = Some rent ->
  (amount == target_of (total_outstanding tenant_id d) rent)%num ->
  let d1 := committed (snd (run (add_payment tenant_id amount payment_method payment_date
                                   description) d)) in
  select_tenant_join tenant_id d1 = Some r
  /\ total_outstanding tenant_id d1 = 0%float
  /\ is_renewal tenant_id d1 = true.
Proof.
  intros Hs Hr Heq d1.
  pose proof (add_payment_writes_payments_only_tables d tenant_id amount payment_method
                payment_date description) as Htables.
  fold d1 in Htables. destruct Htables as [_ [Hp [Hu [Ht _]]]].
  split; [|split].
  - rewrite (select_tenant_join_same_tables tenant_id d d1 Ht Hp Hu). exact Hs.
  - apply (outstanding_after_closing_payment d tenant_id amount payment_method
             payment_date description r rent Hs Hr Heq).
  - apply is_renewal_iff. subst d1.
    assert (Py.gt amount (target_of (total_outstanding tenant_id d) rent) = false) as Ha
      by (apply leb_ltb_false, eqb_leb; exact Heq).
    rewrite (add_payment_accepted d tenant_id amount payment_method payment_date
               description r rent Hs Hr (eqb_number_l _ _ Heq) Ha).
    cbn [snd committed].
    set (row := payment_row d r tenant_id amount rent payment_method payment_date
                  description).
    destruct (stored_after_payment_rows d tenant_id row (total_outstanding tenant_id d))
      as [olds [Hrows _]].
    destruct (payment_row_balance_closed d r tenant_id amount rent payment_method
                payment_date description) as [Hbal Hty].
    { apply eqb_leb. unfold Num.eq in Heq. rewrite eqb_sym. exact Heq. }
    fold row in Hbal, Hty.
    exists row. rewrite Hrows. split; [apply in_or_app; right; left; reflexivity|].
    split; [reflexivity|]. split; [exact Hty|]. rewrite Hbal. reflexivity.
Qed.

Lemma eqb_refl_number (x : float) : PrimFloat.is_nan x = false -> PrimFloat.eqb x x = true.
Proof.
  intros H. assert (PrimFloat.leb x x = true) as Hle.
  { apply ltb_false_leb; try exact H.
    destruct (PrimFloat.ltb x x) eqn:E; [|reflexivity].
    pose proof (ltb_asym _ _ E). congruence. }
  destruct (leb_cases _ _ Hle) as [Hlt|Heq]; [|exact Heq].
  pose proof (ltb_asym _ _ Hlt). congruence.
Qed.

(** X3. Two payments of the whole rent in a row, for a tenant with nothing
    outstanding: whatever the tenant's history, the second one is accepted as
    Full and stored as a renewal, with the binary64 values
    [debit = rent * 0.10] and [credit = rent - rent * 0.10], because the
    first one closed a cycle. *)
Theorem second_full_payment_is_charged_the_fee (d : db) (tenant_id : Z) (rent : float)
    (payment_method payment_date : string) (description : option string)
    (payment_method' payment_date' : string) (description' : option string) :
  rent_due tenant_id d = Some rent ->
  PrimFloat.is_nan rent = false ->
  (total_outstanding tenant_id d == 0)%num ->
  let d1 := committed (snd (run (add_payment tenant_id rent payment_method payment_date
                                   description) d)) in
  let call := run (add_payment tenant_id rent payment_method' payment_date' description') d1 in
  exists olds new,
    fst call = Json true (Renewal_payment (rent - rent * 0.10) (rent * 0.10)) 200
    /\ appended_payment d1 (snd call) olds new
    /\ pay_payment_type new = "Full"
    /\ pay_credit new = Some (rent - rent * 0.10)%float
    /\ pay_debit new = Some (rent * 0.10)%float.
Proof.
  intros Hrent Hnum Hz d1 call.
  destruct (rent_due_inv _ _ _ Hrent) as [r [Hs Hr]].
  assert (rent == target_of (total_outstanding tenant_id d) rent)%num as Heq
    by (rewrite (target_of_new_cycle _ rent Hz); apply eqb_refl_number; exact Hnum).
  destruct (state_after_closing_payment d tenant_id rent payment_method payment_date
              description r rent Hs Hr Heq) as [Hs1 [Ht1 Hren1]].
  fold d1 in Hs1, Ht1, Hren1.
  assert (target_of (total_outstanding tenant_id d1) rent = rent) as Htarget
    by (rewrite Ht1; reflexivity).
  assert (PrimFloat.leb rent rent = true) as Hle
    by (apply eqb_leb, eqb_refl_number; exact Hnum).
  assert (Py.gt rent (target_of (total_outstanding tenant_id d1) rent) = false) as Ha
    by (rewrite Htarget; apply leb_ltb_false; exact Hle).
  subst call.
  rewrite (add_payment_accepted d1 tenant_id rent payment_method' payment_date'
             description' r rent Hs1 Hr Hnum Ha).
  set (row := payment_row d1 r tenant_id rent rent payment_method' payment_date'
                description').
  destruct (stored_after_payment_rows d1 tenant_id row (total_outstanding tenant_id d1))
    as [olds [Hrows Hlen]].
  destruct (payment_row_balance_closed d1 r tenant_id rent rent payment_method'
              payment_date' description') as [Hbal Hty];
    [rewrite Htarget; exact Hle|].
  fold row in Hbal, Hty.
  assert (split_fee (is_renewal tenant_id d1) rent (total_outstanding tenant_id d1)
            (pay_balance_due row)
          = ((rent - rent * 0.10)%float, (rent * 0.10)%float,
             Renewal_payment (rent - rent * 0.10) (rent * 0.10))) as Hfee
    by (rewrite Hren1, Ht1, Hbal; reflexivity).
  exists olds, row.
  cbn [fst snd]. rewrite Hfee. cbn [fst snd].
  split; [reflexivity|]. split; [split; assumption|]. split; [exact Hty|].
  split.
  { unfold row. cbn [pay_credit payment_row]. fold row. rewrite Htarget.
    unfold row in Hfee. cbn [pay_balance_due payment_row] in Hfee.
    rewrite Htarget in Hfee. rewrite Hfee. reflexivity. }
  { unfold row. cbn [pay_debit payment_row]. rewrite Htarget.
    unfold row in Hfee. cbn [pay_balance_due payment_row] in Hfee.
    rewrite Htarget in Hfee. rewrite Hfee. reflexivity. }
Qed.

(** A first-ever payment of the rent of 1500, then a second one: the second
    is credited 1350 with a fee of 150. *)
Lemma second_full_payment_is_charged_the_fee_witness :
  rent_due 7 sample_db = Some 1500%float
  /\ PrimFloat.is_nan 1500 = false
  /\ (total_outstanding 7 sample_db == 0)%num
  /\ fst (run (add_payment 7 1500 "Cash" "2025-01-05" None)
            (committed (snd (run (add_payment 7 1500 "Cash" "2024-01-05" None) sample_db))))
     = Json true (Renewal_payment 1350 150) 200.
Proof.
  split; [reflexivity|]. split; [reflexivity|]. split; [reflexivity|].
  destruct (second_full_payment_is_charged_the_fee sample_db 7 1500 "Cash" "2024-01-05"
              None "Cash" "2025-01-05" None eq_refl eq_refl eq_refl)
    as [olds [new [Hmsg _]]].
  exact Hmsg.
Defined.

(** ** Statements after a write *)

Lemma as_read_stored (x : float) : Py.or0 (sql_value x) = as_read x.
Proof.
  unfold as_read, sql_value, Py.or0.
  destruct (PrimFloat.is_nan x); [reflexivity|]. cbn [orb].
  destruct (PrimFloat.eqb x 0); reflexivity.
Qed.

Lemma statement_lines_merged (landlord_id : Z) (d : db) :
  find_landlord landlord_id d <> None ->
  statement_lines landlord_id d = merged_lines landlord_id d.
Proof.
  intros Hl. unfold statement_lines, landlord_account_detail.
  destruct (find_landlord landlord_id d); [|congruence].
  pose proof (running_balance_lines 1 0 (merged_lines landlord_id d)) as H.
  destruct (running_balance 1 0 (merged_lines landlord_id d)) as [ds f].
  exact H.
Qed.

Lemma statement_lines_collected (landlord_id : Z) (d : db) :
  find_landlord landlord_id d <> None ->
  Permutation (statement_lines landlord_id d) (collected_lines landlord_id d).
Proof.
  intros Hl. rewrite (statement_lines_merged landlord_id d Hl).
  apply Permutation_sym. apply sort_by_date_perm.
Qed.

Lemma find_landlord_same (landlord_id : Z) (d d' : db) :
  landlords d' = landlords d -> find_landlord landlord_id d' = find_landlord landlord_id d.
Proof. intros H. unfold find_landlord. rewrite H. reflexivity. Qed.

(** The statement is a function of the landlord's row and of the collected
    rows. *)
Lemma statement_same_lines (landlord_id : Z) (d d' : db) :
  landlords d' = landlords d ->
  collected_lines landlord_id d' = collected_lines landlord_id d ->
  landlord_account_detail landlord_id d' = landlord_account_detail landlord_id d.
Proof.
  intros Hl Hc. unfold landlord_account_detail.
  rewrite (find_landlord_same landlord_id d d' Hl).
  change (merged_lines landlord_id d') with (sort_by_date (collected_lines landlord_id d')).
  change (merged_lines landlord_id d) with (sort_by_date (collected_lines landlord_id d)).
  rewrite Hc. reflexivity.
Qed.

Lemma collected_lines_joined (landlord_id : Z) (d : db) :
  collected_lines landlord_id d
  = joined_lines landlord_id d (payments d) ++ map manual_line (manual_rows landlord_id d).
Proof.
  unfold collected_lines, payments_join_properties, joined_lines. f_equal.
  induction (payments d) as [|p ps IH]; cbn [flat_map map]; [reflexivity|].
  rewrite map_app, IH, map_map. reflexivity.
Qed.

Lemma joined_lines_app (landlord_id : Z) (d : db) (rows rows' : list payment) :
  joined_lines landlord_id d (rows ++ rows')
  = joined_lines landlord_id d rows ++ joined_lines landlord_id d rows'.
Proof. unfold joined_lines. apply flat_map_app. Qed.

(** A statement line of a payment reads the tenant's name and columns of the
    row that no route rewrites. *)
Lemma payment_line_immutable (d d' : db) (p p' : payment) :
  tenants d' = tenants d ->
  immutable_part p = immutable_part p' ->
  payment_line d' p = payment_line d p'.
Proof.
  intros Ht H. unfold immutable_part in H.
  injection H as Hid Hten _ _ Hamount Hmethod Hdate _ Hdesc _ _.
  unfold payment_line, tenant_name_of, find_tenant.
  rewrite Ht, Hid, Hten, Hamount, Hmethod, Hdate, Hdesc. reflexivity.
Qed.

Lemma joined_lines_immutable (landlord_id : Z) (d d' : db) (rows rows' : list payment) :
  tenants d' = tenants d -> properties d' = properties d ->
  map immutable_part rows' = map immutable_part rows ->
  joined_lines landlord_id d' rows' = joined_lines landlord_id d rows.
Proof.
  intros Ht Hp. revert rows.
  induction rows' as [|p' rows' IH]; intros [|p rows] H; cbn [map] in H;
    try discriminate; [reflexivity|].
  assert (immutable_part p' = immutable_part p) as Hhd by congruence.
  assert (map immutable_part rows' = map immutable_part rows) as Htl by congruence.
  cbn [joined_lines flat_map].
  fold (joined_lines landlord_id d' rows'). fold (joined_lines landlord_id d rows).
  rewrite (IH rows Htl), Hp.
  rewrite (payment_line_immutable d d' p' p Ht Hhd).
  assert (pay_property_id p' = pay_property_id p) as ->
    by (unfold immutable_part in Hhd; congruence).
  reflexivity.
Qed.

Lemma unique_property_row (props : list property) (property_id landlord_id : Z)
    (p : property) :
  NoDup (map p_id props) ->
  find (fun x => p_id x =? property_id) props = Some p ->
  filter (fun x => (p_id x =? property_id) && (p_landlord_id x =? landlord_id)) props
  = if p_landlord_id p =? landlord_id then [p] else [].
Proof.
  induction props as [|x props IH]; intros Hnd Hf; cbn in *; [discriminate|].
  inversion Hnd as [|? ? Hnotin Hnd']; subst.
  destruct (p_id x =? property_id) eqn:E.
  - injection Hf as ->. cbn [andb].
    assert (filter (fun x => (p_id x =? property_id) && (p_landlord_id x =? landlord_id))
              props = []) as Hrest.
    { apply Z.eqb_eq in E. clear -Hnotin E.
      induction props as [|y props IH]; cbn; [reflexivity|].
      destruct (p_id y =? property_id) eqn:Ey.
      - exfalso. apply Hnotin. left. apply Z.eqb_eq in Ey. lia.
      - cbn. apply IH. intros Hin. apply Hnotin. right. exact Hin. }
    rewrite Hrest. destruct (p_landlord_id p =? landlord_id); reflexivity.
  - cbn [andb]. apply IH; assumption.
Qed.

(** The statement lines a new payment row adds: one, for the landlord of its
    property. *)
Lemma joined_lines_new_row (d : db) (landlord_id : Z) (row : payment) (p : property) :
  property_ids_unique d ->
  find_property (pay_property_id row) d = Some p ->
  joined_lines landlord_id d [row]
  = if p_landlord_id p =? landlord_id then [payment_line d row] else [].
Proof.
  intros Hu Hf. unfold joined_lines. cbn [flat_map]. rewrite app_nil_r.
  rewrite (unique_property_row (properties d) (pay_property_id row) landlord_id p Hu Hf).
  destruct (p_landlord_id p =? landlord_id); reflexivity.
Qed.

Lemma select_tenant_join_property (tenant_id : Z) (d : db) (r : tenant_join) :
  select_tenant_join tenant_id d = Some r ->
  find_property (row_property_id r) d = Some (j_property r).
Proof.
  unfold select_tenant_join.
  destruct (find_tenant tenant_id d) as [t|]; [|discriminate].
  destruct (t_property_id t) as [pid|]; [|discriminate].
  destruct (find_property pid d) as [p|] eqn:Hp; [|discriminate].
  intros [= <-]. unfold row_property_id. cbn [j_property].
  unfold find_property in Hp. pose proof (find_some _ _ Hp) as [_ Hid].
  apply Z.eqb_eq in Hid. rewrite Hid. exact Hp.
Qed.

Lemma landlord_of_tenant_join (tenant_id : Z) (d : db) :
  landlord_of_tenant tenant_id d
  = option_map (fun r => p_landlord_id (j_property r)) (select_tenant_join tenant_id d).
Proof.
  unfold landlord_of_tenant, select_tenant_join.
  destruct (find_tenant tenant_id d) as [t|]; [|reflexivity].
  destruct (t_property_id t) as [pid|]; [|reflexivity].
  destruct (find_property pid d) as [p|]; reflexivity.
Qed.

Lemma landlord_of_tenant_inv (tenant_id : Z) (d : db) (r : tenant_join) (landlord_id : Z) :
  select_tenant_join tenant_id d = Some r ->
  landlord_of_tenant tenant_id d = Some landlord_id ->
  p_landlord_id (j_property r) = landlord_id.
Proof.
  intros Hs. rewrite landlord_of_tenant_join, Hs. cbn. congruence.
Qed.

(** The rows a statement collects when the payments table becomes the former
    rows (up to balance and type) and one new row, and the ledger gains
    [entries]: the former payment lines, the line of the new row for the
    landlord of its property, the former manual lines and those of the
    landlord's new entries. *)
Lemma collected_lines_after_new_row (d d' : db) (landlord_id : Z) (row : payment)
    (p : property) (entries : list landlord_transaction) :
  property_ids_unique d ->
  tenants d' = tenants d \/ (forall q, payment_line d' q = payment_line d q) ->
  properties d' = properties d ->
  map immutable_part (payments d') = map immutable_part (payments d ++ [row]) ->
  landlord_transactions d' = landlord_transactions d ++ entries ->
  find_property (pay_property_id row) d = Some p ->
  collected_lines landlord_id d'
  = joined_lines landlord_id d (payments d)
    ++ (if p_landlord_id p =? landlord_id then [payment_line d row] else [])
    ++ map manual_line (manual_rows landlord_id d)
    ++ map manual_line (filter (fun m => lt_landlord_id m =? landlord_id) entries).
Proof.
  intros Hu Ht Hp Hrows Hlt Hf.
  rewrite collected_lines_joined.
  assert (joined_lines landlord_id d' (payments d')
          = joined_lines landlord_id d (payments d ++ [row])) as ->.
  { destruct Ht as [Ht|Ht].
    - apply joined_lines_immutable; assumption.
    - transitivity (joined_lines landlord_id d (payments d')).
      + unfold joined_lines. rewrite Hp. apply flat_map_ext. intros q.
        rewrite Ht. reflexivity.
      + apply joined_lines_immutable; [reflexivity | reflexivity | exact Hrows]. }
  rewrite joined_lines_app, (joined_lines_new_row d landlord_id row p Hu Hf).
  unfold manual_rows. rewrite Hlt, filter_app, map_app.
  rewrite <- !app_assoc. reflexivity.
Qed.

Lemma statement_lines_after (landlord_id : Z) (d d' : db) (news : list statement_line)
    (l1 l2 l3 : list statement_line) :
  landlords d' = landlords d ->
  find_landlord landlord_id d <> None ->
  collected_lines landlord_id d = l1 ++ l2 ->
  collected_lines landlord_id d' = l1 ++ l3 ->
  Permutation l3 (news ++ l2) ->
  Permutation (statement_lines landlord_id d') (news ++ statement_lines landlord_id d).
Proof.
  intros Hl Hex Hc Hc' Hperm.
  assert (find_landlord landlord_id d' <> None) as Hex'
    by (rewrite (find_landlord_same landlord_id d d' Hl); exact Hex).
  rewrite (statement_lines_collected landlord_id d' Hex').
  rewrite (statement_lines_collected landlord_id d Hex).
  rewrite Hc, Hc'.
  apply perm_trans with (l1 ++ news ++ l2).
  - apply Permutation_app_head. exact Hperm.
  - rewrite app_assoc. rewrite (Permutation_app_comm l1 news). rewrite <- app_assoc.
    apply Permutation_refl.
Qed.

(** X4. An accepted payment adds one line to the statement of the landlord of
    the tenant's property, and that line credits the whole amount paid,
    whether the payment was stored with a credit of 0 (part payment), of the
    amount, or of the amount less the fee (renewal): the statement reads
    [payment.amount], not the stored credit and debit.  The statements of the
    other landlords are as they were. *)
Theorem statement_after_payment (d : db) (tenant_id : Z) (amount : float)
    (payment_method payment_date : string) (description : option string)
    (msg : message) (landlord_id : Z) :
  property_ids_unique d ->
  fst (run (add_payment tenant_id amount payment_method payment_date description) d)
  = Json true msg 200 ->
  landlord_of_tenant tenant_id d = Some landlord_id ->
  let after :=
    committed (snd (run (add_payment tenant_id amount payment_method payment_date
                           description) d)) in
  (find_landlord landlord_id d <> None ->
   exists line,
     Permutation (statement_lines landlord_id after)
       (line :: statement_lines landlord_id d)
     /\ tx_date line = Some payment_date
     /\ tx_mode_of_payment line = payment_method
     /\ tx_credit line = as_read amount /\ tx_debit line = 0%float
     /\ tx_source line = "payment")
  /\ (forall other, other <> landlord_id ->
      landlord_account_detail other after = landlord_account_detail other d).
Proof.
  intros Hu H HL after.
  destruct (add_payment_success_inv _ _ _ _ _ _ _ _ H) as [r [rent [Hs [Hr [Hn Ha]]]]].
  pose proof (landlord_of_tenant_inv tenant_id d r landlord_id Hs HL) as Hown.
  pose proof (add_payment_writes_payments_only_tables d tenant_id amount payment_method
                payment_date description) as [Hl [Hp [_ [Ht Hlt]]]].
  fold after in Hl, Hp, Ht, Hlt.
  set (row := payment_row d r tenant_id amount rent payment_method payment_date description).
  assert (map immutable_part (payments after) = map immutable_part (payments d ++ [row]))
    as Hrows.
  { subst after.
    rewrite (add_payment_accepted d tenant_id amount payment_method payment_date
               description r rent Hs Hr Hn Ha).
    cbn [snd committed]. fold row.
    rewrite stored_after_payment_immutable, map_app. reflexivity. }
  pose proof (select_tenant_join_property tenant_id d r Hs) as Hf.
  change (row_property_id r) with (pay_property_id row) in Hf.
  assert (landlord_transactions after = landlord_transactions d ++ []) as Hlt'
    by (rewrite app_nil_r; exact Hlt).
  assert (forall l,
            collected_lines l after
            = joined_lines l d (payments d)
              ++ (if landlord_id =? l then [payment_line d row] else [])
              ++ map manual_line (manual_rows l d)) as Hall.
  { intros l.
    rewrite (collected_lines_after_new_row d after l row (j_property r) []
               Hu (or_introl Ht) Hp Hrows Hlt' Hf).
    rewrite Hown. cbn [filter map]. rewrite app_nil_r. reflexivity. }
  split.
  - intros Hex. exists (payment_line d row). split.
    + apply (statement_lines_after landlord_id d after [payment_line d row]
               (joined_lines landlord_id d (payments d))
               (map manual_line (manual_rows landlord_id d))
               ([payment_line d row] ++ map manual_line (manual_rows landlord_id d))
               Hl Hex).
      * apply collected_lines_joined.
      * rewrite (Hall landlord_id), Z.eqb_refl. reflexivity.
      * apply Permutation_refl.
    + cbn [payment_line tx_date tx_mode_of_payment tx_credit tx_debit tx_source].
      repeat split. apply as_read_stored.
  - intros other Hne. apply (statement_same_lines other d after Hl).
    rewrite (Hall other), collected_lines_joined.
    assert ((landlord_id =? other) = false) as -> by (apply Z.eqb_neq; congruence).
    reflexivity.
Qed.

(** Scenario B on the sample data: 1000 of 1500 is stored with credit 0 and
    shows on the landlord's statement as a credit of 1000. *)
Lemma statement_after_payment_witness :
  property_ids_unique sample_db
  /\ landlord_of_tenant 7 sample_db = Some 1
  /\ exists line,
       Permutation
         (statement_lines 1
            (committed (snd (run (add_payment 7 1000 "Cash" "2024-01-05" None) sample_db))))
         (line :: statement_lines 1 sample_db)
       /\ tx_credit line = 1000%float.
Proof.
  assert (property_ids_unique sample_db) as Hu.
  { unfold property_ids_unique. cbn. constructor; [intros []|constructor]. }
  split; [exact Hu|]. split; [reflexivity|].
  destruct (proj1 (statement_after_payment sample_db 7 1000 "Cash" "2024-01-05" None
                     (Partial_payment 1000 (1500 - 1000)) 1 Hu eq_refl eq_refl))
    as [line [Hperm [_ [_ [Hc _]]]]].
  - discriminate.
  - exists line. split; [exact Hperm | exact Hc].
Defined.

(** ** [renew_rent]: what it leaves alone, and the statement afterwards *)

Lemma stored_after_renewal_tables (d : db) (tenant_id : Z)
    (new_start_date new_end_date : string) (row : payment)
    (entries : list landlord_transaction) :
  let d' := stored_after_renewal d tenant_id new_start_date new_end_date row entries in
  landlords d' = landlords d /\ properties d' = properties d
  /\ property_units d' = property_units d
  /\ payments d' = payments d ++ [row]
  /\ landlord_transactions d' = landlord_transactions d ++ entries.
Proof. cbn. repeat split. Qed.

Lemma select_tenant_join_landlord_inv (tenant_id : Z) (d : db) (r : tenant_join)
    (l : landlord) :
  select_tenant_join_landlord tenant_id d = Some (r, l) ->
  select_tenant_join tenant_id d = Some r
  /\ find_landlord (p_landlord_id (j_property r)) d = Some l.
Proof.
  unfold select_tenant_join_landlord.
  destruct (select_tenant_join tenant_id d) as [r'|]; [|discriminate].
  destruct (find_landlord (p_landlord_id (j_property r')) d) as [l'|] eqn:E; [|discriminate].
  intros [= <- <-]. split; [reflexivity | exact E].
Qed.

Lemma find_tenant_after_dates (tenant_id other : Z) (new_start_date new_end_date : string)
    (d : db) :
  find_tenant other (update_lease_dates tenant_id new_start_date new_end_date d)
  = if other =? tenant_id
    then option_map
           (fun t => {| t_id := t_id t; t_full_name := t_full_name t;
                        t_lease_start_date := Some new_start_date;
                        t_lease_end_date := Some new_end_date;
                        t_property_id := t_property_id t; t_unit_id := t_unit_id t |})
           (find_tenant other d)
    else find_tenant other d.
Proof.
  unfold find_tenant, update_lease_dates. cbn [tenants with_tenants].
  induction (tenants d) as [|x l IH]; cbn [map find].
  - destruct (other =? tenant_id); reflexivity.
  - destruct (t_id x =? tenant_id) eqn:Ex; cbn [t_id].
    + destruct (t_id x =? other) eqn:Eo.
      * apply Z.eqb_eq in Ex. apply Z.eqb_eq in Eo.
        assert ((other =? tenant_id) = true) as -> by (apply Z.eqb_eq; lia).
        reflexivity.
      * exact IH.
    + destruct (t_id x =? other) eqn:Eo.
      * apply Z.eqb_neq in Ex. apply Z.eqb_eq in Eo.
        assert ((other =? tenant_id) = false) as -> by (apply Z.eqb_neq; lia).
        reflexivity.
      * exact IH.
Qed.

(** A renewal rewrites lease dates only: the statement lines of the payments
    read the same names afterwards. *)
Lemma payment_line_after_renewal (d : db) (tenant_id : Z)
    (new_start_date new_end_date : string) (row : payment)
    (entries : list landlord_transaction) (q : payment) :
  payment_line (stored_after_renewal d tenant_id new_start_date new_end_date row entries) q
  = payment_line d q.
Proof.
  unfold payment_line, tenant_name_of.
  change (find_tenant (pay_tenant_id q)
            (stored_after_renewal d tenant_id new_start_date new_end_date row entries))
    with (find_tenant (pay_tenant_id q)
            (update_lease_dates tenant_id new_start_date new_end_date d)).
  rewrite find_tenant_after_dates.
  destruct (pay_tenant_id q =? tenant_id); [|reflexivity].
  destruct (find_tenant (pay_tenant_id q) d); reflexivity.
Qed.

(** X5. A renewal that goes through is counted twice in the statement of the
    tenant's landlord: the payment row adds a line crediting the amount and
    the ledger credit written with it adds a second line crediting the amount
    again.  For a tenant with a completed cycle a third line debits the fee,
    the binary64 product [amount * 0.10]. *)
Theorem statement_after_renewal (d : db) (tenant_id : Z)
    (new_start_date new_end_date : string) (amount : float)
    (payment_method payment_type payment_date description : string) (msg : message)
    (landlord_id : Z) :
  property_ids_unique d ->
  fst (run (renew_rent tenant_id new_start_date new_end_date amount payment_method
              payment_type payment_date description) d)
  = Flash_redirect msg "success" ->
  landlord_of_tenant tenant_id d = Some landlord_id ->
  let after :=
    committed (snd (run (renew_rent tenant_id new_start_date new_end_date amount
                           payment_method payment_type payment_date description) d)) in
  (has_completed_cycle tenant_id d ->
   exists paid credited fee,
     Permutation (statement_lines landlord_id after)
       (paid :: credited :: fee :: statement_lines landlord_id d)
     /\ (tx_source paid = "payment" /\ tx_credit paid = as_read amount
         /\ tx_debit paid = 0%float)
     /\ (tx_source credited = "manual" /\ tx_credit credited = as_read amount
         /\ tx_debit credited = 0%float)
     /\ (tx_source fee = "manual" /\ tx_credit fee = 0%float
         /\ tx_debit fee = as_read (amount * 0.10)))
  /\ (~ has_completed_cycle tenant_id d ->
      exists paid credited,
        Permutation (statement_lines landlord_id after)
          (paid :: credited :: statement_lines landlord_id d)
        /\ (tx_source paid = "payment" /\ tx_credit paid = as_read amount
            /\ tx_debit paid = 0%float)
        /\ (tx_source credited = "manual" /\ tx_credit credited = as_read amount
            /\ tx_debit credited = 0%float)).
Proof.
  intros Hu H HL after.
  destruct (renew_rent_success_inv _ _ _ _ _ _ _ _ _ _ H)
    as [r [l [rent [Hf [Hsl [Hr Hn]]]]]].
  destruct (select_tenant_join_landlord_inv tenant_id d r l Hsl) as [Hs Hfl].
  pose proof (landlord_of_tenant_inv tenant_id d r landlord_id Hs HL) as Hown.
  rewrite Hown in Hfl.
  subst after.
  rewrite (renew_rent_accepted d tenant_id new_start_date new_end_date amount
             payment_method payment_type payment_date description r l rent Hf Hsl Hr Hn).
  cbn [snd committed].
  set (row := renewal_payment_row d r tenant_id new_start_date new_end_date amount rent
                payment_method payment_type payment_date description).
  set (entries := renewal_entries d r tenant_id amount payment_method payment_date
                    description).
  destruct (stored_after_renewal_tables d tenant_id new_start_date new_end_date row entries)
    as [Hl [Hp [_ [Hpay Hlt]]]].
  pose proof (payment_line_after_renewal d tenant_id new_start_date new_end_date row entries)
    as Hlines.
  set (d' := stored_after_renewal d tenant_id new_start_date new_end_date row entries) in *.
  pose proof (select_tenant_join_property tenant_id d r Hs) as Hfp.
  change (row_property_id r) with (pay_property_id row) in Hfp.
  assert (find_landlord landlord_id d <> None) as Hex by (rewrite Hfl; discriminate).
  assert (map immutable_part (payments d') = map immutable_part (payments d ++ [row]))
    as Hrows by (rewrite Hpay; reflexivity).
  pose proof (collected_lines_after_new_row d d' landlord_id row (j_property r) entries
                Hu (or_intror Hlines) Hp Hrows Hlt Hfp) as Hcol.
  rewrite Hown, Z.eqb_refl in Hcol.
  assert (tx_source (payment_line d row) = "payment"
          /\ tx_credit (payment_line d row) = as_read amount
          /\ tx_debit (payment_line d row) = 0%float) as Hpaid.
  { cbn [payment_line tx_credit tx_debit tx_source]. repeat split. apply as_read_stored. }
  assert (forall i n pm,
            let credit := ledger_entry i landlord_id payment_date n "credit" amount pm in
            tx_source (manual_line credit) = "manual"
            /\ tx_credit (manual_line credit) = as_read amount
            /\ tx_debit (manual_line credit) = 0%float) as Hcredited.
  { intros i n pm. unfold ledger_entry, manual_line.
    cbn [lt_transaction_type lt_amount tx_source tx_credit tx_debit].
    change (String.eqb (Py.lower "credit") "credit") with true. cbn iota.
    repeat split. apply as_read_stored. }
  split.
  - intros Hc. apply is_renewal_iff in Hc.
    set (credit := ledger_entry (next_id lt_id (landlord_transactions d)) landlord_id
                     payment_date
                     (description_or description
                        (Rent_renewal_of (t_full_name (j_tenant r))))
                     "credit" amount payment_method).
    set (debit := ledger_entry (next_id lt_id (landlord_transactions d ++ [credit]))
                    landlord_id payment_date (Management_fee_of amount) "debit"
                    (amount * 0.10)%float "Automatic Deduction").
    assert (entries = [credit; debit]) as Hent.
    { unfold entries, renewal_entries. rewrite Hc, Hown. reflexivity. }
    exists (payment_line d row), (manual_line credit), (manual_line debit).
    split; [|split; [exact Hpaid | split; [apply Hcredited|]]].
    + apply (statement_lines_after landlord_id d d'
               [payment_line d row; manual_line credit; manual_line debit]
               (joined_lines landlord_id d (payments d))
               (map manual_line (manual_rows landlord_id d))
               ([payment_line d row] ++ map manual_line (manual_rows landlord_id d)
                ++ [manual_line credit; manual_line debit])
               Hl Hex).
      * apply collected_lines_joined.
      * rewrite Hcol, Hent. cbn [filter]. unfold credit at 1, debit at 1, ledger_entry.
        cbn [lt_landlord_id]. rewrite Z.eqb_refl. reflexivity.
      * cbn [app]. apply perm_skip.
        apply (Permutation_app_comm (map manual_line (manual_rows landlord_id d))
                 [manual_line credit; manual_line debit]).
    + unfold debit, ledger_entry, manual_line.
      cbn [lt_transaction_type lt_amount tx_source tx_credit tx_debit].
      change (String.eqb (Py.lower "debit") "credit") with false. cbn iota.
      repeat split. apply as_read_stored.
  - intros Hc. apply not_renewal_iff in Hc.
    set (credit := ledger_entry (next_id lt_id (landlord_transactions d)) landlord_id
                     payment_date
                     (description_or description
                        (Rent_first_payment_of (t_full_name (j_tenant r))))
                     "credit" amount payment_method).
    assert (entries = [credit]) as Hent.
    { unfold entries, renewal_entries. rewrite Hc, Hown. reflexivity. }
    exists (payment_line d row), (manual_line credit).
    split; [|split; [exact Hpaid | apply Hcredited]].
    apply (statement_lines_after landlord_id d d'
             [payment_line d row; manual_line credit]
             (joined_lines landlord_id d (payments d))
             (map manual_line (manual_rows landlord_id d))
             ([payment_line d row] ++ map manual_line (manual_rows landlord_id d)
              ++ [manual_line credit])
             Hl Hex).
    + apply collected_lines_joined.
    + rewrite Hcol, Hent. cbn [filter]. unfold credit at 1, ledger_entry.
      cbn [lt_landlord_id]. rewrite Z.eqb_refl. reflexivity.
    + cbn [app]. apply perm_skip.
      apply (Permutation_app_comm (map manual_line (manual_rows landlord_id d))
               [manual_line credit]).
Qed.

(** Scenario D on the sample data: renewing with 2000 adds two credits of
    2000 and a debit of 200 to the landlord's statement. *)
Lemma statement_after_renewal_witness :
  property_ids_unique sample_db_closed
  /\ landlord_of_tenant 7 sample_db_closed = Some 1
  /\ exists paid credited fee,
       Permutation
         (statement_lines 1
            (committed (snd (run (renew_rent 7 "2025-01-01" "2025-12-31" 2000 "Cash" "Full"
                                    "2025-01-05" "") sample_db_closed))))
         (paid :: credited :: fee :: statement_lines 1 sample_db_closed)
       /\ tx_credit paid = 2000%float /\ tx_credit credited = 2000%float
       /\ tx_debit fee = 200%float.
Proof.
  assert (property_ids_unique sample_db_closed) as Hu.
  { unfold property_ids_unique. cbn. constructor; [intros []|constructor]. }
  split; [exact Hu|]. split; [reflexivity|].
  destruct (proj1 (statement_after_renewal sample_db_closed 7 "2025-01-01" "2025-12-31"
                     2000 "Cash" "Full" "2025-01-05" "" (Renewal_full 2000 1800 200)
                     1 Hu eq_refl eq_refl))
    as [paid [credited [fee [Hperm [[_ [Hp _]] [[_ [Hc _]] [_ [_ Hf]]]]]]]].
  - exists (sample_payment 1 1500 "Full" 0 1500 0).
    split; [left; reflexivity|]. repeat split; reflexivity.
  - exists paid, credited, fee.
    split; [exact Hperm | split; [exact Hp | split; [exact Hc | exact Hf]]].
Defined.

(** ** [add_landlord_transaction] *)

Section AddLandlordTransactionRuns.

Variables (d : db) (landlord_id : Z) (today date txn_type narration mode_of_payment : string).
Variable amount : float.

Let call :=
  run (add_landlord_transaction landlord_id today date txn_type narration mode_of_payment
         amount) d.

Lemma add_landlord_transaction_no_landlord :
  find_landlord landlord_id d = None ->
  call = (Flash_redirect (Plain "Landlord not found.") "danger", settled d [CLOSE]).
Proof.
  intros H. subst call.
  unfold run, add_landlord_transaction, bind, query, get_db_connection. cbn.
  rewrite H. reflexivity.
Qed.

Lemma add_landlord_transaction_bad_type l :
  find_landlord landlord_id d = Some l ->
  String.eqb txn_type "credit" || String.eqb txn_type "debit" = false ->
  call = (Flash_redirect (Plain "Select transaction type (credit or debit).") "danger",
          settled d [CLOSE]).
Proof.
  intros H Ht. subst call.
  unfold run, add_landlord_transaction, bind, query, get_db_connection. cbn.
  rewrite H, Ht. reflexivity.
Qed.

Lemma add_landlord_transaction_saved l :
  find_landlord landlord_id d = Some l ->
  String.eqb txn_type "credit" || String.eqb txn_type "debit" = true ->
  let entry :=
    {| lt_id := next_id lt_id (landlord_transactions d); lt_landlord_id := landlord_id;
       lt_date := Some (if Py.truthy_str date then date else today);
       lt_narration := Literal narration; lt_transaction_type := txn_type;
       lt_amount := amount; lt_payment_method := mode_of_payment |} in
  call = (Flash_redirect (Plain "Transaction saved.") "success",
          settled (with_landlord_transactions d (landlord_transactions d ++ [entry]))
            [WRITE "landlord_transactions"; COMMIT; CLOSE]).
Proof.
  intros H Ht entry. subst call entry.
  unfold run, add_landlord_transaction, bind, query, get_db_connection. cbn.
  rewrite H, Ht. reflexivity.
Qed.

End AddLandlordTransactionRuns.

Lemma type_checked (txn_type : string) :
  String.eqb txn_type "credit" || String.eqb txn_type "debit" = true
  <-> txn_type = "credit" \/ txn_type = "debit".
Proof.
  rewrite orb_true_iff, !String.eqb_eq. reflexivity.
Qed.

(** X7. [add_landlord_transaction] saves an entry exactly when the landlord
    exists and the type is ['credit'] or ['debit'].  Otherwise it answers with
    a danger flash, issues no write and leaves the stored database as it was.
    When it saves, the ledger gains exactly one entry, for that landlord, of
    that type and amount, dated with the date given or with today's date when
    none is given; ledger entries stored before are kept, and if every stored
    type was ['credit'] or ['debit'] that is still so. *)
Theorem add_landlord_transaction_validates (d : db) (landlord_id : Z)
    (today date txn_type narration mode_of_payment : string) (amount : float) :
  let call := run (add_landlord_transaction landlord_id today date txn_type narration
                     mode_of_payment amount) d in
  let after := committed (snd call) in
  ((find_landlord landlord_id d = None
    \/ ~ (txn_type = "credit" \/ txn_type = "debit")) ->
   (exists msg, fst call = Flash_redirect msg "danger")
   /\ after = d /\ writes (trace (snd call)) = [])
  /\ (find_landlord landlord_id d <> None ->
      txn_type = "credit" \/ txn_type = "debit" ->
      fst call = Flash_redirect (Plain "Transaction saved.") "success"
      /\ (exists entry,
            landlord_transactions after = landlord_transactions d ++ [entry]
            /\ lt_landlord_id entry = landlord_id
            /\ lt_transaction_type entry = txn_type
            /\ lt_amount entry = amount
            /\ lt_date entry = Some (if Py.truthy_str date then date else today))
      /\ payments after = payments d
      /\ (ledger_types_valid d -> ledger_types_valid after)).
Proof.
  intros call after. subst after call. split.
  - intros Hbad.
    destruct (find_landlord landlord_id d) as [l|] eqn:Hl.
    + destruct Hbad as [Hbad|Hbad]; [discriminate|].
      assert (String.eqb txn_type "credit" || String.eqb txn_type "debit" = false) as Ht.
      { destruct (String.eqb txn_type "credit" || String.eqb txn_type "debit") eqn:E;
          [|reflexivity].
        exfalso. apply Hbad. apply type_checked. exact E. }
      rewrite (add_landlord_transaction_bad_type d landlord_id today date txn_type
                 narration mode_of_payment amount l Hl Ht).
      split; [eexists; reflexivity | split; reflexivity].
    + rewrite (add_landlord_transaction_no_landlord d landlord_id today date txn_type
                 narration mode_of_payment amount Hl).
      split; [eexists; reflexivity | split; reflexivity].
  - intros Hex Hty.
    destruct (find_landlord landlord_id d) as [l|] eqn:Hl; [|congruence].
    rewrite (add_landlord_transaction_saved d landlord_id today date txn_type narration
               mode_of_payment amount l Hl (proj2 (type_checked txn_type) Hty)).
    cbn [fst snd settled committed].
    split; [reflexivity|]. split; [|split; [reflexivity|]].
    + eexists. split; [reflexivity|]. repeat split; reflexivity.
    + intros Hv m Hm. cbn [landlord_transactions with_landlord_transactions] in Hm.
      apply in_app_or in Hm. destruct Hm as [Hm|[<-|[]]].
      * apply Hv. exact Hm.
      * exact Hty.
Qed.

(** A debit of 300 with no date is saved under today's date; an entry typed
    "Debit" is refused. *)
Lemma add_landlord_transaction_validates_witness :
  find_landlord 1 sample_ledger <> None
  /\ fst (run (add_landlord_transaction 1 "2024-03-01" "" "debit" "Repairs" "Cash" 300)
            sample_ledger)
     = Flash_redirect (Plain "Transaction saved.") "success"
  /\ committed (snd (run (add_landlord_transaction 1 "2024-03-01" "" "Debit" "Repairs"
                            "Cash" 300) sample_ledger)) = sample_ledger.
Proof.
  assert (find_landlord 1 sample_ledger <> None) as Hex by discriminate.
  split; [exact Hex|]. split.
  - apply (proj2 (add_landlord_transaction_validates sample_ledger 1 "2024-03-01" ""
                    "debit" "Repairs" "Cash" 300) Hex).
    right. reflexivity.
  - apply (proj1 (add_landlord_transaction_validates sample_ledger 1 "2024-03-01" ""
                    "Debit" "Repairs" "Cash" 300)).
    right. intros [H|H]; discriminate H.
Defined.

(** X8. A saved ledger entry adds one line to the landlord's statement, which
    carries the amount as a credit for a ['credit'] entry and as a debit for a
    ['debit'] entry, and leaves the statements of the other landlords as they
    were. *)
Theorem statement_after_ledger_entry (d : db) (landlord_id : Z)
    (today date txn_type narration mode_of_payment : string) (amount : float) :
  find_landlord landlord_id d <> None ->
  let after :=
    committed (snd (run (add_landlord_transaction landlord_id today date txn_type narration
                           mode_of_payment amount) d)) in
  (txn_type = "credit" ->
   exists line,
     Permutation (statement_lines landlord_id after)
       (line :: statement_lines landlord_id d)
     /\ tx_source line = "manual"
     /\ tx_credit line = as_read amount /\ tx_debit line = 0%float)
  /\ (txn_type = "debit" ->
      exists line,
        Permutation (statement_lines landlord_id after)
          (line :: statement_lines landlord_id d)
        /\ tx_source line = "manual"
        /\ tx_credit line = 0%float /\ tx_debit line = as_read amount)
  /\ (forall other, other <> landlord_id ->
      landlord_account_detail other after = landlord_account_detail other d).
Proof.
  intros Hex after.
  destruct (find_landlord landlord_id d) as [ll|] eqn:Hfl; [|congruence].
  set (entry := {| lt_id := next_id lt_id (landlord_transactions d);
                   lt_landlord_id := landlord_id;
                   lt_date := Some (if Py.truthy_str date then date else today);
                   lt_narration := Literal narration; lt_transaction_type := txn_type;
                   lt_amount := amount; lt_payment_method := mode_of_payment |}).
  assert (txn_type = "credit" \/ txn_type = "debit" ->
          after = with_landlord_transactions d (landlord_transactions d ++ [entry]))
    as Hsaved.
  { intros Hty. subst after.
    rewrite (add_landlord_transaction_saved d landlord_id today date txn_type narration
               mode_of_payment amount ll Hfl (proj2 (type_checked txn_type) Hty)).
    reflexivity. }
  assert (forall l,
            collected_lines l
              (with_landlord_transactions d (landlord_transactions d ++ [entry]))
            = collected_lines l d
              ++ (if landlord_id =? l then [manual_line entry] else [])) as Hcol.
  { intros l. unfold collected_lines, manual_rows.
    cbn [landlord_transactions with_landlord_transactions].
    rewrite filter_app, map_app, app_assoc. cbn [filter].
    change (lt_landlord_id entry) with landlord_id.
    destruct (landlord_id =? l); reflexivity. }
  assert (txn_type = "credit" \/ txn_type = "debit" ->
          Permutation (statement_lines landlord_id after)
            (manual_line entry :: statement_lines landlord_id d)) as Hperm.
  { intros Hty. rewrite (Hsaved Hty).
    apply (statement_lines_after landlord_id d _ [manual_line entry]
             (collected_lines landlord_id d) [] [manual_line entry]).
    - reflexivity.
    - rewrite Hfl. discriminate.
    - rewrite app_nil_r. reflexivity.
    - rewrite (Hcol landlord_id), Z.eqb_refl. reflexivity.
    - apply Permutation_refl. }
  split; [|split].
  - intros Hc. exists (manual_line entry). split; [apply Hperm; left; exact Hc|].
    unfold manual_line. cbn [tx_source tx_credit tx_debit].
    change (lt_transaction_type entry) with txn_type. rewrite Hc.
    change (String.eqb (Py.lower "credit") "credit") with true. cbn iota.
    repeat split. apply as_read_stored.
  - intros Hd. exists (manual_line entry). split; [apply Hperm; right; exact Hd|].
    unfold manual_line. cbn [tx_source tx_credit tx_debit].
    change (lt_transaction_type entry) with txn_type. rewrite Hd.
    change (String.eqb (Py.lower "debit") "credit") with false. cbn iota.
    repeat split. apply as_read_stored.
  - intros other Hne.
    destruct (String.eqb txn_type "credit" || String.eqb txn_type "debit") eqn:Ety.
    + apply type_checked in Ety. rewrite (Hsaved Ety).
      apply statement_same_lines; [reflexivity|].
      rewrite (Hcol other).
      assert ((landlord_id =? other) = false) as -> by (apply Z.eqb_neq; congruence).
      apply app_nil_r.
    + subst after.
      rewrite (add_landlord_transaction_bad_type d landlord_id today date txn_type
                 narration mode_of_payment amount ll Hfl Ety).
      reflexivity.
Qed.

(** A debit of 300 on the sample ledger shows as a line debiting 300. *)
Lemma statement_after_ledger_entry_witness :
  find_landlord 1 sample_ledger <> None
  /\ exists line,
       Permutation
         (statement_lines 1
            (committed (snd (run (add_landlord_transaction 1 "2024-03-01" "" "debit"
                                    "Repairs" "Cash" 300) sample_ledger))))
         (line :: statement_lines 1 sample_ledger)
       /\ tx_debit line = 300%float.
Proof.
  assert (find_landlord 1 sample_ledger <> None) as Hex by discriminate.
  split; [exact Hex|].
  destruct (proj1 (proj2 (statement_after_ledger_entry sample_ledger 1 "2024-03-01" ""
                            "debit" "Repairs" "Cash" 300 Hex)) eq_refl)
    as [line [Hperm [_ [_ Hd]]]].
  exists line. split; [exact Hperm | exact Hd].
Defined.

(** ** Runs of [end_lease] *)

Lemma find_tenant_id (tenant_id : Z) (d : db) (t : tenant) :
  find_tenant tenant_id d = Some t -> t_id t = tenant_id.
Proof.
  unfold find_tenant. intros H. apply find_some in H. apply Z.eqb_eq. apply H.
Qed.

Lemma end_lease_no_tenant (d : db) (tenant_id : Z) :
  find_tenant tenant_id d = None ->
  run (end_lease tenant_id) d = (Json false Tenant_not_found 404, aborted d).
Proof.
  intros H. unfold run, end_lease, try_except, bind, execute_begin, query, get_db_connection.
  cbn. rewrite H. reflexivity.
Qed.

Lemma end_lease_ended (d : db) (tenant_id : Z) (t : tenant) :
  find_tenant tenant_id d = Some t ->
  exists tr,
    run (end_lease tenant_id) d
    = (Json true (Plain "Lease ended successfully") 200,
       settled (stored_after_end_lease d t) tr).
Proof.
  intros H. pose proof (find_tenant_id tenant_id d t H) as Hid.
  unfold run, end_lease, try_except, bind, execute_begin, query, get_db_connection.
  cbn. rewrite H. cbn.
  unfold stored_after_end_lease, freed_property, freed_unit, frees_property, settled.
  rewrite Hid.
  destruct (t_unit_id t) as [uid|]; destruct (t_property_id t) as [pid|]; cbn.
  - destruct (uid =? 0); cbn; destruct (pid =? 0); cbn;
      try (eexists; reflexivity);
      match goal with
      | |- context [if ?b then execute_write _ _ else _] => destruct b
      end; cbn; eexists; reflexivity.
  - destruct (uid =? 0); cbn; eexists; reflexivity.
  - destruct (pid =? 0); cbn; eexists; reflexivity.
  - eexists. reflexivity.
Qed.

Lemma find_tenant_after_links (tenant_id : Z) (property_id unit_id : option Z) (d : db)
    (t : tenant) :
  find_tenant tenant_id d = Some t ->
  find_tenant tenant_id (update_tenant_links tenant_id property_id unit_id d)
  = Some {| t_id := t_id t; t_full_name := t_full_name t;
            t_lease_start_date := t_lease_start_date t;
            t_lease_end_date := t_lease_end_date t;
            t_property_id := property_id; t_unit_id := unit_id |}.
Proof.
  unfold find_tenant, update_tenant_links. cbn [tenants with_tenants].
  induction (tenants d) as [|x l IH]; cbn; [discriminate|].
  destruct (t_id x =? tenant_id) eqn:E; cbn.
  - rewrite E. intros [= ->]. reflexivity.
  - rewrite E. exact IH.
Qed.

Lemma find_unit_after_vacate (unit_id : Z) (d : db) (u : property_unit) :
  find_unit unit_id d = Some u ->
  find_unit unit_id (update_unit_vacant unit_id d)
  = Some {| u_id := u_id u; u_property_id := u_property_id u; u_price := u_price u;
            u_status := "Vacant"; u_tenant_id := None |}.
Proof.
  unfold find_unit, update_unit_vacant. cbn [property_units with_property_units].
  induction (property_units d) as [|x l IH]; cbn; [discriminate|].
  destruct (u_id x =? unit_id) eqn:E; cbn.
  - rewrite E. intros [= ->]. reflexivity.
  - rewrite E. exact IH.
Qed.

Lemma freed_tables (t : tenant) (d : db) :
  let d' := freed_property t (freed_unit t d) in
  landlords d' = landlords d /\ tenants d' = tenants d /\ payments d' = payments d
  /\ landlord_transactions d' = landlord_transactions d
  /\ property_units d' = property_units (freed_unit t d).
Proof.
  unfold freed_property, freed_unit.
  destruct (t_unit_id t) as [uid|]; destruct (t_property_id t) as [pid|]; cbn zeta;
    repeat match goal with
           | |- context [if ?b then _ else _] => destruct b
           end; cbn; repeat split.
Qed.

Lemma stored_after_end_lease_tables (d : db) (t : tenant) :
  let d' := stored_after_end_lease d t in
  landlords d' = landlords d /\ payments d' = payments d
  /\ landlord_transactions d' = landlord_transactions d
  /\ tenants d' = tenants (update_tenant_links (t_id t) None None d)
  /\ property_units d' = property_units (freed_unit t d).
Proof.
  unfold stored_after_end_lease.
  destruct (freed_tables t d) as [Hl [Ht [Hp [Hlt Hu]]]].
  cbn [landlords payments landlord_transactions tenants property_units
       update_tenant_links with_tenants].
  rewrite Hl, Hp, Hlt, Ht, Hu. repeat split.
Qed.

(** X9. [end_lease] answers 404 for an unknown tenant and leaves the stored
    database as it was.  For a known tenant it always succeeds; it keeps every
    payment row, ledger entry and landlord, keeps the tenant's row with its
    name and lease dates, and clears the tenant's property and unit
    references, so that the tenant is unassigned afterwards. *)
Theorem end_lease_keeps_history (d : db) (tenant_id : Z) :
  let call := run (end_lease tenant_id) d in
  let after := committed (snd call) in
  (find_tenant tenant_id d = None ->
   fst call = Json false Tenant_not_found 404 /\ after = d)
  /\ (forall t, find_tenant tenant_id d = Some t ->
      fst call = Json true (Plain "Lease ended successfully") 200
      /\ payments after = payments d
      /\ landlord_transactions after = landlord_transactions d
      /\ landlords after = landlords d
      /\ length (tenants after) = length (tenants d)
      /\ exists t', find_tenant tenant_id after = Some t'
                    /\ t_full_name t' = t_full_name t
                    /\ t_lease_start_date t' = t_lease_start_date t
                    /\ t_lease_end_date t' = t_lease_end_date t
                    /\ assigned t' = false
                    /\ t_property_id t' = None /\ t_unit_id t' = None).
Proof.
  intros call after. subst after call. split.
  - intros H. rewrite (end_lease_no_tenant d tenant_id H). split; reflexivity.
  - intros t H. destruct (end_lease_ended d tenant_id t H) as [tr E]. rewrite E.
    cbn [fst snd settled committed].
    destruct (stored_after_end_lease_tables d t) as [Hl [Hp [Hlt [Ht _]]]].
    rewrite (find_tenant_id tenant_id d t H) in Ht.
    split; [reflexivity|]. split; [exact Hp|]. split; [exact Hlt|]. split; [exact Hl|].
    split.
    + rewrite Ht. unfold update_tenant_links. cbn [tenants with_tenants]. apply length_map.
    + eexists. split.
      * unfold find_tenant. rewrite Ht.
        apply (find_tenant_after_links tenant_id None None d t H).
      * repeat split; reflexivity.
Qed.

Lemma end_lease_keeps_history_witness :
  find_tenant 9 sample_registry <> None
  /\ fst (run (end_lease 9) sample_registry)
     = Json true (Plain "Lease ended successfully") 200
  /\ payments (committed (snd (run (end_lease 9) sample_registry)))
     = payments sample_registry.
Proof.
  split; [discriminate|].
  destruct (proj2 (end_lease_keeps_history sample_registry 9) _ eq_refl) as [H1 [H2 _]].
  split; assumption.
Defined.

Lemma select_tenant_join_unassigned (tenant_id : Z) (d : db) (t : tenant) :
  find_tenant tenant_id d = Some t -> t_property_id t = None ->
  select_tenant_join tenant_id d = None.
Proof.
  intros H Hp. unfold select_tenant_join. rewrite H, Hp. reflexivity.
Qed.

(** X10. Once a lease is ended the tenant can no longer pay or renew: on the
    database [end_lease] leaves, [add_payment] answers "Tenant not found"
    (404) and [renew_rent] flashes an error, and neither writes anything. *)
Theorem ended_lease_refuses_payments (d : db) (tenant_id : Z) (t : tenant) (amount : float)
    (payment_method payment_date : string) (description : option string)
    (new_start_date new_end_date payment_type description' : string) :
  find_tenant tenant_id d = Some t ->
  let ended := committed (snd (run (end_lease tenant_id) d)) in
  run (add_payment tenant_id amount payment_method payment_date description) ended
  = (Json false Tenant_not_found 404, aborted ended)
  /\ (exists msg,
        fst (run (renew_rent tenant_id new_start_date new_end_date amount payment_method
                    payment_type payment_date description') ended)
        = Flash_redirect msg "danger")
  /\ committed (snd (run (renew_rent tenant_id new_start_date new_end_date amount
                            payment_method payment_type payment_date description') ended))
     = ended.
Proof.
  intros H ended.
  assert (select_tenant_join tenant_id ended = None) as Hnone.
  { subst ended. destruct (end_lease_ended d tenant_id t H) as [tr E]. rewrite E.
    cbn [snd settled committed].
    destruct (stored_after_end_lease_tables d t) as [_ [_ [_ [Ht _]]]].
    rewrite (find_tenant_id tenant_id d t H) in Ht.
    eapply select_tenant_join_unassigned.
    - unfold find_tenant. rewrite Ht.
      apply (find_tenant_after_links tenant_id None None d t H).
    - reflexivity. }
  split; [apply add_payment_no_tenant; exact Hnone|].
  destruct (renew_rent_outcomes ended tenant_id new_start_date new_end_date amount
              payment_method payment_type payment_date description')
    as [[msg [c [E Hc]]]|[r [l [rent [_ [Hs _]]]]]].
  - rewrite E. split; [exists msg; reflexivity | exact Hc].
  - exfalso. unfold select_tenant_join_landlord in Hs. rewrite Hnone in Hs. discriminate.
Qed.

Lemma ended_lease_refuses_payments_witness :
  find_tenant 9 sample_registry <> None
  /\ fst (run (add_payment 9 750 "Cash" "2024-02-01" None)
            (committed (snd (run (end_lease 9) sample_registry))))
     = Json false Tenant_not_found 404.
Proof.
  split; [discriminate|].
  rewrite (proj1 (ended_lease_refuses_payments sample_registry 9 _ 750 "Cash" "2024-02-01"
                    None "" "" "" "" eq_refl)).
  reflexivity.
Defined.

(** ** [assign_tenant], [end_lease] and [available_units] together *)

Lemma stored_after_unit_assignment_tables (d : db) (tenant_id property_id unit_id : Z) :
  let d' := stored_after_unit_assignment d tenant_id property_id unit_id in
  tenants d' = tenants (update_tenant_links tenant_id (Some property_id) (Some unit_id) d)
  /\ property_units d' = property_units (update_unit_occupied unit_id tenant_id d).
Proof.
  unfold stored_after_unit_assignment.
  destruct (all_units_counted_occupied _ _); cbn; split; reflexivity.
Qed.

Lemma requested_unit_given (unit_id : Z) :
  unit_id <> 0 -> requested_unit (Some unit_id) = Some unit_id.
Proof.
  intros H. unfold requested_unit. cbn. apply Z.eqb_neq in H. rewrite H. reflexivity.
Qed.

Lemma find_unit_same (unit_id : Z) (d d' : db) :
  property_units d' = property_units d -> find_unit unit_id d' = find_unit unit_id d.
Proof. intros H. unfold find_unit. rewrite H. reflexivity. Qed.

Lemma find_tenant_same (tenant_id : Z) (d d' : db) :
  tenants d' = tenants d -> find_tenant tenant_id d' = find_tenant tenant_id d.
Proof. intros H. unfold find_tenant. rewrite H. reflexivity. Qed.

(** The state a successful assignment to a unit leaves. *)
Lemma assigned_unit_state (d : db) (tenant_id property_id unit_id : Z)
    (msg : message) (code : Z) :
  tenant_id <> 0 -> property_id <> 0 -> unit_id <> 0 ->
  fst (run (assign_tenant (Some tenant_id) (Some property_id) (Some unit_id)) d)
  = Json true msg code ->
  let d1 := committed (snd (run (assign_tenant (Some tenant_id) (Some property_id)
                                   (Some unit_id)) d)) in
  exists t u,
    find_tenant tenant_id d = Some t /\ assigned t = false
    /\ find_unit unit_id d = Some u /\ u_property_id u = property_id
    /\ u_status u = "Vacant"
    /\ d1 = stored_after_unit_assignment d tenant_id property_id unit_id
    /\ find_tenant tenant_id d1
       = Some {| t_id := t_id t; t_full_name := t_full_name t;
                 t_lease_start_date := t_lease_start_date t;
                 t_lease_end_date := t_lease_end_date t;
                 t_property_id := Some property_id; t_unit_id := Some unit_id |}
    /\ find_unit unit_id d1
       = Some {| u_id := u_id u; u_property_id := u_property_id u; u_price := u_price u;
                 u_status := "Occupied"; u_tenant_id := Some tenant_id |}.
Proof.
  intros Ht Hp Hu H d1. subst d1.
  pose proof (requested_unit_given unit_id Hu) as Hreq.
  destruct (assign_tenant_outcomes d tenant_id property_id (Some unit_id) Ht Hp)
    as [[m [c E]]|[[t [uid [u [tr [Hft [Ha [Hru [Hfu [Hup [Hv E]]]]]]]]]]
                   |[t [p [tr [_ [_ [Hru _]]]]]]]].
  - rewrite E in H. discriminate.
  - rewrite Hreq in Hru. injection Hru as <-.
    rewrite E. cbn [snd settled committed].
    destruct (stored_after_unit_assignment_tables d tenant_id property_id unit_id)
      as [Htn Hun].
    exists t, u. repeat (split; [assumption || reflexivity|]).
    split.
    + rewrite (find_tenant_same tenant_id _ _ Htn).
      apply find_tenant_after_links. exact Hft.
    + rewrite (find_unit_same unit_id _ _ Hun).
      apply find_unit_after_occupy. exact Hfu.
  - rewrite Hreq in Hru. discriminate.
Qed.

(** X11. Assign, end, assign again.  After a tenant was assigned to a unit
    and the lease was ended, the unit is stored Vacant with no tenant and is
    listed by [available_units], the tenant is unassigned, and the same
    assignment is accepted again. *)
Theorem assignment_can_be_repeated_after_end_lease (d : db)
    (tenant_id property_id unit_id : Z) (msg : message) (code : Z) :
  tenant_id <> 0 -> property_id <> 0 -> unit_id <> 0 ->
  fst (run (assign_tenant (Some tenant_id) (Some property_id) (Some unit_id)) d)
  = Json true msg code ->
  let d1 := committed (snd (run (assign_tenant (Some tenant_id) (Some property_id)
                                   (Some unit_id)) d)) in
  let d2 := committed (snd (run (end_lease tenant_id) d1)) in
  fst (run (end_lease tenant_id) d1) = Json true (Plain "Lease ended successfully") 200
  /\ (exists u, find_unit unit_id d2 = Some u
                /\ u_status u = "Vacant" /\ u_tenant_id u = None
                /\ In u (available_units property_id d2))
  /\ (exists t, find_tenant tenant_id d2 = Some t
                /\ t_property_id t = None /\ t_unit_id t = None)
  /\ fst (run (assign_tenant (Some tenant_id) (Some property_id) (Some unit_id)) d2)
     = Json true (Plain "Tenant assigned successfully") 200.
Proof.
  intros Ht Hp Hu H d1 d2.
  destruct (assigned_unit_state d tenant_id property_id unit_id msg code Ht Hp Hu H)
    as [t [u [_ [_ [_ [Hup [_ [_ [Hft1 Hfu1]]]]]]]]].
  fold d1 in Hft1, Hfu1.
  set (t1 := {| t_id := t_id t; t_full_name := t_full_name t;
                t_lease_start_date := t_lease_start_date t;
                t_lease_end_date := t_lease_end_date t;
                t_property_id := Some property_id; t_unit_id := Some unit_id |}) in *.
  set (u1 := {| u_id := u_id u; u_property_id := u_property_id u; u_price := u_price u;
                u_status := "Occupied"; u_tenant_id := Some tenant_id |}) in *.
  destruct (end_lease_ended d1 tenant_id t1 Hft1) as [tr E].
  assert (d2 = stored_after_end_lease d1 t1) as Hd2 by (subst d2; rewrite E; reflexivity).
  destruct (stored_after_end_lease_tables d1 t1) as [_ [_ [_ [Htn Hun]]]].
  rewrite <- Hd2 in Htn, Hun.
  assert (freed_unit t1 d1 = update_unit_vacant unit_id d1) as Hfree.
  { unfold freed_unit. cbn [t_unit_id t1]. rewrite (truthy_given unit_id Hu). reflexivity. }
  rewrite Hfree in Hun.
  assert (find_unit unit_id d2
          = Some {| u_id := u_id u1; u_property_id := u_property_id u1;
                    u_price := u_price u1; u_status := "Vacant"; u_tenant_id := None |})
    as Hfu2.
  { rewrite (find_unit_same unit_id _ _ Hun). apply find_unit_after_vacate. exact Hfu1. }
  assert (find_tenant tenant_id d2
          = Some {| t_id := t_id t1; t_full_name := t_full_name t1;
                    t_lease_start_date := t_lease_start_date t1;
                    t_lease_end_date := t_lease_end_date t1;
                    t_property_id := None; t_unit_id := None |}) as Hft2.
  { rewrite (find_tenant_same tenant_id _ _ Htn).
    replace (update_tenant_links (t_id t1) None None d1)
      with (update_tenant_links tenant_id None None d1)
      by (rewrite (find_tenant_id tenant_id d1 t1 Hft1); reflexivity).
    apply find_tenant_after_links. exact Hft1. }
  split; [rewrite E; reflexivity|].
  split; [|split].
  - eexists. split; [exact Hfu2|]. split; [reflexivity|]. split; [reflexivity|].
    unfold available_units. apply filter_In. split.
    + unfold find_unit in Hfu2. apply find_some in Hfu2. apply Hfu2.
    + cbn [u_property_id u_status u1]. rewrite Hup, Z.eqb_refl. reflexivity.
  - eexists. split; [exact Hft2|]. split; reflexivity.
  - destruct (assign_tenant_unit_accepted d2 tenant_id property_id (Some unit_id) Ht Hp
                _ unit_id _ Hft2 eq_refl (requested_unit_given unit_id Hu) Hfu2)
      as [tr' E'].
    + cbn [u_property_id u1]. apply Z.eqb_eq. exact Hup.
    + reflexivity.
    + rewrite E'. reflexivity.
Qed.

Lemma assignment_can_be_repeated_after_end_lease_witness :
  (7 <> 0 /\ 1 <> 0)
  /\ fst (run (assign_tenant (Some 7) (Some 1) (Some 1)) sample_registry)
     = Json true (Plain "Tenant assigned successfully") 200
  /\ fst (run (assign_tenant (Some 7) (Some 1) (Some 1))
            (committed (snd (run (end_lease 7)
               (committed (snd (run (assign_tenant (Some 7) (Some 1) (Some 1))
                                  sample_registry)))))))
     = Json true (Plain "Tenant assigned successfully") 200.
Proof.
  split; [split; lia|]. split; [reflexivity|].
  refine (proj2 (proj2 (proj2 (assignment_can_be_repeated_after_end_lease sample_registry
                                 7 1 1 (Plain "Tenant assigned successfully") 200
                                 _ _ _ eq_refl)))); lia.
Defined.

Lemma find_unit_unique (d : db) (u : property_unit) :
  unit_ids_unique d -> In u (property_units d) -> find_unit (u_id u) d = Some u.
Proof.
  unfold unit_ids_unique, find_unit.
  induction (property_units d) as [|x l IH]; intros Hnd Hin; [contradiction|].
  inversion Hnd as [|? ? Hnotin Hnd']; subst. cbn.
  destruct Hin as [->|Hin].
  - rewrite Z.eqb_refl. reflexivity.
  - destruct (u_id x =? u_id u) eqn:E.
    + exfalso. apply Hnotin. apply Z.eqb_eq in E. rewrite E. apply in_map. exact Hin.
    + apply IH; assumption.
Qed.

(** X12. [available_units] lists what [assign_tenant] accepts: for an
    existing unassigned tenant, the assignment to a unit of a property is
    accepted exactly when [available_units] of that property lists a unit
    with that id; and once it is accepted, [available_units] no longer lists
    it. *)
Theorem available_units_are_assignable (d : db) (tenant_id property_id unit_id : Z)
    (t : tenant) :
  tenant_id <> 0 -> property_id <> 0 -> unit_id <> 0 ->
  unit_ids_unique d ->
  find_tenant tenant_id d = Some t -> assigned t = false ->
  let call := run (assign_tenant (Some tenant_id) (Some property_id) (Some unit_id)) d in
  (fst call = Json true (Plain "Tenant assigned successfully") 200
   <-> exists u, In u (available_units property_id d) /\ u_id u = unit_id)
  /\ (fst call = Json true (Plain "Tenant assigned successfully") 200 ->
      forall u, In u (available_units property_id (committed (snd call))) ->
                u_id u <> unit_id).
Proof.
  intros Ht Hp Hu Huniq Hft Ha call. subst call. split; [split|].
  - intros H.
    destruct (assigned_unit_state d tenant_id property_id unit_id _ _ Ht Hp Hu H)
      as [t' [u [_ [_ [Hfu [Hup [Hv _]]]]]]].
    exists u. unfold find_unit in Hfu. pose proof (find_some _ _ Hfu) as [Hin Hid].
    split; [|apply Z.eqb_eq; exact Hid].
    unfold available_units. apply filter_In. split; [exact Hin|].
    rewrite Hup, Hv, Z.eqb_refl. reflexivity.
  - intros [u [Hin Hid]]. unfold available_units in Hin. apply filter_In in Hin.
    destruct Hin as [Hin Hok]. apply andb_true_iff in Hok. destruct Hok as [Hup Hv].
    pose proof (find_unit_unique d u Huniq Hin) as Hfu. rewrite Hid in Hfu.
    destruct (assign_tenant_unit_accepted d tenant_id property_id (Some unit_id) Ht Hp
                t unit_id u Hft Ha (requested_unit_given unit_id Hu) Hfu Hup Hv)
      as [tr E].
    rewrite E. reflexivity.
  - intros H u Hin Hid.
    destruct (assigned_unit_state d tenant_id property_id unit_id _ _ Ht Hp Hu H)
      as [_ [_ [_ [_ [_ [_ [_ [Hd1 _]]]]]]]].
    destruct (stored_after_unit_assignment_tables d tenant_id property_id unit_id)
      as [_ Hun].
    rewrite <- Hd1 in Hun.
    unfold available_units in Hin. rewrite Hun in Hin. apply filter_In in Hin.
    destruct Hin as [Hin Hok]. apply andb_true_iff in Hok. destruct Hok as [_ Hv].
    unfold update_unit_occupied in Hin. cbn [property_units with_property_units] in Hin.
    apply in_map_iff in Hin. destruct Hin as [x [Hx _]].
    destruct (u_id x =? unit_id) eqn:E.
    + subst u. cbn in Hv. discriminate.
    + subst u. apply Z.eqb_neq in E. contradiction.
Qed.

Lemma available_units_are_assignable_witness :
  (7 <> 0 /\ 1 <> 0) /\ unit_ids_unique sample_registry
  /\ (exists u, In u (available_units 1 sample_registry) /\ u_id u = 1)
  /\ fst (run (assign_tenant (Some 7) (Some 1) (Some 1)) sample_registry)
     = Json true (Plain "Tenant assigned successfully") 200.
Proof.
  assert (unit_ids_unique sample_registry) as Hu.
  { unfold unit_ids_unique. cbn. repeat constructor; cbn; intuition lia. }
  assert (exists u, In u (available_units 1 sample_registry) /\ u_id u = 1) as Hex.
  { eexists. split; [left; reflexivity | reflexivity]. }
  split; [split; lia|]. split; [exact Hu|]. split; [exact Hex|].
  refine (proj2 (proj1 (available_units_are_assignable sample_registry 7 1 1 _
                          _ _ _ Hu eq_refl eq_refl)) Hex); lia.
Defined.

(** ** [end_lease]: occupancy *)

Lemma count_other_tenants_same (property_id tenant_id : Z) (d d' : db) :
  tenants d' = tenants d ->
  count_other_tenants property_id tenant_id d' = count_other_tenants property_id tenant_id d.
Proof. intros H. unfold count_other_tenants. rewrite H. reflexivity. Qed.

Lemma freed_unit_tables (t : tenant) (d : db) :
  tenants (freed_unit t d) = tenants d /\ properties (freed_unit t d) = properties d.
Proof.
  unfold freed_unit. destruct (t_unit_id t) as [uid|]; [|split; reflexivity].
  destruct (Py.truthy_int (Some uid)); split; reflexivity.
Qed.

(** X13. What [end_lease] does to occupancy.  The tenant's unit, if any, is
    stored Vacant with no tenant.  The tenant's property is marked Vacant when
    the tenant had no unit, or when no other tenant with a unit is stored for
    that property; when another such tenant remains, the properties table is
    left as it was. *)
Theorem end_lease_occupancy (d : db) (tenant_id : Z) (t : tenant) :
  find_tenant tenant_id d = Some t ->
  let after := committed (snd (run (end_lease tenant_id) d)) in
  (forall unit_id u,
     t_unit_id t = Some unit_id -> unit_id <> 0 -> find_unit unit_id d = Some u ->
     exists u', find_unit unit_id after = Some u'
                /\ u_status u' = "Vacant" /\ u_tenant_id u' = None
                /\ u_property_id u' = u_property_id u /\ u_price u' = u_price u)
  /\ (forall property_id,
        t_property_id t = Some property_id -> property_id <> 0 ->
        (Py.truthy_int (t_unit_id t) = false
         \/ count_other_tenants property_id tenant_id d = 0 ->
         forall p, In p (properties after) -> p_id p = property_id ->
                   p_status p = "Vacant")
        /\ (Py.truthy_int (t_unit_id t) = true ->
            count_other_tenants property_id tenant_id d <> 0 ->
            properties after = properties d)).
Proof.
  intros H after.
  pose proof (find_tenant_id tenant_id d t H) as Hid.
  destruct (end_lease_ended d tenant_id t H) as [tr E].
  assert (after = stored_after_end_lease d t) as Hafter
    by (subst after; rewrite E; reflexivity).
  destruct (stored_after_end_lease_tables d t) as [_ [_ [_ [_ Hun]]]].
  rewrite <- Hafter in Hun.
  destruct (freed_unit_tables t d) as [Hft Hfp].
  split.
  - intros unit_id u Hu Hnz Hfu.
    assert (freed_unit t d = update_unit_vacant unit_id d) as Hfree.
    { unfold freed_unit. rewrite Hu, (truthy_given unit_id Hnz). reflexivity. }
    rewrite Hfree in Hun. eexists. split.
    + rewrite (find_unit_same unit_id _ _ Hun). apply find_unit_after_vacate. exact Hfu.
    + repeat split; reflexivity.
  - intros property_id Hp Hnz.
    assert (properties after
            = properties (if frees_property t property_id (freed_unit t d)
                          then update_property_status property_id "Vacant" (freed_unit t d)
                          else freed_unit t d)) as Hprops.
    { rewrite Hafter. unfold stored_after_end_lease, freed_property.
      rewrite Hp, (truthy_given property_id Hnz). reflexivity. }
    assert (frees_property t property_id (freed_unit t d)
            = negb (Py.truthy_int (t_unit_id t))
              || (count_other_tenants property_id tenant_id d =? 0)) as Hrule.
    { unfold frees_property.
      rewrite (count_other_tenants_same property_id (t_id t) d _ Hft), Hid. reflexivity. }
    rewrite Hrule in Hprops. split.
    + intros Hfree p Hin Hpid.
      assert (negb (Py.truthy_int (t_unit_id t))
              || (count_other_tenants property_id tenant_id d =? 0) = true) as Hyes.
      { destruct Hfree as [Hno|Hzero].
        - rewrite Hno. reflexivity.
        - rewrite Hzero. apply orb_true_r. }
      rewrite Hyes in Hprops. rewrite Hprops in Hin.
      apply (properties_after_status property_id "Vacant" _ p Hin Hpid).
    + intros Hunit Hothers.
      assert (negb (Py.truthy_int (t_unit_id t))
              || (count_other_tenants property_id tenant_id d =? 0) = false) as Hno.
      { rewrite Hunit. apply Z.eqb_neq in Hothers. rewrite Hothers. reflexivity. }
      rewrite Hno in Hprops. rewrite Hprops. exact Hfp.
Qed.

(** Tenant 9 leaves unit 2 of the sample registry: the unit is Vacant
    afterwards. *)
Lemma end_lease_occupancy_witness :
  find_tenant 9 sample_registry <> None
  /\ exists u', find_unit 2 (committed (snd (run (end_lease 9) sample_registry))) = Some u'
                /\ u_status u' = "Vacant" /\ u_tenant_id u' = None.
Proof.
  split; [discriminate|].
  assert (2 <> 0) as Hnz by lia.
  destruct (proj1 (end_lease_occupancy sample_registry 9 _ eq_refl) 2
              {| u_id := 2; u_property_id := 1; u_price := Some 750%float;
                 u_status := "Occupied"; u_tenant_id := Some 9 |}
              eq_refl Hnz eq_refl)
    as [u' [Hf [Hs [Ht _]]]].
  exists u'. repeat split; assumption.
Defined.


(** ** The dashboard's total rent due after a payment *)

Lemma balances_due_positive (d : db) :
  Forall (fun x => PrimFloat.ltb 0 x = true) (balances_due d).
Proof.
  apply Forall_forall. intros x Hx. unfold balances_due in Hx.
  apply in_map_iff in Hx. destruct Hx as [p [<- Hp]].
  apply filter_In in Hp. apply Hp.
Qed.

(** The query of the dashboard returns the sum of the open balances. *)
Lemma total_rent_due_sum (d : db) : total_rent_due d = sum_of (balances_due d).
Proof.
  unfold total_rent_due, sql_sum.
  change (map pay_balance_due
            (filter (fun p => Py.gt (pay_balance_due p) 0) (payments d)))
    with (balances_due d).
  rewrite (numbers_positive _ (balances_due_positive d)).
  destruct (balances_due d); reflexivity.
Qed.

Lemma clear_row_other_tenant (tenant_id lastrowid : Z) (p : payment) :
  (pay_tenant_id p =? tenant_id) = false -> clear_row tenant_id lastrowid p = p.
Proof.
  intros H. unfold clear_row, is_open_for. rewrite H. reflexivity.
Qed.

(** Once the tenant's open rows are closed, the open rows are those of the
    other tenants. *)
Lemma balances_due_after_clear (tenant_id lastrowid : Z) (rows : list payment) :
  (forall p, In p rows -> pay_id p <> lastrowid) ->
  map pay_balance_due
    (filter (fun p => PrimFloat.ltb 0 (pay_balance_due p))
       (map (clear_row tenant_id lastrowid) rows))
  = map pay_balance_due
      (filter (fun p => negb (pay_tenant_id p =? tenant_id)
                        && PrimFloat.ltb 0 (pay_balance_due p)) rows).
Proof.
  induction rows as [|p rows IH]; intros Hid; cbn [map filter]; [reflexivity|].
  assert (forall q, In q rows -> pay_id q <> lastrowid) as Hid'
    by (intros q Hq; apply Hid; right; exact Hq).
  specialize (IH Hid').
  destruct (pay_tenant_id p =? tenant_id) eqn:Et.
  - cbn [negb andb].
    assert (owes tenant_id (clear_row tenant_id lastrowid p) = false) as Hclosed
      by (apply clear_row_not_open; apply Hid; left; reflexivity).
    unfold owes in Hclosed.
    assert (pay_tenant_id (clear_row tenant_id lastrowid p) = pay_tenant_id p) as Hten
      by (unfold clear_row;
          destruct (is_open_for tenant_id p && negb (pay_id p =? lastrowid)); reflexivity).
    rewrite Hten, Et in Hclosed. cbn [andb] in Hclosed. rewrite Hclosed. exact IH.
  - rewrite (clear_row_other_tenant tenant_id lastrowid p Et). cbn [negb andb].
    destruct (PrimFloat.ltb 0 (pay_balance_due p)); cbn [map]; [f_equal|]; exact IH.
Qed.

Lemma others_due_no_open_row (tenant_id : Z) (d : db) :
  filter (owes tenant_id) (payments d) = [] ->
  others_due tenant_id d = balances_due d.
Proof.
  unfold others_due, balances_due. intros H. f_equal.
  induction (payments d) as [|p ps IH]; cbn [filter] in *; [reflexivity|].
  unfold owes in H at 1.
  destruct (pay_tenant_id p =? tenant_id); cbn [negb andb] in *.
  - destruct (PrimFloat.ltb 0 (pay_balance_due p)); [discriminate|]. apply IH. exact H.
  - destruct (PrimFloat.ltb 0 (pay_balance_due p)); [f_equal|]; apply IH; exact H.
Qed.

(** X14. The total rent due shown on the dashboard, as SQLite sums it in
    binary64 over the open rows in the order they are stored.  After a
    payment that closes the tenant's cycle it is the sum of the open balances
    of the other tenants.  After a part payment it is the former total plus
    what is left of the target (the outstanding balance, or the rent in a new
    cycle) after the payment: a part payment against an outstanding balance
    raises the total rent due. *)
Theorem total_rent_due_after_payment (d : db) (tenant_id : Z) (amount : float)
    (payment_method payment_date : string) (description : option string) (rent : float) :
  rent_due tenant_id d = Some rent ->
  let total := total_outstanding tenant_id d in
  let target := target_of total rent in
  let after :=
    committed (snd (run (add_payment tenant_id amount payment_method payment_date
                           description) d)) in
  total_rent_due d = sum_of (balances_due d)
  /\ ((amount == target)%num -> total_rent_due after = sum_of (others_due tenant_id d))
  /\ ((amount < target)%num ->
      total_rent_due after = (total_rent_due d + (target - amount))%float).
Proof.
  intros Hrent total target after.
  destruct (rent_due_inv _ _ _ Hrent) as [r [Hs Hr]].
  split; [apply total_rent_due_sum|].
  set (row := payment_row d r tenant_id amount rent payment_method payment_date description).
  split.
  - intros Heq.
    assert (Py.gt amount target = false) as Ha
      by (apply leb_ltb_false, eqb_leb; exact Heq).
    subst after.
    rewrite (add_payment_accepted d tenant_id amount payment_method payment_date
               description r rent Hs Hr (eqb_number_l _ _ Heq) Ha).
    cbn [snd committed]. fold row. fold total.
    destruct (payment_row_balance_closed d r tenant_id amount rent payment_method
                payment_date description) as [Hbal _].
    { apply eqb_leb. unfold Num.eq in Heq. rewrite eqb_sym. exact Heq. }
    fold row in Hbal.
    rewrite total_rent_due_sum. f_equal.
    unfold stored_after_payment, completes_outstanding, Py.eq. rewrite Hbal.
    change (PrimFloat.eqb 0 0) with true. rewrite andb_true_r.
    unfold balances_due, Py.gt.
    destruct (PrimFloat.ltb 0 total) eqn:Ht.
    + unfold clear_old_partials. cbn [payments with_payments].
      rewrite map_app, filter_app, map_app. cbn [map filter].
      rewrite clear_row_self, Hbal. change (PrimFloat.ltb 0 0) with false.
      cbn [map]. rewrite app_nil_r.
      apply balances_due_after_clear.
      intros p Hp. apply old_ids_differ. exact Hp.
    + cbn [payments with_payments]. rewrite filter_app, map_app. cbn [filter].
      rewrite Hbal. change (PrimFloat.ltb 0 0) with false. cbn [map].
      rewrite app_nil_r. symmetry. apply others_due_no_open_row.
      apply total_outstanding_zero_iff.
      destruct (total_outstanding_cases tenant_id d) as [Hpos|Hzero]; [|exact Hzero].
      fold total in Hpos. unfold Num.lt in Hpos. congruence.
  - intros Hlt.
    assert (Py.gt amount target = false) as Ha by (apply ltb_asym; exact Hlt).
    subst after.
    rewrite (add_payment_accepted d tenant_id amount payment_method payment_date
               description r rent Hs Hr (ltb_number_l _ _ Hlt) Ha).
    cbn [snd committed]. fold row. fold total.
    pose proof (payment_row_balance_open d r tenant_id amount rent payment_method
                  payment_date description Hlt) as Hbal.
    fold row in Hbal. fold total in Hbal. fold target in Hbal.
    assert ((0 < pay_balance_due row)%num) as Hpos
      by (unfold Num.lt; rewrite Hbal, sub_positive; exact Hlt).
    rewrite !total_rent_due_sum.
    unfold stored_after_payment, completes_outstanding.
    unfold Py.eq at 1. rewrite (positive_not_zero _ Hpos), andb_false_r.
    unfold balances_due at 1. cbn [payments with_payments].
    rewrite filter_app, map_app. cbn [filter]. unfold Num.lt in Hpos. rewrite Hpos.
    cbn [map]. rewrite sum_of_snoc, Hbal. reflexivity.
Qed.

(** 500 closes the cycle scenario B left open: nothing is due afterwards.
    200 instead leaves 800 due. *)
Lemma total_rent_due_after_payment_witness :
  rent_due 7 sample_db_partial = Some 1500%float
  /\ total_rent_due
       (committed (snd (run (add_payment 7 500 "Cash" "2024-02-01" None)
                          sample_db_partial))) = 0%float
  /\ total_rent_due
       (committed (snd (run (add_payment 7 200 "Cash" "2024-02-01" None)
                          sample_db_partial))) = 800%float.
Proof.
  split; [reflexivity|]. split.
  - rewrite (proj1 (proj2 (total_rent_due_after_payment sample_db_partial 7 500 "Cash"
                             "2024-02-01" None 1500 eq_refl))).
    + reflexivity.
    + reflexivity.
  - rewrite (proj2 (proj2 (total_rent_due_after_payment sample_db_partial 7 200 "Cash"
                             "2024-02-01" None 1500 eq_refl))).
    + reflexivity.
    + reflexivity.
Defined.

(** ** [renew_rent]: what it keeps, and when it closes a cycle *)

(** X15. What [renew_rent] writes.  A renewal that does not go through leaves
    the stored database as it was.  One that goes through appends one payment
    row after the former rows, which it keeps unchanged; it keeps the
    landlords, properties and units; it stores the new lease dates on the
    tenant's row, keeping the tenant's name and references, and leaves every
    other tenant's row as it was. *)
Theorem renew_rent_writes (d : db) (tenant_id : Z)
    (new_start_date new_end_date : string) (amount : float)
    (payment_method payment_type payment_date description : string) :
  let call := run (renew_rent tenant_id new_start_date new_end_date amount payment_method
                     payment_type payment_date description) d in
  let after := committed (snd call) in
  ((forall msg, fst call <> Flash_redirect msg "success") -> after = d)
  /\ (forall msg, fst call = Flash_redirect msg "success" ->
      landlords after = landlords d /\ properties after = properties d
      /\ property_units after = property_units d
      /\ (exists new, payments after = payments d ++ [new])
      /\ (exists t, find_tenant tenant_id d = Some t
                    /\ find_tenant tenant_id after
                       = Some {| t_id := t_id t; t_full_name := t_full_name t;
                                 t_lease_start_date := Some new_start_date;
                                 t_lease_end_date := Some new_end_date;
                                 t_property_id := t_property_id t;
                                 t_unit_id := t_unit_id t |})
      /\ (forall other, other <> tenant_id ->
                        find_tenant other after = find_tenant other d)).
Proof.
  intros call after. subst after call. split.
  - intros Hno.
    destruct (renew_rent_outcomes d tenant_id new_start_date new_end_date amount
                payment_method payment_type payment_date description)
      as [[msg [c [E Hc]]]|[r [l [rent [Hf [Hs [Hr Hn]]]]]]].
    + rewrite E. exact Hc.
    + exfalso.
      pose proof (renew_rent_accepted d tenant_id new_start_date new_end_date amount
                    payment_method payment_type payment_date description r l rent
                    Hf Hs Hr Hn) as E.
      cbn zeta in E. apply (Hno (renewal_message d tenant_id amount rent payment_type)).
      rewrite E. reflexivity.
  - intros msg H.
    destruct (renew_rent_success_inv _ _ _ _ _ _ _ _ _ _ H) as [r [l [rent [Hf [Hs [Hr Hn]]]]]].
    rewrite (renew_rent_accepted d tenant_id new_start_date new_end_date amount
               payment_method payment_type payment_date description r l rent Hf Hs Hr Hn).
    cbn [snd committed].
    destruct (select_tenant_join_landlord_inv tenant_id d r l Hs) as [Hj _].
    assert (exists t, find_tenant tenant_id d = Some t) as [t Ht].
    { unfold select_tenant_join in Hj.
      destruct (find_tenant tenant_id d) as [t|]; [exists t; reflexivity | discriminate]. }
    split; [reflexivity|]. split; [reflexivity|]. split; [reflexivity|].
    split; [eexists; reflexivity|].
    assert (forall other,
              find_tenant other
                (stored_after_renewal d tenant_id new_start_date new_end_date
                   (renewal_payment_row d r tenant_id new_start_date new_end_date amount
                      rent payment_method payment_type payment_date description)
                   (renewal_entries d r tenant_id amount payment_method payment_date
                      description))
              = find_tenant other
                  (update_lease_dates tenant_id new_start_date new_end_date d)) as Hsame
      by (intros other; reflexivity).
    split.
    + exists t. split; [exact Ht|].
      rewrite Hsame, find_tenant_after_dates, Z.eqb_refl, Ht. reflexivity.
    + intros other Hne. rewrite Hsame, find_tenant_after_dates.
      apply Z.eqb_neq in Hne. rewrite Hne. reflexivity.
Qed.

Lemma renew_rent_writes_witness :
  fst (run (renew_rent 7 "2025-01-01" "2025-12-31" 2000 "Cash" "Full" "2025-01-05" "")
         sample_db_closed)
  = Flash_redirect (Renewal_full 2000 1800 200) "success"
  /\ properties
       (committed (snd (run (renew_rent 7 "2025-01-01" "2025-12-31" 2000 "Cash" "Full"
                               "2025-01-05" "") sample_db_closed)))
     = properties sample_db_closed.
Proof.
  split; [reflexivity|].
  exact (proj1 (proj2 (proj2 (renew_rent_writes sample_db_closed 7 "2025-01-01"
                                "2025-12-31" 2000 "Cash" "Full" "2025-01-05" "")
                         _ eq_refl))).
Defined.

(** X16. A renewal closes a cycle exactly when it is sent as ['Full'],
    whatever the amount: after a renewal that goes through, the tenant has a
    completed cycle (a Full payment with no balance) if and only if the tenant
    had one before or the payment type sent was ['Full'].  So the first
    renewal sent as Full makes every later renewal, and every later closing
    payment of a new cycle, subject to the fee. *)
Theorem renewal_closes_cycle_iff_sent_full (d : db) (tenant_id : Z)
    (new_start_date new_end_date : string) (amount : float)
    (payment_method payment_type payment_date description : string) (msg : message) :
  let call := run (renew_rent tenant_id new_start_date new_end_date amount payment_method
                     payment_type payment_date description) d in
  fst call = Flash_redirect msg "success" ->
  (has_completed_cycle tenant_id (committed (snd call))
   <-> has_completed_cycle tenant_id d \/ payment_type = "Full").
Proof.
  intros call H. subst call.
  destruct (renew_rent_success_inv _ _ _ _ _ _ _ _ _ _ H) as [r [l [rent [Hf [Hs [Hr Hn]]]]]].
  rewrite (renew_rent_accepted d tenant_id new_start_date new_end_date amount
             payment_method payment_type payment_date description r l rent Hf Hs Hr Hn).
  cbn [snd committed].
  set (row := renewal_payment_row d r tenant_id new_start_date new_end_date amount rent
                payment_method payment_type payment_date description).
  set (entries := renewal_entries d r tenant_id amount payment_method payment_date
                    description).
  destruct (stored_after_renewal_tables d tenant_id new_start_date new_end_date row entries)
    as [_ [_ [_ [Hpay _]]]].
  unfold has_completed_cycle. rewrite Hpay. split.
  - intros [p [Hin [Ht [Hty Hb]]]]. apply in_app_or in Hin. destruct Hin as [Hin|[<-|[]]].
    + left. exists p. repeat split; assumption.
    + right. exact Hty.
  - intros [[p [Hin [Ht [Hty Hb]]]]|Hfull].
    + exists p. split; [apply in_or_app; left; exact Hin|]. repeat split; assumption.
    + exists row. split; [apply in_or_app; right; left; reflexivity|].
      split; [reflexivity|]. split; [exact Hfull|].
      unfold row. cbn [pay_balance_due renewal_payment_row]. rewrite Hfull. reflexivity.
Qed.

(** A first renewal of 100 against a rent of 1500, sent as Full, closes a
    cycle. *)
Lemma renewal_closes_cycle_iff_sent_full_witness :
  has_completed_cycle 7
    (committed (snd (run (renew_rent 7 "2025-01-01" "2025-12-31" 100 "Cash" "Full"
                            "2025-01-05" "") sample_db))).
Proof.
  apply (proj2 (renewal_closes_cycle_iff_sent_full sample_db 7 "2025-01-01" "2025-12-31"
                  100 "Cash" "Full" "2025-01-05" "" (First_full 100) eq_refl)).
  right. reflexivity.
Defined.

(** ** [assign_tenant] then [add_payment]: the rent a new tenant owes *)

Lemma find_property_after_status_row (property_id : Z) (status : string) (d : db) :
  find_property property_id (update_property_status property_id status d)
  = option_map
      (fun p => {| p_id := p_id p; p_title := p_title p;
                   p_landlord_id := p_landlord_id p; p_price := p_price p;
                   p_status := status |})
      (find_property property_id d).
Proof.
  unfold find_property, update_property_status. cbn [properties with_properties].
  induction (properties d) as [|x l IH]; cbn; [reflexivity|].
  destruct (p_id x =? property_id) eqn:E; cbn.
  - rewrite E. reflexivity.
  - rewrite E. exact IH.
Qed.

Lemma find_property_price_after_unit_assignment (d : db)
    (tenant_id property_id unit_id : Z) :
  option_map p_price
    (find_property property_id
       (stored_after_unit_assignment d tenant_id property_id unit_id))
  = option_map p_price (find_property property_id d).
Proof.
  unfold stored_after_unit_assignment.
  destruct (all_units_counted_occupied _ _).
  - rewrite find_property_after_status_row.
    change (find_property property_id
              (update_unit_occupied unit_id tenant_id
                 (update_tenant_links tenant_id (Some property_id) (Some unit_id) d)))
      with (find_property property_id d).
    destruct (find_property property_id d); reflexivity.
  - reflexivity.
Qed.

(** X17. The rent a newly assigned tenant owes.  After a successful
    assignment to a unit, [add_payment] measures the tenant's payments against
    the unit's price, provided the property row exists; [assign_tenant] does
    not check that it does, and when it does not the tenant's rent does not
    resolve (and [add_payment] answers "Tenant not found").  After a
    successful assignment to a property without a unit, the rent due is the
    property's price. *)
Theorem rent_due_after_assignment (d : db) (tenant_id property_id : Z)
    (unit_id : option Z) (msg : message) (code : Z) :
  tenant_id <> 0 -> property_id <> 0 ->
  let call := run (assign_tenant (Some tenant_id) (Some property_id) unit_id) d in
  let after := committed (snd call) in
  fst call = Json true msg code ->
  match requested_unit unit_id with
  | Some uid =>
      exists u, find_unit uid d = Some u
                /\ (find_property property_id d <> None ->
                    rent_due tenant_id after = u_price u)
                /\ (find_property property_id d = None ->
                    select_tenant_join tenant_id after = None)
  | None =>
      exists p, find_property property_id d = Some p
                /\ rent_due tenant_id after = p_price p
  end.
Proof.
  intros Ht Hp call after H. subst after call.
  destruct (assign_tenant_outcomes d tenant_id property_id unit_id Ht Hp)
    as [[m [c E]]|[[t [uid [u [tr [Hft [Ha [Hru [Hfu [Hup [Hv E]]]]]]]]]]
                   |[t [p [tr [Hft [Ha [Hru [Hfp [Hv E]]]]]]]]]].
  - rewrite E in H. discriminate.
  - rewrite Hru, E. cbn [snd settled committed].
    destruct (stored_after_unit_assignment_tables d tenant_id property_id uid)
      as [Htn Hun].
    pose proof (find_property_price_after_unit_assignment d tenant_id property_id uid)
      as Hprice.
    set (d1 := stored_after_unit_assignment d tenant_id property_id uid) in *.
    assert (find_tenant tenant_id d1
            = Some {| t_id := t_id t; t_full_name := t_full_name t;
                      t_lease_start_date := t_lease_start_date t;
                      t_lease_end_date := t_lease_end_date t;
                      t_property_id := Some property_id; t_unit_id := Some uid |}) as Hft1.
    { rewrite (find_tenant_same tenant_id _ _ Htn).
      apply find_tenant_after_links. exact Hft. }
    assert (find_unit uid d1
            = Some {| u_id := u_id u; u_property_id := u_property_id u;
                      u_price := u_price u; u_status := "Occupied";
                      u_tenant_id := Some tenant_id |}) as Hfu1.
    { rewrite (find_unit_same uid _ _ Hun). apply find_unit_after_occupy. exact Hfu. }
    exists u. split; [exact Hfu|]. split.
    + intros Hex. rewrite rent_due_join. unfold select_tenant_join. rewrite Hft1. cbn [t_property_id].
      destruct (find_property property_id d1) as [p1|] eqn:Hp1.
      * unfold row_rent_amount, row_unit_price. cbn [j_tenant j_unit t_unit_id].
        rewrite Hfu1. reflexivity.
      * exfalso. destruct (find_property property_id d); [discriminate Hprice | congruence].
    + intros Hno. unfold select_tenant_join. rewrite Hft1. cbn [t_property_id].
      rewrite Hno in Hprice.
      destruct (find_property property_id d1); [discriminate Hprice | reflexivity].
  - rewrite Hru, E. cbn [snd settled committed].
    exists p. split; [exact Hfp|].
    unfold stored_after_property_assignment.
    set (d0 := update_tenant_links tenant_id (Some property_id) None d).
    rewrite rent_due_join. unfold select_tenant_join.
    assert (find_tenant tenant_id (update_property_status property_id "Occupied" d0)
            = Some {| t_id := t_id t; t_full_name := t_full_name t;
                      t_lease_start_date := t_lease_start_date t;
                      t_lease_end_date := t_lease_end_date t;
                      t_property_id := Some property_id; t_unit_id := None |}) as ->
      by (apply (find_tenant_after_links tenant_id (Some property_id) None d t Hft)).
    cbn [t_property_id]. rewrite find_property_after_status_row.
    change (find_property property_id d0) with (find_property property_id d).
    rewrite Hfp. reflexivity.
Qed.

(** Tenant 7 takes unit 1 of the sample registry, priced 800. *)
Lemma rent_due_after_assignment_witness :
  (7 <> 0 /\ 1 <> 0)
  /\ rent_due 7 (committed (snd (run (assign_tenant (Some 7) (Some 1) (Some 1))
                                  sample_registry))) = Some 800%float.
Proof.
  split; [split; lia|].
  assert (7 <> 0) as H7 by lia. assert (1 <> 0) as H1 by lia.
  destruct (rent_due_after_assignment sample_registry 7 1 (Some 1)
              (Plain "Tenant assigned successfully") 200 H7 H1 eq_refl)
    as [u [Hfu [Hrent _]]].
  rewrite Hrent; [|discriminate].
  cbn in Hfu. injection Hfu as <-. reflexivity.
Defined.
